(** * EasyScripts / YoutubeTranscriptDownloader: a shallow embedding

    The development embeds the two Python programs of the repository,
    [AiReformatter.py] and [YoutubeTranscriptDownloader.py], as Rocq
    functions and proves properties of them.

    Conventions.
    - A Python [str] is a list of Unicode code points ([pystr]); the
      Unicode character database of the interpreter (which code points
      [\w], [\s], [\d], [str.isdigit] and [str.lower] recognise outside
      ASCII) is a table the model is parameterised by.  The ASCII part of
      every class is written out.
    - Values read from JSON files are dynamically typed ([json]); Python
      dictionaries keep their insertion order and are association lists.
    - Code that can raise returns a [result]; code with effects threads a
      [world] (file store, console output, pending console input). *)

From Stdlib Require Import ZArith NArith List String Ascii Bool Lia PrimFloat.
From stdpp Require Import base option list gmap.

Set Warnings "-register-all".
Set Default Proof Using "Type".

(* ================================================================== *)
(** * Python strings                                                    *)
(* ================================================================== *)

Definition codepoint : Type := N.
Abbreviation pystr := (list N).

(** A Rocq string literal read as a Python string (one code point per
    character; the literals of the sources are ASCII). *)
Definition py (s : string) : pystr := map N_of_ascii (list_ascii_of_string s).
Arguments py : simpl never.

Fixpoint pystr_eqb (a b : pystr) : bool :=
  match a, b with
  | [], [] => true
  | x :: a', y :: b' => N.eqb x y && pystr_eqb a' b'
  | _, _ => false
  end.

Definition is_empty (s : pystr) : bool :=
  match s with [] => true | _ => false end.

(** The interpreter's Unicode tables for code points above ASCII. *)
Record unicode_tables : Type := {
  uni_alnum : N -> bool;          (* alphanumeric: the non-ASCII part of \w *)
  uni_space : N -> bool;          (* whitespace: \s and str.strip *)
  uni_decimal : N -> option N;    (* decimal digit value: \d and int() *)
  uni_isdigit : N -> bool;        (* str.isdigit *)
  uni_lower : N -> pystr          (* str.lower of one code point *)
}.

(** Tables that recognise nothing outside ASCII; used to run the model
    on concrete ASCII inputs. *)
Definition ascii_only : unicode_tables :=
  {| uni_alnum := fun _ => false;
     uni_space := fun _ => false;
     uni_decimal := fun _ => None;
     uni_isdigit := fun _ => false;
     uni_lower := fun c => [c] |}.

Definition in_range (lo hi c : N) : bool := ((lo <=? c) && (c <=? hi))%N.

Definition ascii_alnum (c : N) : bool :=
  in_range 48 57 c || in_range 65 90 c || in_range 97 122 c.

(** ASCII whitespace of Python 3 strings: TAB..CR, FS..US and SPACE. *)
Definition ascii_space (c : N) : bool := in_range 9 13 c || in_range 28 32 c.

Fixpoint drop_while (p : N -> bool) (s : pystr) : pystr :=
  match s with
  | c :: r => if p c then drop_while p r else s
  | [] => []
  end.

(** [s[:n]] for an integer [n], negative [n] counting from the end. *)
Definition slice_to (n : Z) (s : pystr) : pystr :=
  if (0 <=? n)%Z then firstn (Z.to_nat n) s
  else firstn (length s - Z.to_nat (- n)) s.

Definition startswith (s prefix : pystr) : bool :=
  pystr_eqb (firstn (length prefix) s) prefix.

Definition endswith (s suffix : pystr) : bool :=
  pystr_eqb (skipn (length s - length suffix) s) suffix.

(** Decimal digits of a natural number, most significant first. *)
Fixpoint dec_digits (fuel : nat) (n : N) (acc : pystr) : pystr :=
  match fuel with
  | O => acc
  | S f =>
      let acc' := (48 + n mod 10)%N :: acc in
      if (n <? 10)%N then acc' else dec_digits f (n / 10)%N acc'
  end.

Definition str_of_N (n : N) : pystr := dec_digits (S (N.to_nat (N.log2 n))) n [].

(** [f"{n:02}"] for a non-negative integer. *)
Definition format_02 (n : N) : pystr :=
  let d := str_of_N n in
  repeat 48%N (2 - length d) ++ d.

Definition nl : pystr := [10%N].

(** [sep.join(parts)] *)
Fixpoint join (sep : pystr) (parts : list pystr) : pystr :=
  match parts with
  | [] => []
  | [p] => p
  | p :: rest => p ++ sep ++ join sep rest
  end.

(* ================================================================== *)
(** * Python values, exceptions                                         *)
(* ================================================================== *)

(** What [json.load] produces.  [JNull] is Python's [None]; an object
    is a [dict], kept as the list of its items in insertion order. *)
Inductive json : Type :=
| JNull
| JBool (b : bool)
| JInt (n : Z)
| JFloat (f : PrimFloat.float)
| JStr (s : pystr)
| JArr (items : list json)
| JObj (items : list (pystr * json)).

Inductive exn : Type :=
| KeyError (key : pystr)
| TypeError
| AttributeError
| IndexError
| ValueError
| JSONDecodeError
| FileNotFoundError (p : pystr)
| IsADirectoryError (p : pystr)
| PermissionError (p : pystr)
| EOFError
| APIError (detail : pystr).

Inductive result (A : Type) : Type :=
| Ok (a : A)
| Raise (e : exn).
Arguments Ok {A} a.
Arguments Raise {A} e.

Definition rbind {A B} (r : result A) (k : A -> result B) : result B :=
  match r with Ok a => k a | Raise e => Raise e end.

Notation "'let?' x ':=' r 'in' k" := (rbind r (fun x => k))
  (at level 10, x name, r at level 100, k at level 200).

(** Truth value of a Python object ([if v:], [not v], [a and b], [a or b]). *)
Definition truthy (v : json) : bool :=
  match v with
  | JNull => false
  | JBool b => b
  | JInt n => negb (n =? 0)%Z
  | JFloat f => negb (PrimFloat.eqb f PrimFloat.zero)
  | JStr s => negb (is_empty s)
  | JArr l => match l with [] => false | _ => true end
  | JObj l => match l with [] => false | _ => true end
  end.

Fixpoint assoc_get (k : pystr) (d : list (pystr * json)) : option json :=
  match d with
  | [] => None
  | (k', v) :: r => if pystr_eqb k' k then Some v else assoc_get k r
  end.

(** [d[k] = v]: an existing key keeps its position, a new one goes last. *)
Fixpoint assoc_set (k : pystr) (v : json) (d : list (pystr * json))
  : list (pystr * json) :=
  match d with
  | [] => [(k, v)]
  | (k', v') :: r =>
      if pystr_eqb k' k then (k', v) :: r else (k', v') :: assoc_set k v r
  end.

(** [v[k]] with a string key: [KeyError] on a dict without the key,
    [TypeError] on anything that is not a dict. *)
Definition getitem (v : json) (k : pystr) : result json :=
  match v with
  | JObj d =>
      match assoc_get k d with
      | Some x => Ok x
      | None => Raise (KeyError k)
      end
  | _ => Raise TypeError
  end.

(** [v.get(k)]: [None] for a missing key; only a dict has the method. *)
Definition dict_get (v : json) (k : pystr) : result json :=
  match v with
  | JObj d => Ok (default JNull (assoc_get k d))
  | _ => Raise AttributeError
  end.

(** [list(v.keys())] *)
Definition dict_keys (v : json) : result (list pystr) :=
  match v with
  | JObj d => Ok (map fst d)
  | _ => Raise AttributeError
  end.

(** [v[k] = x] on a dict. *)
Definition setitem (v : json) (k : pystr) (x : json) : result json :=
  match v with
  | JObj d => Ok (JObj (assoc_set k x d))
  | _ => Raise TypeError
  end.

(** A string argument: what [re.sub] and [str.join] demand. *)
Definition as_str (v : json) : result pystr :=
  match v with
  | JStr s => Ok s
  | _ => Raise TypeError
  end.

Fixpoint result_all {A} (l : list (result A)) : result (list A) :=
  match l with
  | [] => Ok []
  | r :: rest =>
      let? a := r in
      let? others := result_all rest in
      Ok (a :: others)
  end.

(* ================================================================== *)
(** * The world: file store, console, network, the reformatter object  *)
(* ================================================================== *)

(** A path as the operating system resolves it: its components, with an
    empty first component for an absolute path. *)
Abbreviation path := (list (list N)).

Record file : Type := File { f_data : list N; f_readable : bool }.

(** print / iprint / wprint / eprint of prettyPrint.py, the prompt of
    [input], and [logging.error]. *)
Inductive level : Type := Plain | Info | Warn | Err | Prompt | LogError.

(** A printed line: the literal text of the source and the values its
    f-string interpolates. *)
Inductive fragment : Type :=
| Lit (s : string)
| FStr (s : pystr)
| FNum (n : Z)
| FJson (v : json)
| FExn (e : exn).

Abbreviation message := (list fragment).

(** The API client built by [OpenAI(api_key=..., base_url=...)]. *)
Record client : Type := Client { api_key : json; base_url : json }.

Record chat_request : Type := ChatRequest {
  req_model : json;
  req_messages : list (pystr * pystr);     (* role, content *)
  req_response_format : json;
  req_stream : bool
}.

(** What the program reads of a chat completion: the truthy [error] of
    [response.choices.model_extra] when there is one, and the message
    content of each choice. *)
Record response : Type := Response {
  choices_error : option pystr;
  choices : list (option pystr)
}.

Inductive api_outcome : Type :=
| ApiRaises (e : exn)                 (* the call raised *)
| ApiReturns (r : option response).   (* [None]: a falsy response object *)

Record world : Type := World {
  fs_files : gmap path file;
  fs_dirs : gset path;
  stdout : list (level * message);
  stdin : list pystr;                       (* lines still to be typed *)
  net_in : list api_outcome;                (* outcomes of the calls to come *)
  net_out : list (client * chat_request);   (* calls made so far *)
  _provider : json;                         (* AiReformatter._provider *)
  _client : option client                   (* AiReformatter._client *)
}.

Definition set_fs_files (f : gmap path file) (w : world) : world :=
  World f (fs_dirs w) (stdout w) (stdin w) (net_in w) (net_out w) (_provider w) (_client w).
Definition set_fs_dirs (d : gset path) (w : world) : world :=
  World (fs_files w) d (stdout w) (stdin w) (net_in w) (net_out w) (_provider w) (_client w).
Definition set_stdout (o : list (level * message)) (w : world) : world :=
  World (fs_files w) (fs_dirs w) o (stdin w) (net_in w) (net_out w) (_provider w) (_client w).
Definition set_stdin (i : list pystr) (w : world) : world :=
  World (fs_files w) (fs_dirs w) (stdout w) i (net_in w) (net_out w) (_provider w) (_client w).
Definition set_net (i : list api_outcome) (o : list (client * chat_request)) (w : world) : world :=
  World (fs_files w) (fs_dirs w) (stdout w) (stdin w) i o (_provider w) (_client w).
Definition set__provider (p : json) (w : world) : world :=
  World (fs_files w) (fs_dirs w) (stdout w) (stdin w) (net_in w) (net_out w) p (_client w).
Definition set__client (c : option client) (w : world) : world :=
  World (fs_files w) (fs_dirs w) (stdout w) (stdin w) (net_in w) (net_out w) (_provider w) c.

(** Statements: a state and exception monad over the world. *)
Definition M (A : Type) : Type := world -> result A * world.

Definition ret {A} (a : A) : M A := fun w => (Ok a, w).
Definition raise {A} (e : exn) : M A := fun w => (Raise e, w).
Definition lift {A} (r : result A) : M A := fun w => (r, w).
Definition bind {A B} (m : M A) (k : A -> M B) : M B :=
  fun w => match m w with
           | (Ok a, w') => k a w'
           | (Raise e, w') => (Raise e, w')
           end.

(** [try: m  except Exception as e: h e] *)
Definition try_except {A} (m : M A) (h : exn -> M A) : M A :=
  fun w => match m w with
           | (Ok a, w') => (Ok a, w')
           | (Raise e, w') => h e w'
           end.

Notation "'let*' x ':=' m 'in' k" := (bind m (fun x => k))
  (at level 10, x name, m at level 100, k at level 200).
Notation "'do*' m 'in' k" := (bind m (fun _ => k))
  (at level 10, m at level 100, k at level 200).

Definition emit (l : level) (m : message) : M unit :=
  fun w => (Ok tt, set_stdout (stdout w ++ [(l, m)]) w).

Definition print (m : message) : M unit := emit Plain m.
Definition iprint (m : message) : M unit := emit Info m.
Definition wprint (m : message) : M unit := emit Warn m.
Definition eprint (m : message) : M unit := emit Err m.

(** [input(prompt)] *)
Definition input (prompt : message) : M pystr :=
  do* emit Prompt prompt in
  fun w => match stdin w with
           | line :: rest => (Ok line, set_stdin rest w)
           | [] => (Raise EOFError, w)
           end.

(** [for x in items: body x] *)
Fixpoint for_each {A} (items : list A) (body : A -> M unit) : M unit :=
  match items with
  | [] => ret tt
  | x :: rest => do* body x in for_each rest body
  end.

(** ** Paths *)

Definition slash : N := 47.

Fixpoint split_on (sep : N) (s : pystr) : list pystr :=
  match s with
  | [] => [[]]
  | c :: r =>
      if (c =? sep)%N then [] :: split_on sep r
      else match split_on sep r with
           | x :: xs => (c :: x) :: xs
           | [] => [[c]]
           end
  end.

(** One component added to a resolved path: [.] and empty components
    vanish, [..] leaves the directory it follows. *)
Definition path_step (acc : path) (comp : pystr) : path :=
  if is_empty comp || pystr_eqb comp (py ".") then acc
  else if pystr_eqb comp (py "..") then
    match rev acc with
    | [] => [comp]
    | top :: below =>
        if is_empty top then acc
        else if pystr_eqb top (py "..") then acc ++ [comp]
        else rev below
    end
  else acc ++ [comp].

(** How the system resolves a path string (POSIX, no symbolic links). *)
Definition resolve (p : pystr) : path :=
  fold_left path_step (split_on slash p)
    (if startswith p [slash] then [[]] else []).

(** [os.path.join(a, b)] (POSIX) *)
Definition os_path_join (a b : pystr) : pystr :=
  if startswith b [slash] then b
  else if is_empty a || endswith a [slash] then a ++ b
  else a ++ [slash] ++ b.

Fixpoint prefixes (p : path) : list path :=
  match p with
  | [] => []
  | c :: r => [c] :: map (cons c) (prefixes r)
  end.

(** [os.makedirs(p, exist_ok=True)]: the directory and every missing
    ancestor.  The store is ideal: creating a directory and writing a
    file always succeed. *)
Definition os_makedirs (p : pystr) : M unit :=
  fun w => (Ok tt, set_fs_dirs (fs_dirs w ∪ list_to_set (prefixes (resolve p))) w).

(** [os.path.exists(p)] *)
Definition os_path_exists (p : pystr) (w : world) : bool :=
  bool_decide (is_Some (fs_files w !! resolve p)) || bool_decide (resolve p ∈ fs_dirs w).

(** The whole content of a file opened for reading. *)
Definition read_file (p : pystr) : M (list N) :=
  fun w => match fs_files w !! resolve p with
           | Some f =>
               if f_readable f then (Ok (f_data f), w)
               else (Raise (PermissionError p), w)
           | None =>
               if bool_decide (resolve p ∈ fs_dirs w)
               then (Raise (IsADirectoryError p), w)
               else (Raise (FileNotFoundError p), w)
           end.

(** A file opened with mode ["w"], written and closed: the old content
    is replaced, a new file is created readable. *)
Definition store (p : path) (data : list N) (files : gmap path file) : gmap path file :=
  <[p := File data (match files !! p with
                    | Some old => f_readable old
                    | None => true
                    end)]> files.

Definition write_file (p : pystr) (data : list N) : M unit :=
  fun w => (Ok tt, set_fs_files (store (resolve p) data (fs_files w)) w).

Section Programs.

(** The interpreter's Unicode tables. *)
Variable tbl : unicode_tables.

(** The [json] library: [json.loads] ([None] for a [JSONDecodeError]) and
    [json.dumps] with its [ensure_ascii] and [indent] arguments. *)
Variable json_loads : pystr -> option json.
Variable json_dumps : bool -> option nat -> json -> pystr.

(** The directory listings of the operating system, whose order the
    programs follow: [os.listdir] and the triples of [os.walk]. *)
Variable os_listdir :
  gmap path file -> gset path -> pystr -> result (list pystr).
Variable os_walk :
  gmap path file -> gset path -> pystr -> list (pystr * list pystr * list pystr).

(** [hashlib.sha1(data).hexdigest()] *)
Variable sha1_hexdigest : list N -> pystr.

Definition is_word (c : N) : bool :=
  if (c <? 128)%N then ascii_alnum c || (c =? 95)%N else uni_alnum tbl c.

Definition is_space (c : N) : bool :=
  if (c <? 128)%N then ascii_space c else uni_space tbl c.

Definition decimal_value (c : N) : option N :=
  if (c <? 128)%N then (if in_range 48 57 c then Some (c - 48)%N else None)
  else uni_decimal tbl c.

Definition is_decimal (c : N) : bool :=
  match decimal_value c with Some _ => true | None => false end.

(** [str.isdigit]: non-empty and every character a digit. *)
Definition char_isdigit (c : N) : bool :=
  if (c <? 128)%N then in_range 48 57 c else uni_isdigit tbl c.

Definition isdigit (s : pystr) : bool := negb (is_empty s) && forallb char_isdigit s.

Definition char_lower (c : N) : pystr :=
  if (c <? 128)%N then [if in_range 65 90 c then (c + 32)%N else c]
  else uni_lower tbl c.

Definition lower (s : pystr) : pystr := flat_map char_lower s.

(** [str.strip()] *)
Definition lstrip (s : pystr) : pystr := drop_while is_space s.
Definition rstrip (s : pystr) : pystr := rev (drop_while is_space (rev s)).
Definition strip (s : pystr) : pystr := rstrip (lstrip s).

(** [int(s)] on a string of decimal digits (the only strings the
    programs pass once [\d+] or [isdigit] has accepted them); [None]
    stands for [ValueError].  The interpreter's configurable cap on the
    number of digits is not modelled. *)
Fixpoint int_digits (acc : N) (s : pystr) : option N :=
  match s with
  | [] => Some acc
  | c :: r =>
      match decimal_value c with
      | Some d => int_digits (10 * acc + d)%N r
      | None => None
      end
  end.

Definition py_int (s : pystr) : option N :=
  if is_empty s then None else int_digits 0 s.

(* ================================================================== *)
(** * Filename sanitizers                                               *)
(* ================================================================== *)

(** The character class [[^\w\-\s]] matches exactly the characters that
    are not kept. *)
Definition sanitize_keep (c : N) : bool := is_word c || (c =? 45)%N || is_space c.

(** [re.sub(r"[^\w\-\s]", "", s)] *)
Definition re_sub_sanitize (s : pystr) : pystr := List.filter sanitize_keep s.

(** AiReformatter._sanitize_filename *)
Definition _sanitize_filename (title : pystr) : pystr :=
  let sanitized := re_sub_sanitize title in
  sanitized.

(** YoutubeTranscriptDownloader.sanitize_filename, with the default
    pattern of DEFAULT_CONFIG; [max_length] defaults to
    TRANSCRIPT_FILENAME_LENGTH. *)
Definition TRANSCRIPT_FILENAME_LENGTH : Z := 36.

Definition sanitize_filename (name : pystr) (max_length : Z) : pystr :=
  let sanitized := slice_to max_length (strip (re_sub_sanitize name)) in
  if is_empty sanitized then py "untitled" else sanitized.

(* ================================================================== *)
(** * format_duration                                                   *)
(* ================================================================== *)

(** [(\d+)] tried at the head of [s]: the longest run of decimal digits
    and what follows it. *)
Fixpoint span_digits (s : pystr) : pystr * pystr :=
  match s with
  | c :: r =>
      if is_decimal c then
        let (d, r') := span_digits r in (c :: d, r')
      else ([], s)
  | [] => ([], [])
  end.

(** [(?:(\d+)X)?] tried at the head of [s]: the captured digits, if the
    group takes part in the match, and the rest of the input.  The unit
    letter is not a digit, so giving back digits never helps the group. *)
Definition opt_component (letter : N) (s : pystr) : option pystr * pystr :=
  match span_digits s with
  | (d, c :: r) =>
      if negb (is_empty d) && (c =? letter)%N then (Some d, r) else (None, s)
  | (_, []) => (None, s)
  end.

(** [re.match(r"PT(?:(\d+)H)?(?:(\d+)M)?(?:(\d+)S)?", s)]: the three
    groups, or [None] when there is no match.  [re.match] anchors the
    pattern at the start of the input only. *)
Definition match_iso_duration (s : pystr)
  : option (option pystr * option pystr * option pystr) :=
  if startswith s (py "PT") then
    let (h, r1) := opt_component 72 (skipn 2 s) in
    let (m, r2) := opt_component 77 r1 in
    let (sec, _) := opt_component 83 r2 in
    Some (h, m, sec)
  else None.

(** [int(g) if g else 0] for a captured group. *)
Definition group_int (g : option pystr) : N :=
  match g with
  | Some d => if is_empty d then 0%N else default 0%N (py_int d)
  | None => 0%N
  end.

Definition format_duration (iso_duration : pystr) : pystr :=
  match match_iso_duration iso_duration with
  | None => py "00:00"
  | Some (hours, minutes, _) =>
      let hours := group_int hours in
      let minutes := group_int minutes in
      format_02 hours ++ py ":" ++ format_02 minutes
  end.

(* ================================================================== *)
(** * AiReformatter                                                     *)
(* ================================================================== *)

Definition loads (s : pystr) : result json :=
  match json_loads s with
  | Some v => Ok v
  | None => Raise JSONDecodeError
  end.

Definition get__provider : M json := fun w => (Ok (_provider w), w).

Definition _set_client (api_key base_url : json) : M unit :=
  fun w => (Ok tt, set__client (Some (Client api_key base_url)) w).

(** The setter of the [provider] property. *)
Definition provider_setter (value : json) : M unit :=
  do* (fun w => (Ok tt, set__provider value w)) in
  if truthy value then
    let* k := lift (getitem value (py "api_key")) in
    let* u := lift (getitem value (py "base_url")) in
    _set_client k u
  else ret tt.

Definition set_provider (provider_name : pystr) : M json :=
  let* data := read_file (py "API_KEY.json") in
  let* api_keys := lift (loads data) in
  let* ai_providers := lift (getitem api_keys (py "ai-providers")) in
  let* provider := lift (dict_get ai_providers provider_name) in
  do* (if negb (truthy provider)
       then eprint [Lit "Provider '"; FStr provider_name; Lit "' not found"]
       else ret tt) in
  let* k := lift (getitem provider (py "api_key")) in
  let* u := lift (getitem provider (py "base_url")) in
  do* _set_client k u in
  do* provider_setter provider in
  ret provider.

Definition AiReformatter__init__ (ai_provider : pystr) : M unit :=
  do* (fun w => (Ok tt, set__client None (set__provider JNull w))) in
  do* set_provider ai_provider in
  ret tt.

Definition _create_system_prompt : pystr := py "
You are an expert technical trainer and have been tasked with improving upon poorly written training material.
You will be teaching students who know almost nothing about the topic, so you must hold their hand through every step.
Every single step should have code examples, detailed explanations, and highlight both how and why each step is done.

Create a extremely comprehensive instructional guide following these requirements:

Bullet point lists are not enough! EVERY SINGLE STEP must be HIGHLY DETAILED, as to avoid the student making a mistake or getting confused.

Do not assume the student knows anything about the topic. Provide detailed explanations for every step.

Pretend you are writing an instruction manual for a robot to follow. The robot is very smart, but knows nothing about the topic.

Format markdown to include:
- Bold text for important facts
- Italic text for technical terms/code
- Step-by-step instructions, assuming the reader knows nothing about any of the topics covered
- Tables where applicable

Focus on:
- Detailed explanations of each step
- Technical accuracy
- Exhaustive coverage of the original content, without skipping any topics or steps covered in the original material. The new material should be at least as detailed as the original.

Maintain these specifications:
- No patreon references
- Clear, detailed code examples whenever coding or commandline executions must be performed. Including code comments explaining any lines of code which may bring up questions from the reader.
- If any section seems unclear, provide additional examples or explanation; more is better!

Format the content without mentioning markdown syntax directly.

It's important to follow the above requirements to ensure the content is accurate and helpful to the intended audience. The fate of the world depends on it!

All JSON special characters MUST be properly escaped to avoid syntax errors. People may die if there are syntax errors, so please be careful with your formatting.
".

Definition _combine_transcript (transcript : json) : result pystr :=
  match transcript with
  | JArr segments =>
      let? texts := result_all (map (fun segment => getitem segment (py "text")) segments) in
      let? parts := result_all (map as_str texts) in
      Ok (join (py " ") parts)
  | JObj [] | JStr [] => Ok []
  | _ => Raise TypeError
  end.

Definition user_prompt (metadata full_text : pystr) : pystr :=
  py "Based on the included transcript, please provide:
A concise yet descriptive plain-text title (15 words max).
An accurate plain-text summary which covers every topic (50 words max).
Well-structured, extremely detailed markdown-formatted content with:
- Proper JSON special character escaping
- Clear formatting and grammar
- Removal of filler phrases ('um', 'actually')
- Organized sections with appropriate headings
- TONS of examples and explanations, without skipping or glossing over any steps. Be specific, and explain everything!

Original metadata: " ++ metadata ++ py "
Transcript: " ++ full_text.

Definition json_response_schema : json :=
  let str_field (description : string) :=
    JObj [(py "type", JStr (py "string")); (py "description", JStr (py description))] in
  JObj [
    (py "type", JStr (py "json_schema"));
    (py "json_schema", JObj [
      (py "name", JStr (py "Reformatted transcript"));
      (py "strict", JStr (py "true"));
      (py "schema", JObj [
        (py "type", JStr (py "object"));
        (py "properties", JObj [
          (py "title", str_field "A title (15 words max)"%string);
          (py "summary", str_field "A summary (50 words max)"%string);
          (py "content", str_field
             "The markdown-formatted content with all JSON special characters properly escaped"%string)]);
        (py "required", JArr [JStr (py "title"); JStr (py "summary"); JStr (py "content")])])])].

(** [self._client.chat.completions.create(...)]: the next outcome the
    network has in store; a network with nothing left fails the call. *)
Definition chat_completions_create (req : chat_request) : M (option response) :=
  fun w =>
    match _client w with
    | None => (Raise AttributeError, w)
    | Some c =>
        let sent := net_out w ++ [(c, req)] in
        match net_in w with
        | ApiReturns r :: rest => (Ok r, set_net rest sent w)
        | ApiRaises e :: rest => (Raise e, set_net rest sent w)
        | [] => (Raise (APIError []), set_net [] sent w)
        end
    end.

(** [a.get("title") and a.get("summary") and a.get("content")] as the
    condition of an [if]. *)
Definition has_all_fields (json_response : json) : result bool :=
  let? title := dict_get json_response (py "title") in
  if truthy title then
    let? summary := dict_get json_response (py "summary") in
    if truthy summary then
      let? content := dict_get json_response (py "content") in
      Ok (truthy content)
    else Ok false
  else Ok false.

(** The second [try] block of [reformat_transcript], once a response
    object is there. *)
Definition save_response (input_json : json) (response : option response) : M json :=
  do* print [Lit "Response received from AI."] in
  match response with
  | None =>
      do* eprint [Lit "Error: Empty response from AI"] in
      ret JNull
  | Some r =>
      match choices_error r with
      | Some err =>
          do* eprint [Lit "Error: "; FStr err] in
          ret JNull
      | None =>
          let* first := lift (match choices r with
                              | c :: _ => Ok c
                              | [] => Raise IndexError
                              end) in
          let* json_response :=
            lift (match first with
                  | Some s => if is_empty s then Raise TypeError else loads s
                  | None => Raise TypeError
                  end) in
          let* valid := lift (has_all_fields json_response) in
          if valid then
            do* print [Lit "Response is valid! Saving to file..."] in
            let* metadata := lift (getitem input_json (py "metadata")) in
            let* name := lift (getitem metadata (py "channel_name")) in
            let* name := lift (as_str name) in
            let channel_name := _sanitize_filename name in
            let output_dir := os_path_join (py "processed") channel_name in
            do* os_makedirs output_dir in
            let* title := lift (getitem json_response (py "title")) in
            let* title := lift (as_str title) in
            let filename := _sanitize_filename title ++ py ".json" in
            let filepath := os_path_join output_dir filename in
            do* write_file filepath (json_dumps false (Some 4) json_response) in
            do* iprint [Lit "File processed successfully"] in
            ret json_response
          else
            do* eprint [Lit "Error: Invalid response from AI"] in
            do* eprint [Lit "File processing failed"] in
            ret JNull
      end
  end.

(** [reformat_transcript]; the result [JNull] is Python's [None]. *)
Definition reformat_transcript (input_json : json) : M json :=
  let* transcript := lift (getitem input_json (py "transcript")) in
  let* full_text := lift (_combine_transcript transcript) in
  let* metadata := lift (getitem input_json (py "metadata")) in
  let prompt := user_prompt (json_dumps true None metadata) full_text in
  let* sent :=
    try_except
      (let* provider := get__provider in
       let* m := lift (dict_get provider (py "model")) in
       let model := if truthy m then m else JStr (py "o1") in
       do* print [Lit "Sending request to AI..."] in
       let* response :=
         chat_completions_create
           (ChatRequest model
              [(py "system", _create_system_prompt); (py "user", prompt)]
              json_response_schema false) in
       ret (Some response))
      (fun e =>
         do* eprint [Lit "Request to AI failed: "; FExn e] in
         ret None) in
  match sent with
  | None => ret JNull
  | Some response =>
      try_except (save_response input_json response)
        (fun e =>
           do* eprint [Lit "Error processing file: "; FExn e] in
           ret JNull)
  end.




(** [enumerate(items, start)] *)
Fixpoint enumerate {A} (items : list A) (start : Z) : list (Z * A) :=
  match items with
  | [] => []
  | x :: rest => (start, x) :: enumerate rest (start + 1)%Z
  end.

(** [x in ["", "y", "yes"]] *)
Definition is_yes (x : pystr) : bool :=
  is_empty x || pystr_eqb x (py "y") || pystr_eqb x (py "yes").

(** One turn of the [while True] loop of [select_ai_provider]: [true]
    when the loop goes round again ([continue], or the end of the body),
    [false] when the function returns. *)
Definition select_ai_provider_turn : M bool :=
  try_except
    (let* data := read_file (py "API_KEY.json") in
     let* api_keys := lift (loads data) in
     let* ai_providers := lift (getitem api_keys (py "ai-providers")) in
     let* keys := lift (dict_keys ai_providers) in
     let providers :=
       List.filter (fun key => negb (pystr_eqb key (py "default"))) keys in
     do* iprint [FStr nl; Lit "Available AI Providers:"] in
     do* for_each (enumerate providers 1) (fun '(i, provider) =>
           let* ai_providers := lift (getitem api_keys (py "ai-providers")) in
           let* profile := lift (getitem ai_providers provider) in
           let* name := lift (getitem profile (py "name")) in
           print [FNum i; Lit ". "; FJson name]) in
     do* wprint [FNum (Z.of_nat (length providers) + 1); Lit ". Go back"] in
     let* choice := input [FStr nl; Lit "Select provider number: "] in
     if negb (isdigit choice) then
       do* wprint [Lit "Please enter a valid number"] in
       ret true
     else
       let* n := lift (match py_int choice with
                       | Some n => Ok n
                       | None => Raise ValueError
                       end) in
       let choice := (Z.of_N n - 1)%Z in
       if (choice =? Z.of_nat (length providers))%Z then ret false
       else if (0 <=? choice)%Z && (choice <? Z.of_nat (length providers))%Z then
         let* selected_provider :=
           lift (match nth_error providers (Z.to_nat choice) with
                 | Some p => Ok p
                 | None => Raise IndexError
                 end) in
         let* answer := input [FStr nl; Lit "Set as default? [Y/n]: "] in
         let set_default := lower answer in
         if is_yes set_default then
           let* ai_providers := lift (getitem api_keys (py "ai-providers")) in
           let* profile := lift (getitem ai_providers selected_provider) in
           let* ai_providers := lift (setitem ai_providers (py "default") profile) in
           let* api_keys := lift (setitem api_keys (py "ai-providers") ai_providers) in
           do* write_file (py "API_KEY.json") (json_dumps true (Some 2) api_keys) in
           do* iprint [FStr selected_provider; Lit " set as default provider"] in
           ret false
         else ret false
       else
         do* wprint [Lit "Invalid selection"] in
         ret true)
    (fun e =>
       do* eprint [Lit "Error processing API keys: "; FExn e] in
       ret false).

(** The loop, bounded by a number of turns; [None] when the bound is
    reached before the function returns. *)
Fixpoint select_ai_provider_loop (turns : nat) : M (option unit) :=
  match turns with
  | O => ret None
  | S turns' =>
      let* again := select_ai_provider_turn in
      if again then select_ai_provider_loop turns' else ret (Some tt)
  end.

(** Every turn that goes round again has read a line, and a turn with
    nothing left to read returns: one turn more than there are lines is
    all the loop can take. *)
Definition select_ai_provider : M (option unit) :=
  fun w => select_ai_provider_loop (S (length (stdin w))) w.

(* ================================================================== *)
(** * YoutubeTranscriptDownloader: duplicate transcripts                *)
(* ================================================================== *)

(** [for x in items: state = body x state] *)
Fixpoint fold_each {A S} (items : list A) (body : A -> S -> M S) (s : S) : M S :=
  match items with
  | [] => ret s
  | x :: rest => let* s' := body x s in fold_each rest body s'
  end.

Definition CHUNK : nat := N.to_nat 8192.

(** [while chunk := f.read(8192): sha1.update(chunk)]: the bytes the
    hash object has been fed, [rest] being what the file still holds. *)
Fixpoint read_chunks (fuel : nat) (rest fed : list N) : list N :=
  match fuel with
  | O => fed
  | S fuel' =>
      let chunk := firstn CHUNK rest in
      if is_empty chunk then fed
      else read_chunks fuel' (skipn CHUNK rest) (fed ++ chunk)
  end.

(** [compute_sha1]: [None] when the file cannot be read. *)
Definition compute_sha1 (file_path : pystr) : M (option pystr) :=
  try_except
    (let* data := read_file file_path in
     ret (Some (sha1_hexdigest (read_chunks (S (length data)) data []))))
    (fun e =>
       do* emit LogError [Lit "Error computing SHA1 for "; FStr file_path; Lit ": "; FExn e] in
       ret None).

Abbreviation scan_state := (gmap (option (list N)) (list N) * list (pystr * pystr))%type.

(** The body of the inner loop: [hashes] and [duplicates] after one
    file name. *)
Definition scan_file (root file : pystr) (st : scan_state) : M scan_state :=
  let '(hashes, duplicates) := st in
  if endswith file (py ".txt") then
    let file_path := os_path_join root file in
    let* file_hash := compute_sha1 file_path in
    match hashes !! file_hash with
    | Some original => ret (hashes, duplicates ++ [(file_path, original)])
    | None => ret (<[file_hash := file_path]> hashes, duplicates)
    end
  else ret st.

Definition scan_tree (tree : list (pystr * list pystr * list pystr)) : M scan_state :=
  fold_each tree
    (fun '(root, _, files) st => fold_each files (scan_file root) st)
    (∅, []).

Definition duplicates_report (duplicates : list (pystr * pystr)) : pystr :=
  flat_map (fun '(dup, original) =>
              py "Duplicate: " ++ dup ++ nl ++ py "Original: " ++ original ++ nl ++ nl)
           duplicates.

Definition find_duplicate_transcripts : M unit :=
  let* transcripts_dir := input [Lit "Enter the path to search for duplicates: "] in
  let* found := (fun w => (Ok (os_path_exists transcripts_dir w), w)) in
  if negb found then print [Lit "Directory does not exist."]
  else
    let* tree := (fun w => (Ok (os_walk (fs_files w) (fs_dirs w) transcripts_dir), w)) in
    let* scanned := scan_tree tree in
    let duplicates := snd scanned in
    match duplicates with
    | _ :: _ =>
        let output_file := py "duplicates.txt" in
        do* write_file output_file (duplicates_report duplicates) in
        print [Lit "Saved duplicate transcripts to "; FStr output_file; Lit "."]
    | [] => print [Lit "No duplicate transcripts found."]
    end.

(* ================================================================== *)
(** * An executable stand-in for the libraries                          *)
(* ================================================================== *)

(** To run the programs on concrete files the parameters above need
    values.  [ref_dumps] and [ref_loads] print and parse JSON without
    floating-point numbers (code points up to U+FFFF under
    [ensure_ascii]); [ref_listdir] and [ref_walk] list the file store in
    the order of its keys; [ref_sha1] is the identity, a hash without
    collisions. *)

Definition hex_digit (n : N) : N := (if n <? 10 then 48 + n else 87 + n)%N.

Definition u_escape (c : N) : pystr :=
  [92; 117; hex_digit (c / 4096 mod 16); hex_digit (c / 256 mod 16);
   hex_digit (c / 16 mod 16); hex_digit (c mod 16)]%N.

Definition escape_char (ensure_ascii : bool) (c : N) : pystr :=
  (if c =? 34 then [92; 34]
   else if c =? 92 then [92; 92]
   else if c =? 10 then [92; 110]
   else if c =? 13 then [92; 114]
   else if c =? 9 then [92; 116]
   else if c =? 8 then [92; 98]
   else if c =? 12 then [92; 102]
   else if c <? 32 then u_escape c
   else if ensure_ascii && (126 <? c) then u_escape c
   else [c])%N.

Definition encode_string (ensure_ascii : bool) (s : pystr) : pystr :=
  [34%N] ++ flat_map (escape_char ensure_ascii) s ++ [34%N].

Definition str_of_Z (n : Z) : pystr :=
  if (n <? 0)%Z then 45%N :: str_of_N (Z.to_N (- n)) else str_of_N (Z.to_N n).

Definition newline_indent (indent : option nat) (depth : nat) : pystr :=
  match indent with
  | Some n => nl ++ repeat 32%N (n * depth)
  | None => []
  end.

Definition item_separator (indent : option nat) (depth : nat) : pystr :=
  match indent with
  | Some _ => py "," ++ newline_indent indent depth
  | None => py ", "
  end.

Fixpoint dumps_at (ensure_ascii : bool) (indent : option nat) (depth : nat) (v : json)
  : pystr :=
  match v with
  | JNull => py "null"
  | JBool true => py "true"
  | JBool false => py "false"
  | JInt n => str_of_Z n
  | JFloat _ => py "NaN"
  | JStr s => encode_string ensure_ascii s
  | JArr [] => py "[]"
  | JArr items =>
      py "[" ++ newline_indent indent (S depth)
      ++ join (item_separator indent (S depth))
              (map (dumps_at ensure_ascii indent (S depth)) items)
      ++ newline_indent indent depth ++ py "]"
  | JObj [] => py "{}"
  | JObj items =>
      py "{" ++ newline_indent indent (S depth)
      ++ join (item_separator indent (S depth))
              (map (fun kv => encode_string ensure_ascii (fst kv) ++ py ": "
                              ++ dumps_at ensure_ascii indent (S depth) (snd kv))
                   items)
      ++ newline_indent indent depth ++ py "}"
  end.

Definition ref_dumps (ensure_ascii : bool) (indent : option nat) (v : json) : pystr :=
  dumps_at ensure_ascii indent 0 v.

Definition json_ws (c : N) : bool :=
  ((c =? 32) || (c =? 10) || (c =? 13) || (c =? 9))%N.

Definition hex_value (c : N) : option N :=
  if in_range 48 57 c then Some (c - 48)%N
  else if in_range 97 102 c then Some (c - 87)%N
  else if in_range 65 70 c then Some (c - 55)%N
  else None.

(** The characters of a string up to its closing quote. *)
Fixpoint parse_string (fuel : nat) (s : pystr) : option (pystr * pystr) :=
  match fuel with
  | O => None
  | S fuel' =>
      match s with
      | 34%N :: r => Some ([], r)
      | 92%N :: 117%N :: a :: b :: c :: d :: r =>
          ha ← hex_value a; hb ← hex_value b; hc ← hex_value c; hd ← hex_value d;
          '(t, r') ← parse_string fuel' r;
          Some ((4096 * ha + 256 * hb + 16 * hc + hd)%N :: t, r')
      | 92%N :: e :: r =>
          ch ← (if e =? 34 then Some 34 else if e =? 92 then Some 92
                else if e =? 47 then Some 47 else if e =? 110 then Some 10
                else if e =? 114 then Some 13 else if e =? 116 then Some 9
                else if e =? 98 then Some 8 else if e =? 102 then Some 12
                else None)%N;
          '(t, r') ← parse_string fuel' r;
          Some (ch :: t, r')
      | c :: r =>
          if (c <? 32)%N then None
          else '(t, r') ← parse_string fuel' r; Some (c :: t, r')
      | [] => None
      end
  end.

Fixpoint parse_digits (acc : N) (s : pystr) : N * pystr :=
  match s with
  | c :: r => if in_range 48 57 c then parse_digits (10 * acc + (c - 48))%N r else (acc, s)
  | [] => (acc, [])
  end.

Definition starts_number_end (r : pystr) : bool :=
  match r with
  | c :: _ => negb ((c =? 46) || (c =? 101) || (c =? 69))%N
  | [] => true
  end.

Fixpoint parse_value (fuel : nat) (s : pystr) : option (json * pystr) :=
  match fuel with
  | O => None
  | S fuel' =>
      match drop_while json_ws s with
      | 110%N :: 117%N :: 108%N :: 108%N :: r => Some (JNull, r)
      | 116%N :: 114%N :: 117%N :: 101%N :: r => Some (JBool true, r)
      | 102%N :: 97%N :: 108%N :: 115%N :: 101%N :: r => Some (JBool false, r)
      | 34%N :: r => '(t, r') ← parse_string (S (length r)) r; Some (JStr t, r')
      | 91%N :: r =>
          match drop_while json_ws r with
          | 93%N :: r' => Some (JArr [], r')
          | _ => '(items, r') ← parse_items fuel' r; Some (JArr items, r')
          end
      | 123%N :: r =>
          match drop_while json_ws r with
          | 125%N :: r' => Some (JObj [], r')
          | _ => '(items, r') ← parse_members fuel' r; Some (JObj items, r')
          end
      | 45%N :: c :: r =>
          if in_range 48 57 c then
            let '(n, r') := parse_digits 0 (c :: r) in
            if starts_number_end r' then Some (JInt (- Z.of_N n), r') else None
          else None
      | c :: r =>
          if in_range 48 57 c then
            let '(n, r') := parse_digits 0 (c :: r) in
            if starts_number_end r' then Some (JInt (Z.of_N n), r') else None
          else None
      | [] => None
      end
  end
with parse_items (fuel : nat) (s : pystr) : option (list json * pystr) :=
  match fuel with
  | O => None
  | S fuel' =>
      '(v, r) ← parse_value fuel' s;
      match drop_while json_ws r with
      | 44%N :: r' => '(vs, r'') ← parse_items fuel' r'; Some (v :: vs, r'')
      | 93%N :: r' => Some ([v], r')
      | _ => None
      end
  end
with parse_members (fuel : nat) (s : pystr) : option (list (pystr * json) * pystr) :=
  match fuel with
  | O => None
  | S fuel' =>
      match drop_while json_ws s with
      | 34%N :: r =>
          '(k, r1) ← parse_string (S (length r)) r;
          match drop_while json_ws r1 with
          | 58%N :: r2 =>
              '(v, r3) ← parse_value fuel' r2;
              match drop_while json_ws r3 with
              | 44%N :: r4 => '(ms, r5) ← parse_members fuel' r4; Some ((k, v) :: ms, r5)
              | 125%N :: r4 => Some ([(k, v)], r4)
              | _ => None
              end
          | _ => None
          end
      | _ => None
      end
  end.

(** A later item with the same key replaces an earlier one, as in a
    [dict]. *)
Fixpoint dedup_keys (v : json) : json :=
  match v with
  | JArr items => JArr (map dedup_keys items)
  | JObj items =>
      JObj (fold_left (fun d kv => assoc_set (fst kv) (dedup_keys (snd kv)) d) items [])
  | _ => v
  end.

Definition ref_loads (s : pystr) : option json :=
  '(v, r) ← parse_value (S (length s)) s;
  if is_empty (drop_while json_ws r) then Some (dedup_keys v) else None.

Fixpoint strip_prefix (here p : path) : option path :=
  match here, p with
  | [], _ => Some p
  | h :: here', c :: p' => if pystr_eqb h c then strip_prefix here' p' else None
  | _ :: _, [] => None
  end.

Definition child_name (here p : path) : option pystr :=
  match strip_prefix here p with
  | Some [name] => Some name
  | _ => None
  end.


Definition ref_walk (files : gmap path file) (dirs : gset path) (top : pystr)
  : list (pystr * list pystr * list pystr) :=
  omap (fun d =>
          rel ← strip_prefix (resolve top) d;
          Some (fold_left os_path_join rel top,
                omap (child_name d) (elements dirs),
                omap (child_name d) (elements (dom files))))
       (elements dirs).

Definition ref_sha1 (data : list N) : pystr := data.

(** The parsed content of a chat message, when it has one. *)
Definition parsed_content (content : option pystr) : option json :=
  match content with
  | Some s => if is_empty s then None else json_loads s
  | None => None
  end.

(** A field of the response that is absent or empty. *)
Definition missing_or_empty (v : json) (k : pystr) : bool :=
  match v with
  | JObj d =>
      match assoc_get k d with
      | Some x => negb (truthy x)
      | None => true
      end
  | _ => true
  end.

(** A response the claims call invalid: it does not parse, or one of
    its three fields is missing or empty. *)
Definition invalid_response (content : option pystr) : bool :=
  match parsed_content content with
  | None => true
  | Some v =>
      missing_or_empty v (py "title") || missing_or_empty v (py "summary")
      || missing_or_empty v (py "content")
  end.


(** Names without a path separator, and names without separator or dot. *)
Definition no_slash (s : pystr) : bool := forallb (fun c => negb (c =? slash)%N) s.
Definition plain_name (s : pystr) : bool :=
  forallb (fun c => negb ((c =? slash) || (c =? 46))%N) s.


Definition starts_in_space (s : pystr) : bool :=
  match s with
  | c :: _ => is_space c
  | [] => false
  end.

Definition ends_in_space (s : pystr) : bool := starts_in_space (rev s).

(** [(?:(\d+)X)?] read backwards: the text of a component. *)
Definition component (letter : N) (digits : option pystr) : pystr :=
  match digits with
  | Some d => d ++ [letter]
  | None => []
  end.

(** A captured group: a non-empty run of decimal digits, or no group. *)
Definition digit_group (g : option pystr) : Prop :=
  match g with
  | Some d => d <> [] /\ forallb is_decimal d = true
  | None => True
  end.

(** The strings the pattern matches from end to end: "PT", then the
    hours, minutes and seconds components, each present or not. *)
Definition iso_duration_shape (s : pystr) : Prop :=
  exists h m sec,
    digit_group h /\ digit_group m /\ digit_group sec
    /\ s = py "PT" ++ component 72 h ++ component 77 m ++ component 83 sec.


(** A document [reformat_transcript] can read: a transcript whose
    segments have a text, and metadata. *)
Definition readable_document (input_json metadata : json) (full_text : pystr) : Prop :=
  exists transcript,
    getitem input_json (py "transcript") = Ok transcript
    /\ _combine_transcript transcript = Ok full_text
    /\ getitem input_json (py "metadata") = Ok metadata.

(** The reformatter has a provider and a client, and the next outcome of
    the network is a response whose first message holds [content]. *)
Definition answered (w : world) (model : json) (c : client)
    (content : option pystr) (rest : list api_outcome) : Prop :=
  dict_get (_provider w) (py "model") = Ok model
  /\ _client w = Some c
  /\ exists r others,
       net_in w = ApiReturns (Some r) :: rest
       /\ choices_error r = None
       /\ choices r = content :: others.


(** The credentials file is there and parses to [api_keys], whose
    "ai-providers" entry is the dict [providers]. *)
Definition credentials (w : world) (api_keys : json) (providers : list (pystr * json))
  : Prop :=
  exists data,
    fs_files w !! resolve (py "API_KEY.json") = Some (File data true)
    /\ json_loads data = Some api_keys
    /\ getitem api_keys (py "ai-providers") = Ok (JObj providers).

(** The providers the selection menu lists, and the condition that each
    of them has a name to print. *)
Definition listed_providers (providers : list (pystr * json)) : list pystr :=
  List.filter (fun key => negb (pystr_eqb key (py "default"))) (map fst providers).

Definition has_name (providers : list (pystr * json)) (provider : pystr) : Prop :=
  exists profile name,
    assoc_get provider providers = Some profile
    /\ getitem profile (py "name") = Ok name.

(* ================================================================== *)
(** * Sample data                                                       *)
(* ================================================================== *)

(** Concrete credentials, documents, responses and stores on which the
    programs are run below. *)

Definition demo_profile : json :=
  JObj [(py "name", JStr (py "Demo")); (py "api_key", JStr (py "sk-demo"));
        (py "base_url", JStr (py "https://llm.example/v1"))].

Definition other_profile : json :=
  JObj [(py "name", JStr (py "Other")); (py "api_key", JStr (py "sk-other"));
        (py "base_url", JStr (py "https://other.example/v1"));
        (py "model", JStr (py "m2"))].

Definition demo_providers : list (pystr * json) :=
  [(py "default", demo_profile); (py "demo", demo_profile); (py "other", other_profile)].

Definition demo_api_keys : json :=
  JObj [(py "API_KEY", JStr (py "yt-key")); (py "ai-providers", JObj demo_providers)].

Definition demo_client : client :=
  Client (JStr (py "sk-demo")) (JStr (py "https://llm.example/v1")).

Definition demo_metadata : json :=
  JObj [(py "video_title", JStr (py "Intro")); (py "channel_name", JStr (py "My Channel!"));
        (py "views", JStr (py "10")); (py "duration", JStr (py "00:05"))].

Definition demo_document : json :=
  JObj [(py "metadata", demo_metadata);
        (py "transcript",
         JArr [JObj [(py "text", JStr (py "hello")); (py "start", JInt 0);
                     (py "duration", JInt 2)];
               JObj [(py "text", JStr (py "world")); (py "start", JInt 2);
                     (py "duration", JInt 3)]])].


(** The same response from a second document. *)
Definition second_response : json :=
  JObj [(py "title", JStr (py "A Title, part 1!")); (py "summary", JStr (py "Again."));
        (py "content", JStr (py "# Hello again"))].

(** A response without a summary. *)
Definition empty_summary_response : json :=
  JObj [(py "title", JStr (py "A Title")); (py "summary", JStr []);
        (py "content", JStr (py "# Hello world"))].


Definition reply (v : json) : api_outcome :=
  ApiReturns (Some (Response None [Some (ref_dumps false None v)])).

(** A reformatter with the demo provider active. *)
Definition demo_world (files : gmap path file) (dirs : gset path)
    (typed : list pystr) (replies : list api_outcome) : world :=
  World files dirs [] typed replies [] demo_profile (Some demo_client).

(** The credentials file on disk. *)
Definition credentials_store : gmap path file :=
  {[ [py "API_KEY.json"] := File (ref_dumps true (Some 2) demo_api_keys) true ]}.


(** A directory with two files of different content, neither of which
    can be read. *)
Definition unreadable_store : gmap path file :=
  <[ [py "transcripts"; py "a.txt"] := File (py "first talk") false ]>
    {[ [py "transcripts"; py "b.txt"] := File (py "second talk") false ]}.


Definition long_title : pystr := py "Learn Python in one hour: a complete crash course".

(** ** Duplicate search: what the scan computes *)

(** The [.txt] files a walk visits, in the order of the visit. *)
Definition txt_paths (tree : list (pystr * list pystr * list pystr)) : list pystr :=
  flat_map (fun entry : pystr * list pystr * list pystr =>
              map (os_path_join (fst (fst entry)))
                  (List.filter (fun file => endswith file (py ".txt")) (snd entry)))
           tree.

(** What [compute_sha1] returns for a path of the store. *)
Definition hash_of (files : gmap path file) (p : pystr) : option pystr :=
  match files !! resolve p with
  | Some f => if f_readable f then Some (sha1_hexdigest (f_data f)) else None
  | None => None
  end.

(** One file in the scan: [hashes] and [duplicates] after it. *)
Definition group_step (hash : pystr -> option pystr) (st : scan_state) (p : pystr)
  : scan_state :=
  match fst st !! hash p with
  | Some original => (fst st, snd st ++ [(p, original)])
  | None => (<[hash p := p]> (fst st), snd st)
  end.

(** The first of the files seen so far that has hash [k]. *)
Definition first_with (hash : pystr -> option pystr) (seen : list pystr)
    (k : option pystr) : option pystr :=
  List.find (fun p => bool_decide (hash p = k)) seen.

(** The pairs the scan reports for [paths], [seen] having come before. *)
Fixpoint pairs_after (hash : pystr -> option pystr) (seen paths : list pystr)
  : list (pystr * pystr) :=
  match paths with
  | [] => []
  | q :: rest =>
      match first_with hash seen (hash q) with
      | Some original => (q, original) :: pairs_after hash (seen ++ [q]) rest
      | None => pairs_after hash (seen ++ [q]) rest
      end
  end.

(* ================================================================== *)
(** * YoutubeTranscriptDownloader: saving a transcript                  *)
(* ================================================================== *)

(** [str(v)], as an f-string formats a value that is not a string (the
    segments of a transcript are dictionaries). *)
Variable py_str : json -> pystr.

(** Text written through a file opened with [encoding="utf-8",
    errors="ignore"]: the code points UTF-8 cannot encode, the
    surrogates, are left out. *)
Definition utf8_ignore (s : pystr) : pystr :=
  List.filter (fun c => negb (in_range 55296 57343 c)) s.

(** [save_transcript], with the file name length of DEFAULT_CONFIG.  The
    title and the channel name come from the metadata of the video and
    are strings when [sanitize_filename] accepts them. *)
Definition save_transcript (video_url : pystr) (transcript : list json)
    (channel_name video_title : json) : M unit :=
  let* title := lift (as_str video_title) in
  let sanitized_title := sanitize_filename title TRANSCRIPT_FILENAME_LENGTH in
  let* channel := lift (as_str channel_name) in
  let channel_dir :=
    os_path_join (py "transcripts")
      (sanitize_filename channel TRANSCRIPT_FILENAME_LENGTH) in
  do* os_makedirs channel_dir in
  let filename := os_path_join channel_dir (sanitized_title ++ py ".txt") in
  write_file filename
    (utf8_ignore
       (video_url ++ nl ++ channel ++ nl ++ title ++ nl ++ nl ++ nl
        ++ flat_map (fun line => py_str line ++ nl) transcript)).

(* ================================================================== *)
(** * YoutubeTranscriptDownloader: configuration                        *)
(* ================================================================== *)

Definition CONFIG_FILE : pystr := py "config.json".
Definition API_KEY_FILE : pystr := py "API_KEY.json".

Definition DEFAULT_CONFIG : list (pystr * json) :=
  [(py "LOGFILE_NAME", JStr (py "script.log"));
   (py "LOGFILE_PATH", JStr (py "."));
   (py "ENABLE_LOGGING", JBool true);
   (py "TRANSCRIPT_FILENAME_LENGTH", JInt 36);
   (py "REGEX_PATTERNS",
    JObj [(py "sanitize_filename", JStr (py "[^\w\-\s]"));
          (py "iso_duration", JStr (py "PT(?:(\d+)H)?(?:(\d+)M)?(?:(\d+)S)?"));
          (py "youtube_video_id", JStr (py "(?:v=|\/)([0-9A-Za-z_-]{11}).*"))])].

(** [v.items()] *)
Definition dict_items (v : json) : result (list (pystr * json)) :=
  match v with
  | JObj d => Ok d
  | _ => Raise AttributeError
  end.

(** [v is None] *)
Definition is_none (v : json) : bool :=
  match v with JNull => true | _ => false end.

(** [config.update(items)]: each item set in turn. *)
Definition dict_update (config items : list (pystr * json)) : list (pystr * json) :=
  fold_left (fun c item => assoc_set (fst item) (snd item) c) items config.

(** [load_config]: the defaults, then the entries of [config.json] that
    are not null, then the key of [API_KEY.json]. *)
Definition load_config : M (list (pystr * json)) :=
  let config := DEFAULT_CONFIG in
  let* found := (fun w => (Ok (os_path_exists CONFIG_FILE w), w)) in
  let* config :=
    if found then
      try_except
        (let* data := read_file CONFIG_FILE in
         let* user_config := lift (loads data) in
         let* items := lift (dict_items user_config) in
         ret (dict_update config
                (List.filter (fun item => negb (is_none (snd item))) items)))
        (fun e =>
           do* print [Lit "Error loading '"; FStr CONFIG_FILE; Lit "': "; FExn e;
                      Lit ". Using default settings."] in
           ret config)
    else ret config in
  let* found := (fun w => (Ok (os_path_exists API_KEY_FILE w), w)) in
  if found then
    try_except
      (let* data := read_file API_KEY_FILE in
       let* api_key_data := lift (loads data) in
       let* key := lift (dict_get api_key_data (py "API_KEY")) in
       ret (assoc_set (py "API_KEY") key config))
      (fun e =>
         do* print [Lit "Error loading '"; FStr API_KEY_FILE; Lit "': "; FExn e;
                    Lit ". API key not loaded."] in
         ret config)
  else
    do* print [Lit "API key file '"; FStr API_KEY_FILE;
               Lit "' not found. Ensure the API key file exists."] in
    ret config.

(* ================================================================== *)
(** * YoutubeTranscriptDownloader: fetching a video                     *)
(* ================================================================== *)

(** The services of YouTube as the program meets them during a run:
    [build("youtube", "v3", ...)], which may raise;
    [youtube.videos().list(part=..., id=video_id).execute()];
    [youtube.search().list(part="snippet", type="channel", q=handle,
    maxResults=1).execute()]; and
    [YouTubeTranscriptApi.get_transcript(video_id)], whose two own
    exceptions the program tells apart from all others. *)
Inductive transcript_outcome : Type :=
| TranscriptLines (lines : list json)
| TranscriptsDisabled
| NoTranscriptFound
| TranscriptRaises (e : exn).

Variable youtube_build : result unit.
Variable videos_list : pystr -> result json.
Variable search_channel : pystr -> result json.
Variable get_transcript : pystr -> transcript_outcome.

(** [[0-9A-Za-z_-]] *)
Definition is_id_char (c : N) : bool :=
  in_range 48 57 c || in_range 65 90 c || in_range 97 122 c
  || (c =? 95)%N || (c =? 45)%N.

(** [(?:v=|\/)([0-9A-Za-z_-]{11})] tried at the head of [s]: the group.
    (The [.*] that ends the pattern matches whatever follows.) *)
Definition video_id_here (s : pystr) : option pystr :=
  let after :=
    if startswith s (py "v=") then Some (skipn 2 s)
    else if startswith s (py "/") then Some (skipn 1 s)
    else None in
  match after with
  | Some r =>
      let id := firstn 11 r in
      if (length id =? 11) && forallb is_id_char id then Some id else None
  | None => None
  end.

(** [re.search(pattern, s)]: the leftmost position where the pattern
    matches; [match.group(1)]. *)
Fixpoint search_video_id (s : pystr) : option pystr :=
  match video_id_here s with
  | Some id => Some id
  | None =>
      match s with
      | _ :: r => search_video_id r
      | [] => None
      end
  end.

(** [needle in s] for two strings. *)
Fixpoint contains (needle s : pystr) : bool :=
  startswith s needle
  || match s with
     | _ :: r => contains needle r
     | [] => false
     end.

(** ["items" in v] *)
Definition py_in (k : pystr) (v : json) : result bool :=
  match v with
  | JObj d => Ok (match assoc_get k d with Some _ => true | None => false end)
  | JArr l => Ok (existsb (fun x => match x with
                                    | JStr s => pystr_eqb s k
                                    | _ => false
                                    end) l)
  | JStr s => Ok (contains k s)
  | _ => Raise TypeError
  end.

(** [v[0]] *)
Definition getitem0 (v : json) : result json :=
  match v with
  | JArr (x :: _) => Ok x
  | JStr (c :: _) => Ok (JStr [c])
  | JArr [] | JStr [] => Raise IndexError
  | JObj _ => Raise (KeyError (py "0"))
  | _ => Raise TypeError
  end.

(** [v[:10]]; the slice of anything but a string or a list raises
    ([TypeError] here; the interpreter's exception for a dictionary
    depends on its version). *)
Definition slice10 (v : json) : result json :=
  match v with
  | JStr s => Ok (JStr (firstn 10 s))
  | JArr l => Ok (JArr (firstn 10 l))
  | _ => Raise TypeError
  end.

(** [v.get(k, d)] *)
Definition dict_get_default (v : json) (k : pystr) (d : json) : result json :=
  match v with
  | JObj items => Ok (default d (assoc_get k items))
  | _ => Raise AttributeError
  end.

(** [a["items"]] guarded by ["items" in a and a["items"]]. *)
Definition truthy_items (response : json) : result bool :=
  let? has := py_in (py "items") response in
  if has then
    let? items := getitem response (py "items") in
    Ok (truthy items)
  else Ok false.

(** A line for the log file; [logging.warning] and [logging.error] both
    pass the configured threshold, and the configured format does not
    show the level. *)
Definition log_line (m : message) : M unit := emit LogError m.

Definition metadata_defaults : json * json * json * json * json :=
  (JStr (py "Unknown Title"), JStr (py "Unknown Channel"), JStr [], JStr (py "0"),
   JStr (py "00:00")).

Definition fetch_video_metadata (video_id : pystr)
  : M (json * json * json * json * json) :=
  try_except
    (let* youtube := lift youtube_build in
     let* response := lift (videos_list video_id) in
     let* present := lift (truthy_items response) in
     if present then
       let* items := lift (getitem response (py "items")) in
       let* item := lift (getitem0 items) in
       let* snippet := lift (getitem item (py "snippet")) in
       let* content_details := lift (getitem item (py "contentDetails")) in
       let* statistics := lift (getitem item (py "statistics")) in
       let* video_title := lift (getitem snippet (py "title")) in
       let* channel_name := lift (getitem snippet (py "channelTitle")) in
       let* published := lift (getitem snippet (py "publishedAt")) in
       let* publish_date := lift (slice10 published) in
       let* views := lift (dict_get_default statistics (py "viewCount") (JStr (py "0"))) in
       let* iso := lift (getitem content_details (py "duration")) in
       let* iso := lift (as_str iso) in
       let duration := format_duration iso in
       ret (video_title, channel_name, publish_date, views, JStr duration)
     else
       do* log_line [Lit "No metadata found for video ID: "; FStr video_id] in
       ret metadata_defaults)
    (fun e =>
       do* log_line [Lit "Error fetching metadata for video ID "; FStr video_id;
                     Lit ": "; FExn e] in
       ret metadata_defaults).

(** [fetch_single_video(video_url)], with the pattern of DEFAULT_CONFIG;
    [None] for the URL asks for one. *)
Definition fetch_single_video (video_url : option pystr) : M unit :=
  let* video_url :=
    match video_url with
    | Some url => ret url
    | None => input [Lit "Enter the video URL: "]
    end in
  match search_video_id video_url with
  | None => print [Lit "Invalid URL. Must contain a valid YouTube video ID."]
  | Some video_id =>
      match get_transcript video_id with
      | TranscriptLines transcript =>
          try_except
            (let* metadata := fetch_video_metadata video_id in
             let '(video_title, channel_name, _, _, _) := metadata in
             do* save_transcript video_url transcript channel_name video_title in
             print [Lit "Transcript for "; FJson video_title; Lit " saved successfully."])
            (fun e => print [Lit "An error occurred: "; FExn e])
      | TranscriptsDisabled => print [Lit "Transcripts are disabled for this video."]
      | NoTranscriptFound => print [Lit "No transcript found for this video."]
      | TranscriptRaises e => print [Lit "An error occurred: "; FExn e]
      end
  end.

(* ================================================================== *)
(** * YoutubeTranscriptDownloader: channels and lists of videos         *)
(* ================================================================== *)

(** [s.split(sep)] for a separator that is not empty: the occurrences of
    [sep] are found from the left and do not overlap.  [inside] counts
    the characters of an occurrence still to be passed over, [piece]
    holds the piece being read, last character first. *)
Fixpoint split_str_from (sep : pystr) (inside : nat) (piece s : pystr) : list pystr :=
  match s with
  | [] => [rev piece]
  | c :: r =>
      match inside with
      | S n => split_str_from sep n piece r
      | O =>
          if startswith s sep
          then rev piece :: split_str_from sep (length sep - 1) [] r
          else split_str_from sep 0 (c :: piece) r
      end
  end.

Definition split_str (sep s : pystr) : list pystr := split_str_from sep 0 [] s.

(** [s.split(sep)[-1]] *)
Definition after_last (sep s : pystr) : pystr := List.last (split_str sep s) [].

(** [get_channel_id_from_url].  An exception raised inside the [try] is
    logged and printed, and the function returns [None]; [failed] is
    that handler, given what the exception prints as. *)
Definition get_channel_id_from_url (url : pystr) : M (option json) :=
  let failed (what : message) : M (option json) :=
    do* log_line ([Lit "Error fetching channel ID for URL "; FStr url; Lit ": "] ++ what) in
    do* print (Lit "An error occurred: " :: what) in
    ret None in
  match youtube_build with
  | Raise e => failed [FExn e]
  | Ok _ =>
      if contains (py "/@") url then
        let handle := after_last (py "/@") url in
        match search_channel handle with
        | Raise e => failed [FExn e]
        | Ok response =>
            match truthy_items response with
            | Raise e => failed [FExn e]
            | Ok true =>
                match
                  (let? items := getitem response (py "items") in
                   let? item := getitem0 items in
                   let? snippet := getitem item (py "snippet") in
                   getitem snippet (py "channelId"))
                with
                | Ok channel_id => ret (Some channel_id)
                | Raise e => failed [FExn e]
                end
            | Ok false => failed [Lit "Channel not found."]
            end
        end
      else if contains (py "channel/") url then
        ret (Some (JStr (after_last (py "channel/") url)))
      else failed [Lit "Invalid YouTube channel URL or handle."]
  end.

(** The lines [f.readlines()] gives for a file opened in text mode: a
    line ends at "\n", "\r\n" or "\r", each read as "\n"; the last line
    may have no end. *)
Fixpoint readlines_from (line s : pystr) : list pystr :=
  match s with
  | [] => if is_empty line then [] else [rev line]
  | c :: r =>
      if (c =? 10)%N then rev (10%N :: line) :: readlines_from [] r
      else if (c =? 13)%N then
        match r with
        | c' :: r' =>
            if (c' =? 10)%N then rev (10%N :: line) :: readlines_from [] r'
            else rev (10%N :: line) :: readlines_from [] r
        | [] => rev (10%N :: line) :: readlines_from [] r
        end
      else readlines_from (c :: line) r
  end.

Definition readlines (data : pystr) : list pystr := readlines_from [] data.

(** The URL the program makes of one line of a text file. *)
Definition url_of_line (line : pystr) : pystr :=
  let video_id := strip line in
  if negb (startswith video_id (py "https://"))
  then py "https://www.youtube.com/watch?v=" ++ video_id
  else video_id.

(** The rows [csv.reader] gives for the content of a file, one after the
    other; a [Raise] is the error the reader stops with. *)
Variable csv_reader : pystr -> list (result (list pystr)).

(** The loop over the rows that follow the header. *)
Fixpoint csv_urls (rows : list (result (list pystr))) (urls : list pystr)
  : result (list pystr) :=
  match rows with
  | [] => Ok urls
  | Raise e :: _ => Raise e
  | Ok row :: rest =>
      match row with
      | [] => Raise IndexError
      | first :: _ =>
          let video_id := strip first in
          csv_urls rest (urls ++ [py "https://www.youtube.com/watch?v=" ++ video_id])
      end
  end.

(** [file_path[1:-1]] *)
Definition slice_inner (s : pystr) : pystr := firstn (length s - 2) (skipn 1 s).

(** [os.path.exists(p)] for a path that was typed: the empty path names
    nothing. *)
Definition typed_path_exists (p : pystr) (w : world) : bool :=
  negb (is_empty p) && os_path_exists p w.

(** [process_file_with_video_urls].  The progress bar of [tqdm] goes to
    the error stream and is not recorded.  [failed] is the handler of
    the [try], given what the exception prints as. *)
Definition process_file_with_video_urls : M unit :=
  let* typed := input [Lit "Enter the path to the file (Text/CSV): "] in
  let file_path := strip typed in
  let file_path :=
    if startswith file_path [34%N] && endswith file_path [34%N]
    then slice_inner file_path else file_path in
  let* found := (fun w => (Ok (typed_path_exists file_path w), w)) in
  if negb found then print [Lit "File not found. Please try again."]
  else
    let is_csv := endswith file_path (py ".csv") in
    let failed (what : fragment) : M unit :=
      print [Lit "An error occurred while processing the file: "; what] in
    try_except
      (let* data := read_file file_path in
       let collected :=
         if is_csv then
           match csv_reader data with
           | [] => None                       (* next(reader): StopIteration *)
           | Raise e :: _ => Some (Raise e)
           | Ok header :: rows => Some (csv_urls rows [])
           end
         else Some (Ok (map url_of_line (readlines data))) in
       match collected with
       | None => failed (FStr [])
       | Some (Raise e) => raise e
       | Some (Ok urls) => for_each urls (fun url => fetch_single_video (Some url))
       end)
      (fun e => failed (FExn e)).

(* ================================================================== *)
(** * Sample data for the downloader                                    *)
(* ================================================================== *)


(** A [config.json] that sets the file name length, gives null for the
    log file name and has patterns of its own. *)
Definition demo_config : list (pystr * json) :=
  [(py "TRANSCRIPT_FILENAME_LENGTH", JInt 20);
   (py "LOGFILE_NAME", JNull);
   (py "REGEX_PATTERNS", JObj [(py "iso_duration", JStr (py "PT(\d+)M"))])].

Definition config_store : gmap path file :=
  <[ [py "config.json"] := File (ref_dumps true None (JObj demo_config)) true ]>
    credentials_store.

(** A video, the answer of the service about it, and its transcript. *)
Definition demo_video_id : pystr := py "dQw4w9WgXcQ".

Definition demo_video : json :=
  JObj [(py "items",
         JArr [JObj [(py "snippet",
                      JObj [(py "title", JStr (py "Intro: part 1"));
                            (py "channelTitle", JStr (py "My Channel!"));
                            (py "publishedAt", JStr (py "2024-05-06T07:08:09Z"))]);
                     (py "contentDetails", JObj [(py "duration", JStr (py "PT1H2M3S"))]);
                     (py "statistics", JObj [(py "viewCount", JStr (py "10"))])]])].

Definition demo_videos_list (video_id : pystr) : result json :=
  if pystr_eqb video_id demo_video_id then Ok demo_video
  else Ok (JObj [(py "items", JArr [])]).

Definition demo_lines : list json :=
  [JObj [(py "text", JStr (py "hello"))]; JObj [(py "text", JStr (py "world"))]].

Definition demo_get_transcript (video_id : pystr) : transcript_outcome :=
  if pystr_eqb video_id demo_video_id then TranscriptLines demo_lines
  else NoTranscriptFound.

(** A stand-in for [str] on the segments of a transcript. *)
Definition demo_str (v : json) : pystr := ref_dumps false None v.

(** A stand-in for [csv.reader] on files without quotes: the rows are
    the lines, the fields what the commas separate. *)
Definition demo_csv_reader (data : pystr) : list (result (list pystr)) :=
  map (fun line => Ok (if is_empty line then [] else split_on 44 line))
      (match rev (split_on 10 data) with
       | [] :: lines => rev lines
       | lines => rev lines
       end).

(** A list of videos as a text file and as a CSV file. *)
Definition lists_store : gmap path file :=
  <[ [py "videos.txt"] := File (py "  dQw4w9WgXcQ
https://youtu.be/dQw4w9WgXcQ
") true ]>
    {[ [py "videos.csv"] := File (py "Video ID,Title
dQw4w9WgXcQ,Intro

") true ]}.

(* ================================================================== *)
(** * Strings: basic facts                                              *)
(* ================================================================== *)

Lemma pystr_eqb_eq (a b : pystr) : pystr_eqb a b = true <-> a = b.
Proof.
  revert b. induction a as [|x a IH]; intros [|y b]; simpl; split; try done.
  - intros [Hx Hab]%andb_true_iff. apply N.eqb_eq in Hx. apply IH in Hab. by subst.
  - intros [= -> ->]. rewrite N.eqb_refl. simpl. by apply IH.
Qed.

Lemma pystr_eqb_refl (a : pystr) : pystr_eqb a a = true.
Proof. by apply pystr_eqb_eq. Qed.

Lemma pystr_eqb_neq (a b : pystr) : a <> b -> pystr_eqb a b = false.
Proof.
  intros Hne. destruct (pystr_eqb a b) eqn:E; [|done].
  by apply pystr_eqb_eq in E.
Qed.

Lemma drop_while_suffix p (s : pystr) : exists t, s = t ++ drop_while p s.
Proof.
  induction s as [|c s [t IH]]; simpl.
  - by exists [].
  - destruct (p c).
    + exists (c :: t). simpl. by f_equal.
    + by exists [].
Qed.

Lemma drop_while_forallb q p (s : pystr) :
  forallb q s = true -> forallb q (drop_while p s) = true.
Proof.
  induction s as [|c s IH]; simpl; [done|].
  intros [Hc Hs]%andb_true_iff. destruct (p c); [by apply IH|].
  simpl. by rewrite Hc, Hs.
Qed.

Lemma drop_while_head p (s : pystr) :
  match drop_while p s with c :: _ => p c = false | [] => True end.
Proof.
  induction s as [|c s IH]; simpl; [done|].
  destruct (p c) eqn:E; [done|]. by rewrite E.
Qed.

Lemma drop_while_nil p (s : pystr) : drop_while p s = [] -> forallb p s = true.
Proof.
  induction s as [|c s IH]; simpl; [done|].
  destruct (p c); [by intros H; apply IH|done].
Qed.

Lemma forallb_rev_true p (s : pystr) : forallb p s = true -> forallb p (rev s) = true.
Proof.
  rewrite !forallb_forall. intros H x Hx. apply H. by apply in_rev.
Qed.

Lemma forallb_firstn p n (s : pystr) : forallb p s = true -> forallb p (firstn n s) = true.
Proof.
  revert n. induction s as [|c s IH]; intros [|n]; simpl; try done.
  intros [Hc Hs]%andb_true_iff. rewrite Hc. simpl. by apply IH.
Qed.

(* ================================================================== *)
(** * The sanitizers                                                    *)
(* ================================================================== *)

Lemma re_sub_sanitize_kept s : forallb sanitize_keep (re_sub_sanitize s) = true.
Proof.
  unfold re_sub_sanitize. induction s as [|c s IH]; simpl; [done|].
  destruct (sanitize_keep c) eqn:E; simpl; [by rewrite E|done].
Qed.

Lemma re_sub_sanitize_id s : forallb sanitize_keep s = true -> re_sub_sanitize s = s.
Proof.
  unfold re_sub_sanitize. induction s as [|c s IH]; simpl; [done|].
  intros [Hc Hs]%andb_true_iff. rewrite Hc. f_equal. by apply IH.
Qed.


Lemma re_sub_sanitize_idem s : re_sub_sanitize (re_sub_sanitize s) = re_sub_sanitize s.
Proof. apply re_sub_sanitize_id, re_sub_sanitize_kept. Qed.

Lemma lstrip_id s : starts_in_space s = false -> lstrip s = s.
Proof. destruct s as [|c s]; simpl; [done|]. unfold lstrip. simpl. by intros ->. Qed.

Lemma lstrip_starts s : starts_in_space (lstrip s) = false.
Proof.
  unfold lstrip, starts_in_space.
  pose proof (drop_while_head is_space s) as H. by destruct (drop_while is_space s).
Qed.

Lemma rstrip_rev s : rev (rstrip s) = drop_while is_space (rev s).
Proof. unfold rstrip. apply rev_involutive. Qed.

Lemma rstrip_ends s : ends_in_space (rstrip s) = false.
Proof. unfold ends_in_space. rewrite rstrip_rev. apply (lstrip_starts (rev s)). Qed.

Lemma rstrip_id s : ends_in_space s = false -> rstrip s = s.
Proof.
  unfold ends_in_space, rstrip. intros H.
  rewrite (lstrip_id (rev s) H : drop_while is_space (rev s) = rev s).
  apply rev_involutive.
Qed.

Lemma rstrip_prefix s : exists t, s = rstrip s ++ t.
Proof.
  destruct (drop_while_suffix is_space (rev s)) as [t Ht].
  exists (rev t). unfold rstrip. rewrite <- rev_app_distr, <- Ht. symmetry. apply rev_involutive.
Qed.

Lemma rstrip_nonempty s : s <> [] -> starts_in_space s = false -> rstrip s <> [].
Proof.
  intros Hne Hstart Hnil.
  assert (forallb is_space (rev s) = true) as Hall.
  { apply drop_while_nil. rewrite <- rstrip_rev, Hnil. done. }
  apply forallb_rev_true in Hall. rewrite rev_involutive in Hall.
  destruct s as [|c s]; [done|]. simpl in *.
  apply andb_true_iff in Hall as [Hc _]. congruence.
Qed.

Lemma prefix_starts (s t : pystr) :
  starts_in_space (s ++ t) = false -> starts_in_space s = false.
Proof. by destruct s. Qed.

Lemma rstrip_starts s : starts_in_space s = false -> starts_in_space (rstrip s) = false.
Proof.
  intros H. destruct (rstrip_prefix s) as [t Ht]. rewrite Ht in H.
  by apply prefix_starts in H.
Qed.

Lemma rstrip_length s : length (rstrip s) <= length s.
Proof.
  destruct (rstrip_prefix s) as [t Ht]. rewrite Ht at 2. rewrite length_app. lia.
Qed.

Lemma strip_starts s : starts_in_space (strip s) = false.
Proof. unfold strip. apply rstrip_starts, lstrip_starts. Qed.

Lemma strip_kept s : forallb sanitize_keep s = true -> forallb sanitize_keep (strip s) = true.
Proof.
  intros H. unfold strip, rstrip, lstrip.
  apply forallb_rev_true, drop_while_forallb, forallb_rev_true, drop_while_forallb, H.
Qed.

Lemma slice_to_id (n : Z) (s : pystr) :
  (0 <= n)%Z -> (Z.of_nat (length s) <= n)%Z -> slice_to n s = s.
Proof.
  intros H0 Hlen. unfold slice_to.
  destruct (Z.leb_spec 0 n); [|lia]. apply firstn_all2. lia.
Qed.

Lemma slice_to_length (n : Z) (s : pystr) :
  (0 <= n)%Z -> (Z.of_nat (length (slice_to n s)) <= n)%Z.
Proof.
  intros H0. unfold slice_to. destruct (Z.leb_spec 0 n); [|lia].
  pose proof (firstn_le_length (Z.to_nat n) s).
  rewrite length_firstn. lia.
Qed.

Lemma slice_to_prefix (n : Z) (s : pystr) : exists t, s = slice_to n s ++ t.
Proof.
  unfold slice_to. destruct (0 <=? n)%Z; eexists; symmetry; apply firstn_skipn.
Qed.

Lemma slice_to_kept (n : Z) s :
  forallb sanitize_keep s = true -> forallb sanitize_keep (slice_to n s) = true.
Proof. intros H. unfold slice_to. destruct (0 <=? n)%Z; by apply forallb_firstn. Qed.

(** What [sanitize_filename] returns: kept characters only, no leading
    whitespace, never empty, and no longer than the maximum when that
    leaves room for the eight letters of the substitute. *)
Lemma sanitize_filename_shape name (max_length : Z) :
  (8 <= max_length)%Z ->
  let r := sanitize_filename name max_length in
  forallb sanitize_keep r = true /\ starts_in_space r = false /\ r <> []
  /\ (Z.of_nat (length r) <= max_length)%Z.
Proof.
  intros Hmax. unfold sanitize_filename. simpl.
  destruct (slice_to max_length (strip (re_sub_sanitize name))) as [|c t] eqn:E.
  - simpl. repeat split; done.
  - simpl is_empty. cbv iota. rewrite <- E. repeat split.
    + apply slice_to_kept, strip_kept, re_sub_sanitize_kept.
    + destruct (slice_to_prefix max_length (strip (re_sub_sanitize name))) as [u Hu].
      pose proof (strip_starts (re_sub_sanitize name)) as Hs. rewrite Hu in Hs.
      by apply prefix_starts in Hs.
    + by rewrite E.
    + apply slice_to_length. lia.
Qed.

(** On such a string the sanitizer only strips trailing whitespace. *)
Lemma sanitize_filename_on_shape r (max_length : Z) :
  (0 <= max_length)%Z ->
  forallb sanitize_keep r = true -> starts_in_space r = false -> r <> [] ->
  (Z.of_nat (length r) <= max_length)%Z ->
  sanitize_filename r max_length = rstrip r.
Proof.
  intros Hmax Hkept Hstart Hne Hlen. unfold sanitize_filename.
  rewrite re_sub_sanitize_id by done. unfold strip. rewrite lstrip_id by done.
  rewrite slice_to_id; [|done|pose proof (rstrip_length r); lia].
  pose proof (rstrip_nonempty r Hne Hstart). by destruct (rstrip r).
Qed.

Lemma sanitize_filename_twice name (max_length : Z) :
  (8 <= max_length)%Z ->
  sanitize_filename (sanitize_filename name max_length) max_length
  = rstrip (sanitize_filename name max_length).
Proof.
  intros Hmax.
  destruct (sanitize_filename_shape name max_length Hmax) as (Hk & Hs & Hne & Hlen).
  apply sanitize_filename_on_shape; try done. lia.
Qed.

(** C3 (as amended).  The reformatter's sanitizer is idempotent on every
    string.  The downloader's [sanitize_filename], for a maximum length
    of at least 8 (the default is 36), gives the same name when applied
    to its own result, provided that result does not end in whitespace;
    this is so whenever the trimmed name fits the maximum length.  Both
    sanitizers turn "Hello, World! (2024)" into "Hello World 2024". *)
Theorem C3_sanitizers_idempotent (s : pystr) (max_length : Z) :
  (8 <= max_length)%Z ->
  _sanitize_filename (_sanitize_filename s) = _sanitize_filename s
  /\ (ends_in_space (sanitize_filename s max_length) = false ->
      sanitize_filename (sanitize_filename s max_length) max_length
        = sanitize_filename s max_length)
  /\ ((Z.of_nat (length (strip (re_sub_sanitize s))) <= max_length)%Z ->
      sanitize_filename (sanitize_filename s max_length) max_length
        = sanitize_filename s max_length)
  /\ _sanitize_filename (py "Hello, World! (2024)") = py "Hello World 2024"
  /\ sanitize_filename (py "Hello, World! (2024)") TRANSCRIPT_FILENAME_LENGTH
       = py "Hello World 2024".
Proof.
  intros Hmax.
  assert (ends_in_space (sanitize_filename s max_length) = false ->
          sanitize_filename (sanitize_filename s max_length) max_length
            = sanitize_filename s max_length) as Hiff.
  { rewrite sanitize_filename_twice by done. apply rstrip_id. }
  split; [apply re_sub_sanitize_idem|].
  split; [exact Hiff|].
  split; [|split; reflexivity].
  intros Hfit. apply Hiff. unfold sanitize_filename.
  rewrite slice_to_id by lia.
  destruct (strip (re_sub_sanitize s)) as [|c t] eqn:E; [reflexivity|].
  simpl is_empty. cbv iota. rewrite <- E. apply rstrip_ends.
Qed.

(* ================================================================== *)
(** * Decimal digits                                                    *)
(* ================================================================== *)

Lemma decimal_value_digit (d : N) : (d < 10)%N -> decimal_value (48 + d) = Some d.
Proof.
  intros H. unfold decimal_value, in_range.
  replace (48 + d <? 128)%N with true by (symmetry; apply N.ltb_lt; lia).
  replace (48 <=? 48 + d)%N with true by (symmetry; apply N.leb_le; lia).
  replace (48 + d <=? 57)%N with true by (symmetry; apply N.leb_le; lia).
  simpl. f_equal. lia.
Qed.

Lemma int_digits_app (a : N) (x y : pystr) :
  int_digits a (x ++ y)
  = match int_digits a x with Some v => int_digits v y | None => None end.
Proof.
  revert a. induction x as [|c x IH]; intros a; simpl; [done|].
  destruct (decimal_value c); [apply IH|done].
Qed.

(** With enough fuel [dec_digits] puts the decimal numeral of [n] in
    front of the accumulator. *)
Lemma dec_digits_spec (fuel : nat) : forall (n : N) (acc : pystr),
  0 < fuel -> (n < 2 ^ N.of_nat fuel)%N ->
  exists ds, dec_digits fuel n acc = ds ++ acc /\ ds <> []
             /\ int_digits 0 ds = Some n
             /\ ((10 <= n)%N -> 2 <= length ds).
Proof.
  induction fuel as [|fuel IH]; intros n acc Hfuel Hn.
  - lia.
  - simpl dec_digits. destruct (N.ltb_spec n 10) as [Hsmall|Hbig].
    + exists [(48 + n mod 10)%N]. repeat split; try done.
      * simpl. rewrite decimal_value_digit by (apply N.mod_lt; lia).
        f_equal. rewrite N.mod_small by done. lia.
      * lia.
    + rewrite Nat2N.inj_succ, N.pow_succ_r' in Hn.
      destruct (IH (n / 10)%N ((48 + n mod 10)%N :: acc)) as (ds & Hds & Hne & Hval & _).
      { destruct fuel; [simpl in Hn; lia|lia]. }
      { apply N.Div0.div_lt_upper_bound. lia. }
      exists (ds ++ [(48 + n mod 10)%N]). repeat split.
      * rewrite Hds, <- app_assoc. done.
      * by destruct ds.
      * rewrite int_digits_app, Hval. simpl.
        rewrite decimal_value_digit by (apply N.mod_lt; lia).
        f_equal. pose proof (N.div_mod' n 10). lia.
      * intros _. rewrite length_app. simpl. destruct ds; [done|simpl; lia].
Qed.

Lemma str_of_N_spec (n : N) :
  exists ds, str_of_N n = ds /\ ds <> [] /\ int_digits 0 ds = Some n
             /\ ((10 <= n)%N -> 2 <= length ds).
Proof.
  destruct (dec_digits_spec (S (N.to_nat (N.log2 n))) n []) as (ds & Hds & H).
  - lia.
  - rewrite Nat2N.inj_succ, N2Nat.id.
    destruct (N.eq_dec n 0%N) as [->|Hpos]; [done|].
    apply N.log2_spec. lia.
  - exists ds. split; [|done]. unfold str_of_N. by rewrite Hds, app_nil_r.
Qed.

(** [int(str(n)) == n] *)
Lemma py_int_str_of_N (n : N) : py_int (str_of_N n) = Some n.
Proof.
  destruct (str_of_N_spec n) as (ds & -> & Hne & Hval & _).
  unfold py_int. by destruct ds.
Qed.

Lemma format_02_wide (n : N) : (10 <= n)%N -> format_02 n = str_of_N n.
Proof using tbl.
  intros Hn. unfold format_02.
  destruct (str_of_N_spec n) as (ds & -> & _ & _ & Hlen).
  specialize (Hlen Hn). by replace (2 - length ds) with 0 by lia.
Qed.

(* ================================================================== *)
(** * format_duration                                                   *)
(* ================================================================== *)

Lemma span_digits_app (d : pystr) (c : N) (r : pystr) :
  forallb is_decimal d = true -> is_decimal c = false ->
  span_digits (d ++ c :: r) = (d, c :: r).
Proof.
  intros Hd Hc. induction d as [|x d IH]; simpl.
  - by rewrite Hc.
  - simpl in Hd. apply andb_true_iff in Hd as [Hx Hd]. rewrite Hx, IH; done.
Qed.

Lemma span_digits_all (d : pystr) :
  forallb is_decimal d = true -> span_digits d = (d, []).
Proof.
  induction d as [|x d IH]; simpl; [done|].
  intros [Hx Hd]%andb_true_iff. rewrite Hx, IH; done.
Qed.

Lemma opt_component_present (letter : N) (d r : pystr) :
  is_decimal letter = false -> d <> [] -> forallb is_decimal d = true ->
  opt_component letter (d ++ letter :: r) = (Some d, r).
Proof.
  intros Hl Hne Hd. unfold opt_component. rewrite span_digits_app by done.
  destruct d; [done|]. simpl. by rewrite N.eqb_refl.
Qed.

Lemma opt_component_other (letter c : N) (d r : pystr) :
  is_decimal c = false -> c <> letter -> forallb is_decimal d = true ->
  opt_component letter (d ++ c :: r) = (None, d ++ c :: r).
Proof.
  intros Hc Hne Hd. unfold opt_component. rewrite span_digits_app by done.
  apply N.eqb_neq in Hne. rewrite Hne. by rewrite andb_false_r.
Qed.

Lemma opt_component_nil (letter : N) : opt_component letter [] = (None, []).
Proof. reflexivity. Qed.

(** The pattern reads a well-shaped duration back into its groups. *)
Lemma match_iso_duration_shape (h m sec : option pystr) :
  digit_group h -> digit_group m -> digit_group sec ->
  match_iso_duration (py "PT" ++ component 72 h ++ component 77 m ++ component 83 sec)
  = Some (h, m, sec).
Proof.
  intros Hh Hm Hs.
  unfold match_iso_duration.
  change (py "PT") with [80%N; 84%N]. simpl app.
  change (startswith (80%N :: 84%N :: ?x) _) with true. cbv iota.
  change (skipn 2 (80%N :: 84%N :: ?x)) with x.
  assert (forall d (r : pystr), (d ++ [72%N]) ++ r = d ++ 72%N :: r) as E72
    by (intros; by rewrite <- app_assoc).
  assert (forall d (r : pystr), (d ++ [77%N]) ++ r = d ++ 77%N :: r) as E77
    by (intros; by rewrite <- app_assoc).
  assert (forall d (r : pystr), (d ++ [83%N]) ++ r = d ++ 83%N :: r) as E83
    by (intros; by rewrite <- app_assoc).
  destruct h as [dh|], m as [dm|], sec as [ds|]; simpl component; simpl app;
    rewrite ?app_nil_r, ?E72, ?E77, ?E83;
    repeat match goal with
    | H : digit_group (Some _) |- _ => destruct H
    end;
    repeat first
      [ rewrite opt_component_present by done
      | rewrite (opt_component_other 72 77) by done
      | rewrite (opt_component_other 72 83) by done
      | rewrite (opt_component_other 77 83) by done
      | rewrite opt_component_nil ];
    try reflexivity.
Qed.

Lemma match_iso_duration_none (s : pystr) :
  match_iso_duration s = None <-> startswith s (py "PT") = false.
Proof.
  unfold match_iso_duration. destruct (startswith s (py "PT")); [|done].
  destruct (opt_component 72 _), (opt_component 77 _), (opt_component 83 _). done.
Qed.

Lemma format_duration_shape (h m sec : option pystr) :
  digit_group h -> digit_group m -> digit_group sec ->
  format_duration (py "PT" ++ component 72 h ++ component 77 m ++ component 83 sec)
  = format_02 (group_int h) ++ py ":" ++ format_02 (group_int m).
Proof.
  intros Hh Hm Hs. unfold format_duration.
  by rewrite match_iso_duration_shape.
Qed.

Lemma group_int_value (d : pystr) (n : N) :
  d <> [] -> py_int d = Some n -> group_int (Some d) = n.
Proof. intros Hne Hn. unfold group_int. destruct d; [done|]. simpl is_empty. by rewrite Hn. Qed.

(** A string of the shape ends in the letter of its last component, or
    in the "T" of "PT". *)
Lemma iso_duration_shape_last (s : pystr) :
  iso_duration_shape s ->
  last s = Some 84%N \/ last s = Some 72%N \/ last s = Some 77%N \/ last s = Some 83%N.
Proof.
  intros (h & m & sec & _ & _ & _ & ->).
  destruct sec as [ds|]; simpl component.
  { right. right. right. rewrite !app_assoc. apply last_snoc. }
  rewrite app_nil_r. destruct m as [dm|]; simpl component.
  { right. right. left. rewrite !app_assoc. apply last_snoc. }
  rewrite app_nil_r. destruct h as [dh|]; simpl component.
  { right. left. rewrite !app_assoc. apply last_snoc. }
  left. reflexivity.
Qed.

(** C5 (as amended).  "PT1H2M3S" gives "01:02" and "PT45S" gives "00:00";
    an input that does not start with "PT" gives "00:00", and these are
    the only inputs the pattern, matched at the start of the string,
    does not match; the seconds of a duration never reach the result,
    which is the hours and the minutes as they were written. *)
Theorem C5_format_duration :
  format_duration (py "PT1H2M3S") = py "01:02"
  /\ format_duration (py "PT45S") = py "00:00"
  /\ (forall s, startswith s (py "PT") = false -> format_duration s = py "00:00")
  /\ (forall s, match_iso_duration s = None <-> startswith s (py "PT") = false)
  /\ (forall h m sec, digit_group h -> digit_group m -> digit_group sec ->
        format_duration (py "PT" ++ component 72 h ++ component 77 m ++ component 83 sec)
        = format_02 (group_int h) ++ py ":" ++ format_02 (group_int m)
        /\ format_duration (py "PT" ++ component 72 h ++ component 77 m ++ component 83 sec)
           = format_duration (py "PT" ++ component 72 h ++ component 77 m)).
Proof.
  split; [reflexivity|]. split; [reflexivity|].
  split.
  { intros s Hs%match_iso_duration_none. unfold format_duration. by rewrite Hs. }
  split; [apply match_iso_duration_none|].
  intros h m sec Hh Hm Hs. split; [by apply format_duration_shape|].
  rewrite format_duration_shape by done.
  pose proof (format_duration_shape h m None Hh Hm I) as H.
  simpl component in H. rewrite app_nil_r in H. by rewrite H.
Qed.

(** C9.  A minute count of 60 or more is printed as it is: the hours
    field is the hours component alone and the minutes field is the
    decimal numeral of the count, so "PT135M" gives "00:135", which is
    not of the shape hh:mm. *)
Theorem C9_minutes_not_carried :
  format_duration (py "PT135M") = py "00:135"
  /\ length (format_duration (py "PT135M")) <> length (py "hh:mm")
  /\ (forall h dm sec n,
        digit_group h -> digit_group (Some dm) -> digit_group sec ->
        py_int dm = Some n -> (60 <= n)%N ->
        format_duration (py "PT" ++ component 72 h ++ component 77 (Some dm)
                         ++ component 83 sec)
        = format_02 (group_int h) ++ py ":" ++ str_of_N n
        /\ py_int (str_of_N n) = Some n).
Proof.
  split; [reflexivity|]. split; [by vm_compute|].
  intros h dm sec n Hh Hm Hs Hn Hbig.
  split; [|apply py_int_str_of_N].
  rewrite format_duration_shape by done.
  destruct Hm as [Hne _].
  rewrite (group_int_value dm n Hne Hn), (format_02_wide n) by lia. done.
Qed.

(* ================================================================== *)
(** * Paths                                                             *)
(* ================================================================== *)

Lemma plain_no_slash (s : pystr) : plain_name s = true -> no_slash s = true.
Proof.
  unfold plain_name, no_slash. induction s as [|c s IH]; simpl; [done|].
  intros [Hc Hs]%andb_true_iff. rewrite IH by done.
  apply negb_true_iff, orb_false_iff in Hc as [-> _]. done.
Qed.

Lemma kept_plain (s : pystr) : forallb sanitize_keep s = true -> plain_name s = true.
Proof.
  unfold plain_name. induction s as [|c s IH]; simpl; [done|].
  intros [Hc Hs]%andb_true_iff. rewrite IH by done. rewrite andb_true_r.
  destruct (N.eqb_spec c slash) as [->|_]; [by vm_compute in Hc|].
  destruct (N.eqb_spec c 46) as [->|_]; [by vm_compute in Hc|]. done.
Qed.

Lemma no_slash_app (a b : pystr) :
  no_slash (a ++ b) = no_slash a && no_slash b.
Proof. apply forallb_app. Qed.

Lemma split_on_none (s : pystr) : no_slash s = true -> split_on slash s = [s].
Proof.
  unfold no_slash. induction s as [|c s IH]; simpl; [done|].
  intros [Hc Hs]%andb_true_iff. apply negb_true_iff in Hc. rewrite Hc, IH; done.
Qed.


Lemma startswith_cons (c x : N) (s : pystr) : startswith (c :: s) [x] = (c =? x)%N.
Proof. unfold startswith. simpl. apply andb_true_r. Qed.

Lemma startswith_slash (s r : pystr) :
  no_slash s = true -> s <> [] -> startswith (s ++ r) [slash] = false.
Proof.
  destruct s as [|c s]; [done|]. simpl. intros [Hc _]%andb_true_iff _.
  rewrite startswith_cons. by apply negb_true_iff in Hc.
Qed.

Lemma endswith_last (s : pystr) (c x : N) : endswith (s ++ [c]) [x] = (c =? x)%N.
Proof.
  unfold endswith. rewrite length_app. simpl.
  replace (length s + 1 - 1) with (length s + 0) by lia.
  rewrite skipn_app, skipn_all2 by lia.
  replace (length s + 0 - length s) with 0 by lia. simpl. apply andb_true_r.
Qed.



Lemma plain_name_facts (s : pystr) :
  plain_name s = true -> s <> [] ->
  is_empty s = false /\ pystr_eqb s (py ".") = false /\ pystr_eqb s (py "..") = false.
Proof.
  intros Hs Hne. repeat split.
  - by destruct s.
  - apply pystr_eqb_neq. intros ->. done.
  - apply pystr_eqb_neq. intros ->. done.
Qed.

Lemma path_step_name (acc : path) (comp : pystr) :
  is_empty comp = false -> pystr_eqb comp (py ".") = false ->
  pystr_eqb comp (py "..") = false -> path_step acc comp = acc ++ [comp].
Proof. intros H1 H2 H3. unfold path_step. by rewrite H1, H2, H3. Qed.

Lemma path_step_empty (acc : path) : path_step acc [] = acc.
Proof. reflexivity. Qed.


(* ================================================================== *)
(** * Running statements                                                *)
(* ================================================================== *)

Lemma bind_ok {A B} (m : M A) (k : A -> M B) (w w' : world) (a : A) :
  m w = (Ok a, w') -> bind m k w = k a w'.
Proof. intros H. unfold bind. by rewrite H. Qed.

Lemma bind_raise {A B} (m : M A) (k : A -> M B) (w w' : world) (e : exn) :
  m w = (Raise e, w') -> bind m k w = (Raise e, w').
Proof. intros H. unfold bind. by rewrite H. Qed.


Lemma has_all_fields_invalid (j : json) (b : bool) :
  missing_or_empty j (py "title") || missing_or_empty j (py "summary")
  || missing_or_empty j (py "content") = true ->
  has_all_fields j = Ok b -> b = false.
Proof.
  unfold missing_or_empty, has_all_fields, dict_get.
  destruct j as [| | | | |?|d]; try done.
  destruct (assoc_get (py "title") d) as [x|]; simpl; [|by intros _ [= <-]].
  destruct (truthy x); simpl; [|by intros _ [= <-]].
  destruct (assoc_get (py "summary") d) as [y|]; simpl; [|by intros _ [= <-]].
  destruct (truthy y); simpl; [|by intros _ [= <-]].
  destruct (assoc_get (py "content") d) as [z|]; simpl; [|by intros _ [= <-]].
  destruct (truthy z); simpl; [done|by intros _ [= <-]].
Qed.

Ltac wsimpl :=
  cbn [set_fs_files set_fs_dirs set_stdout set_stdin set_net set__provider
       set__client fs_files fs_dirs stdout stdin net_in net_out _provider _client].

Ltac wsimpl_in H :=
  cbn [set_fs_files set_fs_dirs set_stdout set_stdin set_net set__provider
       set__client fs_files fs_dirs stdout stdin net_in net_out _provider _client] in H.

Ltac unfold_run :=
  cbv [bind lift ret raise try_except get__provider chat_completions_create
       print eprint iprint wprint emit os_makedirs write_file].


(** C1.  When the model's message does not parse as JSON, or parses to
    something in which title, summary or content is missing or empty,
    [reformat_transcript] reports an error on the console and returns
    [None]; the files and the directories of the store are what they
    were. *)
Theorem C1_invalid_response_rejected
    (input_json metadata model : json) (full_text : pystr)
    (w : world) (c : client) (content : option pystr) (rest : list api_outcome) :
  readable_document input_json metadata full_text ->
  answered w model c content rest ->
  invalid_response content = true ->
  exists w' report,
    reformat_transcript input_json w = (Ok JNull, w')
    /\ last (stdout w') = Some (Err, report)
    /\ fs_files w' = fs_files w
    /\ fs_dirs w' = fs_dirs w.
Proof.
  intros (transcript & Ht & Hc & Hm) (Hp & Hcl & r & others & Hnet & Herr & Hch) Hinv.
  unfold reformat_transcript, save_response, loads. unfold_run.
  rewrite Ht, Hc, Hm. cbv beta iota. wsimpl.
  rewrite Hp, Hcl, Hnet. cbv beta iota. wsimpl.
  rewrite Herr, Hch. cbv beta iota.
  unfold invalid_response, parsed_content in Hinv.
  destruct content as [s|]; [destruct (is_empty s)|].
  - eexists _, _. split; [reflexivity|]. wsimpl. by rewrite last_snoc.
  - destruct (json_loads s) as [j|].
    + destruct (has_all_fields j) as [[|]|e] eqn:Hv.
      * by apply (has_all_fields_invalid j true Hinv) in Hv.
      * eexists _, _. split; [reflexivity|]. wsimpl. by rewrite last_snoc.
      * eexists _, _. split; [reflexivity|]. wsimpl. by rewrite last_snoc.
    + eexists _, _. split; [reflexivity|]. wsimpl. by rewrite last_snoc.
  - eexists _, _. split; [reflexivity|]. wsimpl. by rewrite last_snoc.
Qed.

(* ================================================================== *)
(** * The file store                                                    *)
(* ================================================================== *)

Lemma store_lookup (p : path) (d : list N) (files : gmap path file) :
  f_data <$> store p d files !! p = Some d.
Proof. unfold store. by rewrite lookup_insert_eq. Qed.

Lemma store_lookup_ne (p q : path) (d : list N) (files : gmap path file) :
  q <> p -> store p d files !! q = files !! q.
Proof. intros Hne. unfold store. by rewrite lookup_insert_ne. Qed.

Lemma store_dom (p : path) (d : list N) (files : gmap path file) :
  dom (store p d files) = {[p]} ∪ dom files.
Proof. unfold store. apply dom_insert_L. Qed.

Lemma store_store (p : path) (d1 d2 : list N) (files : gmap path file) :
  dom (store p d2 (store p d1 files)) = dom (store p d1 files).
Proof. by rewrite !store_dom, (assoc_L (∪)), (idemp_L (∪)). Qed.






(* ================================================================== *)
(** * Providers                                                         *)
(* ================================================================== *)

Lemma read_file_ok (p : pystr) (w : world) (data : list N) :
  fs_files w !! resolve p = Some (File data true) -> read_file p w = (Ok data, w).
Proof. intros H. unfold read_file. by rewrite H. Qed.

Lemma bind_lift {A B} (r : result A) (k : A -> M B) (w : world) :
  bind (lift r) k w = match r with Ok a => k a w | Raise e => (Raise e, w) end.
Proof. by destruct r. Qed.

Lemma getitem_truthy (v x : json) (k : pystr) : getitem v k = Ok x -> truthy v = true.
Proof.
  destruct v as [| | | | |?|d]; try done. simpl. by destruct d.
Qed.

Lemma set_provider_found
    (provider_name : pystr) (w : world) (api_keys profile key url : json)
    (providers : list (pystr * json)) :
  credentials w api_keys providers ->
  assoc_get provider_name providers = Some profile ->
  getitem profile (py "api_key") = Ok key ->
  getitem profile (py "base_url") = Ok url ->
  set_provider provider_name w
  = (Ok profile, set__client (Some (Client key url)) (set__provider profile w)).
Proof.
  intros (data & Hfile & Hload & Hprov) Hfound Hkey Hurl.
  pose proof (read_file_ok _ _ _ Hfile) as Hread.
  unfold set_provider. rewrite (bind_ok _ _ _ _ _ Hread).
  unfold loads. rewrite Hload, bind_lift, Hprov, bind_lift.
  unfold dict_get. rewrite Hfound. simpl default. rewrite bind_lift.
  rewrite (getitem_truthy _ _ _ Hkey). change (negb true) with false. cbv iota.
  unfold provider_setter. rewrite (getitem_truthy _ _ _ Hkey).
  unfold_run. rewrite Hkey, Hurl. reflexivity.
Qed.

Lemma set_provider_missing
    (provider_name : pystr) (w : world) (api_keys : json)
    (providers : list (pystr * json)) :
  credentials w api_keys providers ->
  assoc_get provider_name providers = None ->
  set_provider provider_name w
  = (Raise TypeError,
     set_stdout (stdout w ++ [(Err, [Lit "Provider '"; FStr provider_name;
                                     Lit "' not found"])]) w).
Proof.
  intros (data & Hfile & Hload & Hprov) Hmissing.
  pose proof (read_file_ok _ _ _ Hfile) as Hread.
  unfold set_provider. rewrite (bind_ok _ _ _ _ _ Hread).
  unfold loads. rewrite Hload, bind_lift, Hprov, bind_lift.
  unfold dict_get. rewrite Hmissing. simpl default. rewrite bind_lift.
  reflexivity.
Qed.

(** C8.  With the credentials file in place, selecting a name the store
    has returns that profile and configures the client with its api_key
    and base_url; selecting a name the store does not have prints
    "Provider '...' not found", raises, and leaves client and provider
    as they were. *)
Theorem C8_set_provider
    (provider_name : pystr) (w : world) (api_keys : json)
    (providers : list (pystr * json)) :
  credentials w api_keys providers ->
  (forall profile key url,
      assoc_get provider_name providers = Some profile ->
      getitem profile (py "api_key") = Ok key ->
      getitem profile (py "base_url") = Ok url ->
      exists w',
        set_provider provider_name w = (Ok profile, w')
        /\ _client w' = Some (Client key url)
        /\ _provider w' = profile
        /\ fs_files w' = fs_files w /\ stdout w' = stdout w)
  /\ (assoc_get provider_name providers = None ->
      exists w',
        set_provider provider_name w = (Raise TypeError, w')
        /\ stdout w'
           = stdout w ++ [(Err, [Lit "Provider '"; FStr provider_name; Lit "' not found"])]
        /\ _client w' = _client w
        /\ _provider w' = _provider w).
Proof.
  intros Hcred. split.
  - intros profile key url Hfound Hkey Hurl. eexists. split.
    + by apply (set_provider_found provider_name w api_keys profile key url providers).
    + by wsimpl.
  - intros Hmissing. eexists. split.
    + by apply (set_provider_missing provider_name w api_keys providers).
    + by wsimpl.
Qed.

Lemma assoc_get_set_eq (k : pystr) (v : json) (d : list (pystr * json)) :
  assoc_get k (assoc_set k v d) = Some v.
Proof.
  induction d as [|[k' v'] d IH]; simpl.
  - by rewrite pystr_eqb_refl.
  - destruct (pystr_eqb k' k) eqn:E; simpl; rewrite E; done.
Qed.

Lemma assoc_get_set_ne (k k' : pystr) (v : json) (d : list (pystr * json)) :
  k' <> k -> assoc_get k' (assoc_set k v d) = assoc_get k' d.
Proof.
  intros Hne. induction d as [|[k0 v0] d IH]; simpl.
  - by rewrite (pystr_eqb_neq k k') by done.
  - destruct (pystr_eqb k0 k) eqn:E; simpl.
    + apply pystr_eqb_eq in E as ->. by rewrite (pystr_eqb_neq k k') by done.
    + by rewrite IH.
Qed.

(** The menu lines print when every listed provider has a name. *)
Lemma menu_prints (api_keys : json) (providers : list (pystr * json))
    (items : list (Z * pystr)) :
  getitem api_keys (py "ai-providers") = Ok (JObj providers) ->
  Forall (has_name providers) (map snd items) ->
  exists lines, forall w,
    for_each items (fun '(i, provider) =>
      let* ai_providers := lift (getitem api_keys (py "ai-providers")) in
      let* profile := lift (getitem ai_providers provider) in
      let* name := lift (getitem profile (py "name")) in
      print [FNum i; Lit ". "; FJson name]) w
    = (Ok tt, set_stdout (stdout w ++ lines) w).
Proof.
  intros Hprov. induction items as [|[i p] items IH]; intros Hall.
  - exists []. intros w. simpl. unfold ret. rewrite app_nil_r. by destruct w.
  - simpl in Hall. apply Forall_cons in Hall as [(profile & name & Hp & Hn) Hall].
    destruct (IH Hall) as (lines & Hlines).
    exists ((Plain, [FNum i; Lit ". "; FJson name]) :: lines). intros w.
    simpl for_each.
    erewrite bind_ok
      by (rewrite bind_lift, Hprov, bind_lift; unfold getitem at 1;
          rewrite Hp, bind_lift, Hn; reflexivity).
    rewrite Hlines. wsimpl. by rewrite <- app_assoc.
Qed.

Lemma map_snd_enumerate {A} (items : list A) (start : Z) :
  map snd (enumerate items start) = items.
Proof.
  revert start. induction items as [|x items IH]; intros start; simpl; [done|].
  by rewrite IH.
Qed.

Lemma try_except_ok {A} (m : M A) (h : exn -> M A) (w w' : world) (a : A) :
  m w = (Ok a, w') -> try_except m h w = (Ok a, w').
Proof. intros H. unfold try_except. by rewrite H. Qed.

Lemma emit_run (l : level) (m : message) (w : world) :
  emit l m w = (Ok tt, set_stdout (stdout w ++ [(l, m)]) w).
Proof. reflexivity. Qed.

Lemma input_run (prompt : message) (w : world) (line : pystr) (rest : list pystr) :
  stdin w = line :: rest ->
  input prompt w
  = (Ok line, set_stdin rest (set_stdout (stdout w ++ [(Prompt, prompt)]) w)).
Proof. intros H. unfold input, bind. rewrite emit_run. wsimpl. by rewrite H. Qed.

Lemma select_turn_sets_default
    (w : world) (api_keys api_keys' : json) (providers : list (pystr * json))
    (k : nat) (P : pystr) (profile : json) (choice answer : pystr)
    (rest_in : list pystr) :
  credentials w api_keys providers ->
  Forall (has_name providers) (listed_providers providers) ->
  nth_error (listed_providers providers) k = Some P ->
  assoc_get P providers = Some profile ->
  stdin w = choice :: answer :: rest_in ->
  isdigit choice = true ->
  py_int choice = Some (N.of_nat (S k)) ->
  is_yes (lower answer) = true ->
  setitem api_keys (py "ai-providers")
          (JObj (assoc_set (py "default") profile providers)) = Ok api_keys' ->
  exists w',
    select_ai_provider_turn w = (Ok false, w')
    /\ fs_files w'
       = store (resolve (py "API_KEY.json")) (json_dumps true (Some 2) api_keys')
               (fs_files w)
    /\ fs_dirs w' = fs_dirs w /\ stdin w' = rest_in
    /\ _client w' = _client w /\ _provider w' = _provider w.
Proof.
  intros (data & Hfile & Hload & Hprov) Hnames Hk HP Hin Hdigit Hint Hyes Hset.
  pose proof (read_file_ok _ _ _ Hfile) as Hread.
  assert (k < length (listed_providers providers)) as Hlen
    by (apply nth_error_Some; congruence).
  destruct (menu_prints api_keys providers
              (enumerate (listed_providers providers) 1)) as (lines & Hmenu);
    [exact Hprov|by rewrite map_snd_enumerate|].
  rewrite Hprov in Hmenu.
  eexists. split.
  - unfold select_ai_provider_turn. apply try_except_ok.
    rewrite (bind_ok _ _ _ _ _ Hread).
    unfold loads. rewrite Hload, bind_lift, Hprov, bind_lift.
    simpl dict_keys. rewrite bind_lift.
    fold (listed_providers providers).
    unfold iprint at 1. erewrite bind_ok by apply emit_run.
    erewrite bind_ok by apply Hmenu.
    unfold wprint at 1. erewrite bind_ok by apply emit_run.
    erewrite bind_ok by (apply input_run; wsimpl; exact Hin).
    rewrite Hdigit. change (negb true) with false. cbv iota.
    rewrite Hint, bind_lift.
    replace (Z.of_N (N.of_nat (S k)) - 1)%Z with (Z.of_nat k) by lia.
    replace (Z.of_nat k =? Z.of_nat (length (listed_providers providers)))%Z
      with false by (symmetry; apply Z.eqb_neq; lia).
    replace ((0 <=? Z.of_nat k)%Z
             && (Z.of_nat k <? Z.of_nat (length (listed_providers providers)))%Z)
      with true
      by (symmetry; apply andb_true_iff; split; [apply Z.leb_le|apply Z.ltb_lt]; lia).
    cbv iota. rewrite Nat2Z.id, Hk, bind_lift.
    erewrite bind_ok by (apply input_run; wsimpl; reflexivity).
    rewrite Hyes. rewrite bind_lift.
    unfold getitem at 1. rewrite HP, bind_lift.
    simpl setitem at 1. rewrite bind_lift, Hset, bind_lift.
    unfold write_file, iprint. unfold_run. reflexivity.
  - wsimpl. repeat split; reflexivity.
Qed.

(** C4.  When the operator picks the provider listed at position k+1
    and confirms, [select_ai_provider] rewrites the credentials file: in
    it "default" is that provider's profile, whatever it was before, and
    every other entry of "ai-providers" is as it was.  If the library
    reads back what it wrote, the file loads to these credentials, and
    [set_provider("default")] returns the profile and configures the
    client with its api_key and base_url. *)
Theorem C4_set_default
    (w : world) (api_keys : json) (providers : list (pystr * json))
    (k : nat) (P : pystr) (profile : json) (choice answer : pystr)
    (rest_in : list pystr) :
  credentials w api_keys providers ->
  Forall (has_name providers) (listed_providers providers) ->
  nth_error (listed_providers providers) k = Some P ->
  assoc_get P providers = Some profile ->
  stdin w = choice :: answer :: rest_in ->
  isdigit choice = true ->
  py_int choice = Some (N.of_nat (S k)) ->
  is_yes (lower answer) = true ->
  let providers' := assoc_set (py "default") profile providers in
  exists api_keys' w',
    setitem api_keys (py "ai-providers") (JObj providers') = Ok api_keys'
    /\ select_ai_provider w = (Ok (Some tt), w')
    /\ fs_files w'
       = store (resolve (py "API_KEY.json")) (json_dumps true (Some 2) api_keys')
               (fs_files w)
    /\ getitem api_keys' (py "ai-providers") = Ok (JObj providers')
    /\ assoc_get (py "default") providers' = Some profile
    /\ (forall other, other <> py "default" ->
          assoc_get other providers' = assoc_get other providers)
    /\ (json_loads (json_dumps true (Some 2) api_keys') = Some api_keys' ->
        credentials w' api_keys' providers'
        /\ forall key url,
             getitem profile (py "api_key") = Ok key ->
             getitem profile (py "base_url") = Ok url ->
             exists w'',
               set_provider (py "default") w' = (Ok profile, w'')
               /\ _client w'' = Some (Client key url)
               /\ _provider w'' = profile).
Proof.
  intros Hcred Hnames Hk HP Hin Hdigit Hint Hyes providers'.
  assert (exists top, api_keys = JObj top) as (top & ->).
  { destruct Hcred as (_ & _ & _ & Hprov). destruct api_keys; try done. by eexists. }
  exists (JObj (assoc_set (py "ai-providers") (JObj providers') top)).
  destruct (select_turn_sets_default w (JObj top) _ providers k P profile choice answer
              rest_in Hcred Hnames Hk HP Hin Hdigit Hint Hyes eq_refl)
    as (w' & Hturn & Hfiles & Hdirs & Hstdin & Hclient & Hprovider).
  exists w'. split; [done|]. split.
  { unfold select_ai_provider. rewrite Hin. simpl select_ai_provider_loop.
    by rewrite (bind_ok _ _ _ _ _ Hturn). }
  split; [done|].
  assert (getitem (JObj (assoc_set (py "ai-providers") (JObj providers') top))
                  (py "ai-providers") = Ok (JObj providers')) as Hget
    by (unfold getitem; by rewrite assoc_get_set_eq).
  split; [done|].
  split; [apply assoc_get_set_eq|].
  split; [intros other Hother; by apply assoc_get_set_ne|].
  intros Hback.
  assert (credentials w' (JObj (assoc_set (py "ai-providers") (JObj providers') top))
                      providers') as Hcred'.
  { destruct Hcred as (data & Hfile & _).
    eexists. split; [|split; [exact Hback|exact Hget]].
    rewrite Hfiles. unfold store. rewrite lookup_insert_eq. by rewrite Hfile. }
  split; [done|].
  intros key url Hkey Hurl. eexists. split.
  - apply (set_provider_found _ _ _ profile key url _ Hcred');
      [apply assoc_get_set_eq|done|done].
  - by wsimpl.
Qed.
(* ================================================================== *)
(** * Batches                                                           *)
(* ================================================================== *)








(* ================================================================== *)
(** * Duplicate transcripts                                             *)
(* ================================================================== *)

Lemma CHUNK_pos : 0 < CHUNK.
Proof. unfold CHUNK. lia. Qed.

(** Reading in chunks feeds the hash the whole file. *)
Lemma read_chunks_all (fuel : nat) : forall (rest fed : list N),
  length rest < fuel -> read_chunks fuel rest fed = fed ++ rest.
Proof.
  pose proof CHUNK_pos as Hpos.
  induction fuel as [|fuel IH]; intros rest fed Hlen; [lia|].
  simpl read_chunks. destruct rest as [|c rest].
  - rewrite firstn_nil. simpl. by rewrite app_nil_r.
  - destruct CHUNK as [|n] eqn:E; [lia|].
    simpl firstn. simpl is_empty. cbv iota. simpl skipn.
    rewrite IH.
    + rewrite <- app_assoc. simpl. by rewrite firstn_skipn.
    + simpl in Hlen. rewrite length_skipn. lia.
Qed.

Lemma compute_sha1_readable (file_path : pystr) (w : world) (data : list N) :
  fs_files w !! resolve file_path = Some (File data true) ->
  compute_sha1 file_path w = (Ok (Some (sha1_hexdigest data)), w).
Proof.
  intros Hfile. unfold compute_sha1, try_except.
  rewrite (bind_ok _ _ _ _ _ (read_file_ok _ _ _ Hfile)).
  unfold ret. by rewrite read_chunks_all by lia.
Qed.

(** A file that cannot be read hashes to [None], whatever it holds. *)
Lemma compute_sha1_unreadable (file_path : pystr) (w : world) (data : list N) :
  fs_files w !! resolve file_path = Some (File data false) ->
  exists w', compute_sha1 file_path w = (Ok None, w') /\ fs_files w' = fs_files w.
Proof.
  intros Hfile. unfold compute_sha1, try_except, bind, read_file. rewrite Hfile.
  simpl. eexists. split; reflexivity.
Qed.

(** ** Duplicate search: the scan as a fold *)

(** [compute_sha1] always returns; it changes nothing but the log. *)
Lemma compute_sha1_run (file_path : pystr) (w : world) :
  exists w',
    compute_sha1 file_path w = (Ok (hash_of (fs_files w) file_path), w')
    /\ fs_files w' = fs_files w /\ fs_dirs w' = fs_dirs w /\ stdin w' = stdin w.
Proof.
  unfold compute_sha1, hash_of, try_except, bind, read_file.
  destruct (fs_files w !! resolve file_path) as [[data [|]]|]; cbn [f_readable f_data].
  - eexists. split; [|done]. unfold ret. by rewrite read_chunks_all by lia.
  - eexists. split; [reflexivity|done].
  - destruct (bool_decide _); eexists; (split; [reflexivity|done]).
Qed.

Lemma scan_file_run (root file : pystr) (st : scan_state) (w : world) :
  exists w',
    scan_file root file st w
    = (Ok (if endswith file (py ".txt")
           then group_step (hash_of (fs_files w)) st (os_path_join root file)
           else st), w')
    /\ fs_files w' = fs_files w /\ fs_dirs w' = fs_dirs w /\ stdin w' = stdin w.
Proof.
  unfold scan_file, group_step. destruct st as [hashes duplicates].
  destruct (endswith file (py ".txt")); [|by eexists].
  destruct (compute_sha1_run (os_path_join root file) w) as (w' & Hrun & Hsame).
  exists w'. split; [|done]. rewrite (bind_ok _ _ _ _ _ Hrun). simpl.
  by destruct (hashes !! hash_of (fs_files w) (os_path_join root file)).
Qed.

Lemma scan_files_run (root : pystr) (files : list pystr) (st : scan_state) (w : world) :
  exists w',
    fold_each files (scan_file root) st w
    = (Ok (fold_left (group_step (hash_of (fs_files w))) 
             (map (os_path_join root)
                  (List.filter (fun file => endswith file (py ".txt")) files)) st), w')
    /\ fs_files w' = fs_files w /\ fs_dirs w' = fs_dirs w /\ stdin w' = stdin w.
Proof.
  revert st w. induction files as [|file files IH]; intros st w; [by eexists|].
  destruct (scan_file_run root file st w) as (w1 & Hrun & Hf1 & Hd1 & Hi1).
  simpl fold_each. rewrite (bind_ok _ _ _ _ _ Hrun).
  destruct (IH (if endswith file (py ".txt")
                then group_step (hash_of (fs_files w)) st (os_path_join root file)
                else st) w1) as (w' & Hrest & Hf & Hd & Hi).
  exists w'. rewrite Hrest, Hf1. split; [|split; [|split]]; try congruence.
  simpl List.filter. by destruct (endswith file (py ".txt")).
Qed.

(** The scan is the pure grouping of the visited files by their hash. *)
Lemma scan_tree_run (tree : list (pystr * list pystr * list pystr)) (w : world) :
  exists w',
    scan_tree tree w
    = (Ok (fold_left (group_step (hash_of (fs_files w))) (txt_paths tree) (∅, [])), w')
    /\ fs_files w' = fs_files w /\ fs_dirs w' = fs_dirs w /\ stdin w' = stdin w.
Proof.
  unfold scan_tree. generalize (∅ : gmap (option (list N)) (list N), @nil (pystr * pystr)).
  revert w. induction tree as [|[[root dirs] files] tree IH]; intros w st; [by eexists|].
  destruct (scan_files_run root files st w) as (w1 & Hrun & Hf1 & Hd1 & Hi1).
  simpl fold_each. rewrite (bind_ok _ _ _ _ _ Hrun).
  destruct (IH w1 (fold_left (group_step (hash_of (fs_files w)))
                     (map (os_path_join root)
                        (List.filter (fun file => endswith file (py ".txt")) files)) st))
    as (w' & Hrest & Hf & Hd & Hi).
  exists w'. rewrite Hrest, Hf1. split; [|split; [|split]]; try congruence.
  simpl txt_paths. by rewrite fold_left_app.
Qed.

Lemma first_with_snoc (hash : pystr -> option pystr) (seen : list pystr) (p : pystr)
    (k : option pystr) :
  first_with hash (seen ++ [p]) k
  = match first_with hash seen k with
    | Some o => Some o
    | None => if bool_decide (hash p = k) then Some p else None
    end.
Proof.
  unfold first_with. induction seen as [|x seen IH]; simpl; [done|].
  by destruct (bool_decide (hash x = k)).
Qed.

Lemma first_with_some (hash : pystr -> option pystr) (seen : list pystr)
    (k : option pystr) (o : pystr) :
  first_with hash seen k = Some o -> In o seen /\ hash o = k.
Proof.
  unfold first_with. intros [Hin Hk]%find_some. split; [done|].
  by apply bool_decide_eq_true in Hk.
Qed.

Lemma first_with_found (hash : pystr -> option pystr) (seen : list pystr) (p : pystr) :
  In p seen -> exists o, first_with hash seen (hash p) = Some o.
Proof.
  intros Hin. unfold first_with.
  destruct (List.find _ seen) as [o|] eqn:E; [by eexists|].
  pose proof (find_none _ _ E p Hin) as Hno. simpl in Hno.
  by rewrite bool_decide_eq_false in Hno.
Qed.

(** The grouping keeps, for every hash, the first file seen with it, and
    reports every later file with that first one. *)
Lemma group_pairs (hash : pystr -> option pystr) (paths seen : list pystr)
    (hashes : gmap (option (list N)) (list N)) (duplicates : list (pystr * pystr)) :
  (forall k, hashes !! k = first_with hash seen k) ->
  snd (fold_left (group_step hash) paths (hashes, duplicates))
  = duplicates ++ pairs_after hash seen paths.
Proof.
  revert seen hashes duplicates.
  induction paths as [|q paths IH]; intros seen hashes duplicates Hinv; simpl.
  - by rewrite app_nil_r.
  - unfold group_step at 2. simpl fst. simpl snd. rewrite Hinv.
    destruct (first_with hash seen (hash q)) as [o|] eqn:Hfirst.
    + rewrite (IH (seen ++ [q])).
      * by rewrite <- app_assoc.
      * intros k. rewrite first_with_snoc, <- Hinv.
        destruct (hashes !! k) eqn:Hk; [done|].
        case_bool_decide as Hq; [|done]. subst k. rewrite Hinv in Hk. congruence.
    + apply (IH (seen ++ [q])).
      intros k. rewrite first_with_snoc, <- Hinv.
      case_bool_decide as Hq.
      * subst k. rewrite lookup_insert_eq. by rewrite Hinv, Hfirst.
      * rewrite lookup_insert_ne by done. by destruct (hashes !! k).
Qed.

Lemma pairs_after_elem (hash : pystr -> option pystr) (paths seen : list pystr)
    (q o : pystr) :
  In (q, o) (pairs_after hash seen paths)
  <-> exists before after,
        paths = before ++ q :: after
        /\ first_with hash (seen ++ before) (hash q) = Some o.
Proof.
  revert seen. induction paths as [|x paths IH]; intros seen; simpl.
  - split; [done|]. intros (before & after & E & _). by destruct before.
  - assert (In (q, o) (pairs_after hash (seen ++ [x]) paths)
            <-> exists before after,
                  x :: paths = (x :: before) ++ q :: after
                  /\ first_with hash (seen ++ x :: before) (hash q) = Some o) as Hlater.
    { rewrite IH. split; intros (before & after & E & Hfirst);
        exists before, after; simpl in *.
      - split; [by rewrite E|]. by rewrite <- app_assoc in Hfirst.
      - split; [congruence|]. by rewrite <- app_assoc. }
    destruct (first_with hash seen (hash x)) as [o'|] eqn:Hfirst.
    + split.
      * intros [[= -> ->]|Hin].
        -- exists [], paths. split; [done|]. by rewrite app_nil_r.
        -- apply Hlater in Hin as (before & after & E & Hf). by exists (x :: before), after.
      * intros ([|y before] & after & E & Hf); simpl in E; injection E as -> ->.
        -- left. rewrite app_nil_r in Hf. congruence.
        -- right. apply Hlater. by exists before, after.
    + split.
      * intros Hin. apply Hlater in Hin as (before & after & E & Hf).
        by exists (x :: before), after.
      * intros ([|y before] & after & E & Hf); simpl in E; injection E as -> ->.
        -- rewrite app_nil_r in Hf. congruence.
        -- apply Hlater. by exists before, after.
Qed.

(** Every reported pair is a file and the first file visited before it
    that has the same hash. *)
Lemma duplicates_sound (hash : pystr -> option pystr) (paths : list pystr) (q o : pystr) :
  In (q, o) (pairs_after hash [] paths) ->
  hash o = hash q
  /\ exists before after, paths = before ++ q :: after /\ In o before.
Proof.
  intros (before & after & E & Hfirst)%pairs_after_elem.
  apply first_with_some in Hfirst as [Hin Hhash]. split; [done|].
  by exists before, after.
Qed.

(** Every file visited after one of the same hash is reported. *)
Lemma duplicates_complete (hash : pystr -> option pystr)
    (before between after : list pystr) (p q : pystr) :
  hash p = hash q ->
  exists o,
    In (q, o) (pairs_after hash [] (before ++ p :: between ++ q :: after))
    /\ hash o = hash q.
Proof.
  intros Hsame.
  destruct (first_with_found hash (before ++ p :: between) p) as (o & Hfirst).
  { apply in_or_app. right. by left. }
  rewrite Hsame in Hfirst. exists o. split.
  - apply pairs_after_elem. exists (before ++ p :: between), after. split; [|done].
    by rewrite <- app_assoc.
  - by apply first_with_some in Hfirst as [_ ?].
Qed.

(** Readable files have the hash of their content, so that under a hash
    without collisions equal hashes mean equal contents. *)
Lemma hash_of_readable (files : gmap path file) (p q : pystr) (dp dq : list N) :
  files !! resolve p = Some (File dp true) ->
  files !! resolve q = Some (File dq true) ->
  (sha1_hexdigest dp = sha1_hexdigest dq -> dp = dq) ->
  hash_of files p = hash_of files q <-> dp = dq.
Proof.
  intros Hp Hq Hinj. unfold hash_of. rewrite Hp, Hq. simpl. split.
  - intros [= H]. by apply Hinj.
  - by intros ->.
Qed.

(** The whole search: it returns, writes the report when there is a
    pair to report, and removes no file. *)
Lemma find_duplicate_transcripts_run (w : world) (transcripts_dir : pystr)
    (typed : list pystr) :
  stdin w = transcripts_dir :: typed ->
  os_path_exists transcripts_dir w = true ->
  let duplicates :=
    pairs_after (hash_of (fs_files w)) []
      (txt_paths (os_walk (fs_files w) (fs_dirs w) transcripts_dir)) in
  exists w',
    find_duplicate_transcripts w = (Ok tt, w')
    /\ fs_files w'
       = match duplicates with
         | [] => fs_files w
         | _ :: _ => store (resolve (py "duplicates.txt")) (duplicates_report duplicates)
                       (fs_files w)
         end
    /\ dom (fs_files w) ⊆ dom (fs_files w').
Proof.
  intros Hin Hexists duplicates. unfold find_duplicate_transcripts.
  erewrite bind_ok by (apply input_run; exact Hin).
  unfold bind at 1. unfold os_path_exists in *. wsimpl. rewrite Hexists.
  change (negb true) with false. cbv iota.
  unfold bind at 1. wsimpl.
  match goal with
  | |- context [bind (scan_tree ?tree) _ ?w0] =>
      destruct (scan_tree_run tree w0) as (w1 & Hscan & Hf & Hd & Hi)
  end.
  wsimpl_in Hscan. wsimpl_in Hf.
  rewrite (bind_ok _ _ _ _ _ Hscan).
  rewrite (group_pairs _ _ [] ∅ []) by (intros k; apply lookup_empty).
  simpl app. fold duplicates.
  destruct duplicates as [|pair more].
  - eexists. split; [reflexivity|]. wsimpl. by rewrite Hf.
  - change ([] ++ pair :: more) with (pair :: more). cbv iota.
    unfold write_file, print, emit, bind. wsimpl.
    eexists. split; [reflexivity|]. wsimpl. rewrite Hf. split; [done|].
    rewrite store_dom. apply union_subseteq_r.
Qed.

Lemma drop_while_blanks (s : pystr) :
  exists t, s = t ++ drop_while is_space s /\ forallb is_space t = true.
Proof.
  induction s as [|c s (t & IH & Hall)]; simpl.
  - by exists [].
  - destruct (is_space c) eqn:E.
    + exists (c :: t). simpl. rewrite E, Hall. split; [by f_equal|done].
    + by exists [].
Qed.

(* ================================================================== *)
(** * Further properties: file names                                    *)
(* ================================================================== *)

Lemma kept_resolve (r : pystr) :
  forallb sanitize_keep r = true -> r <> [] -> resolve r = [r].
Proof.
  intros Hk Hne. pose proof (kept_plain r Hk) as Hplain.
  destruct (plain_name_facts r Hplain Hne) as (He & Hd1 & Hd2).
  pose proof (plain_no_slash r Hplain) as Hns.
  unfold resolve. rewrite split_on_none by done.
  pose proof (startswith_slash r [] Hns Hne) as Hst. rewrite app_nil_r in Hst.
  rewrite Hst. simpl fold_left. by rewrite path_step_name.
Qed.

Lemma sanitize_filename_general name (max_length : Z) :
  let r := sanitize_filename name max_length in
  forallb sanitize_keep r = true /\ starts_in_space r = false /\ r <> [].
Proof.
  unfold sanitize_filename. simpl.
  destruct (slice_to max_length (strip (re_sub_sanitize name))) as [|c t] eqn:E.
  - simpl. repeat split; done.
  - simpl is_empty. cbv iota. rewrite <- E. repeat split.
    + apply slice_to_kept, strip_kept, re_sub_sanitize_kept.
    + destruct (slice_to_prefix max_length (strip (re_sub_sanitize name))) as [u Hu].
      pose proof (strip_starts (re_sub_sanitize name)) as Hs. rewrite Hu in Hs.
      by apply prefix_starts in Hs.
    + by rewrite E.
Qed.

(** X1.  Whatever the name and the maximum length, [sanitize_filename]
    returns a usable file name: it is not empty, it holds only word
    characters, hyphens and whitespace, it does not start with
    whitespace, and as a path it is one component (no separator, not
    "." or "..").  With a maximum of at least 8 it is no longer than
    the maximum. *)
Theorem sanitize_filename_is_a_file_name (name : pystr) (max_length : Z) :
  let r := sanitize_filename name max_length in
  r <> []
  /\ (forall c, In c r -> is_word c = true \/ c = 45%N \/ is_space c = true)
  /\ starts_in_space r = false
  /\ resolve r = [r]
  /\ ((8 <= max_length)%Z -> (Z.of_nat (length r) <= max_length)%Z).
Proof.
  intros r. destruct (sanitize_filename_general name max_length) as (Hk & Hs & Hne).
  fold r in Hk, Hs, Hne. repeat split; try done.
  - intros c Hc. rewrite forallb_forall in Hk. specialize (Hk c Hc).
    unfold sanitize_keep in Hk.
    apply orb_true_iff in Hk as [[Hw|Hh]%orb_true_iff|Hsp]; auto.
    right. left. by apply N.eqb_eq.
  - by apply kept_resolve.
  - intros Hmax. by apply sanitize_filename_shape.
Qed.

(** X2.  A second pass of [sanitize_filename] over its own result only
    removes trailing whitespace, and from then on the name is stable:
    a third pass changes nothing. *)
Theorem sanitize_filename_settles (name : pystr) (max_length : Z) :
  (8 <= max_length)%Z ->
  let once := sanitize_filename name max_length in
  let twice := sanitize_filename once max_length in
  twice = rstrip once
  /\ sanitize_filename twice max_length = twice
  /\ (exists blanks, once = twice ++ blanks /\ forallb is_space blanks = true).
Proof.
  intros Hmax once twice.
  assert (twice = rstrip once) as Htwice by (by apply sanitize_filename_twice).
  destruct (sanitize_filename_shape name max_length Hmax) as (Hk & Hs & Hne & Hlen).
  fold once in Hk, Hs, Hne, Hlen.
  split; [done|]. split.
  - rewrite Htwice. rewrite sanitize_filename_on_shape.
    + apply rstrip_id, rstrip_ends.
    + lia.
    + unfold rstrip. by apply forallb_rev_true, drop_while_forallb, forallb_rev_true.
    + by apply rstrip_starts.
    + by apply rstrip_nonempty.
    + pose proof (rstrip_length once). lia.
  - rewrite Htwice. unfold rstrip.
    destruct (drop_while_blanks (rev once)) as (t & Ht & Hall).
    exists (rev t). split.
    + rewrite <- rev_app_distr, <- Ht. symmetry. apply rev_involutive.
    + by apply forallb_rev_true.
Qed.
Lemma dec_digits_length (fuel : nat) : forall (n : N) (acc : pystr),
  length acc < length (dec_digits (S fuel) n acc).
Proof.
  induction fuel as [|fuel IH]; intros n acc.
  - simpl. destruct (n <? 10)%N; simpl; lia.
  - change (dec_digits (S (S fuel)) n acc)
      with (let acc' := (48 + n mod 10)%N :: acc in
            if (n <? 10)%N then acc' else dec_digits (S fuel) (n / 10)%N acc').
    cbv zeta. destruct (n <? 10)%N; [simpl; lia|].
    pose proof (IH (n / 10)%N ((48 + n mod 10)%N :: acc)) as Hlen.
    change (length ((48 + n mod 10)%N :: acc)) with (S (length acc)) in Hlen. lia.
Qed.

(** A number of three digits or more. *)
Lemma str_of_N_wide (n : N) : (100 <= n)%N -> 3 <= length (str_of_N n).
Proof using tbl.
  intros Hn. unfold str_of_N.
  assert (exists f, N.to_nat (N.log2 n) = S (S f)) as (f & ->).
  { assert (6 <= N.log2 n)%N.
    { change 6%N with (N.log2 64). apply N.log2_le_mono. lia. }
    exists (N.to_nat (N.log2 n) - 2). lia. }
  change (dec_digits (S (S (S f))) n [])
    with (let acc' := [(48 + n mod 10)%N] in
          if (n <? 10)%N then acc' else dec_digits (S (S f)) (n / 10)%N acc').
  cbv zeta. destruct (N.ltb_spec n 10) as [?|_]; [lia|].
  change (dec_digits (S (S f)) (n / 10)%N [(48 + n mod 10)%N])
    with (let acc' := [(48 + (n / 10) mod 10)%N; (48 + n mod 10)%N] in
          if (n / 10 <? 10)%N then acc' else dec_digits (S f) (n / 10 / 10)%N acc').
  cbv zeta. destruct (N.ltb_spec (n / 10) 10) as [Hsmall|_].
  - exfalso. assert (10 <= n / 10)%N; [|lia].
    apply N.div_le_lower_bound; lia.
  - pose proof (dec_digits_length f (n / 10 / 10)%N
                  [(48 + (n / 10) mod 10)%N; (48 + n mod 10)%N]) as Hlen.
    change (length [(48 + (n / 10) mod 10)%N; (48 + n mod 10)%N]) with 2 in Hlen. lia.
Qed.

(* ================================================================== *)
(** * Further properties: durations                                     *)
(* ================================================================== *)

Lemma int_digits_decimal (s : pystr) : forall a v,
  int_digits a s = Some v -> forallb is_decimal s = true.
Proof.
  induction s as [|c s IH]; intros a v; simpl; [done|].
  unfold is_decimal. destruct (decimal_value c); [|done].
  intros H. simpl. by apply (IH _ _ H).
Qed.

Lemma str_of_N_group (n : N) :
  digit_group (Some (str_of_N n)) /\ group_int (Some (str_of_N n)) = n.
Proof.
  destruct (str_of_N_spec n) as (ds & E & Hne & Hval & _). rewrite E.
  split; [split; [done|by apply (int_digits_decimal ds 0%N n)]|].
  apply group_int_value; [done|]. rewrite <- E. apply py_int_str_of_N.
Qed.

Lemma int_digits_zeros (k : nat) (ds : pystr) :
  int_digits 0 (repeat 48%N k ++ ds) = int_digits 0 ds.
Proof.
  induction k as [|k IH]; simpl; [done|].
  change (decimal_value 48) with (Some 0%N). cbv iota. exact IH.
Qed.

Lemma format_02_reads_back (n : N) : py_int (format_02 n) = Some n.
Proof.
  unfold format_02, py_int. cbv zeta.
  destruct (str_of_N_spec n) as (ds & -> & Hne & Hval & _).
  rewrite int_digits_zeros, Hval.
  destruct (repeat 48%N (2 - length ds) ++ ds) eqn:E; [|done].
  apply app_eq_nil in E as [_ ->]. done.
Qed.

Lemma format_02_length (n : N) :
  2 <= length (format_02 n) /\ ((n < 100)%N -> length (format_02 n) = 2).
Proof using tbl.
  split.
  - unfold format_02. cbv zeta. rewrite length_app, repeat_length. lia.
  - intros Hn.
    assert (forallb (fun k => Nat.eqb (length (format_02 (N.of_nat k))) 2) (seq 0 100) = true)
      as Hall by (by vm_compute).
    rewrite forallb_forall in Hall.
    specialize (Hall (N.to_nat n)). rewrite N2Nat.id in Hall.
    apply Nat.eqb_eq, Hall, in_seq. lia.
Qed.

(** X3.  A duration written from three numbers, "PT<h>H<m>M<s>S", comes
    out as the hours and the minutes, each padded to two digits, with a
    colon between them; the seconds play no part.  Both fields read back
    as the numbers they were written from, and the result has the five
    characters of hh:mm exactly when neither field needs a third
    digit. *)
Theorem format_duration_of_numbers (h m s : N) :
  let iso := py "PT" ++ str_of_N h ++ py "H" ++ str_of_N m ++ py "M"
             ++ str_of_N s ++ py "S" in
  format_duration iso = format_02 h ++ py ":" ++ format_02 m
  /\ py_int (format_02 h) = Some h
  /\ py_int (format_02 m) = Some m
  /\ 5 <= length (format_duration iso)
  /\ (length (format_duration iso) = 5 <-> (h < 100)%N /\ (m < 100)%N).
Proof.
  intros iso.
  destruct (str_of_N_group h) as [Hh Hhv], (str_of_N_group m) as [Hm Hmv],
           (str_of_N_group s) as [Hs _].
  assert (format_duration iso = format_02 h ++ py ":" ++ format_02 m) as Hout.
  { pose proof (format_duration_shape (Some (str_of_N h)) (Some (str_of_N m))
                  (Some (str_of_N s)) Hh Hm Hs) as H.
    rewrite Hhv, Hmv in H. rewrite <- H. f_equal. subst iso.
    unfold component. by rewrite <- !app_assoc. }
  split; [done|]. split; [apply format_02_reads_back|].
  split; [apply format_02_reads_back|].
  rewrite Hout, !length_app.
  destruct (format_02_length h) as [Hh2 Hhs], (format_02_length m) as [Hm2 Hms].
  change (length (py ":")) with 1.
  split; [lia|]. split.
  - intros Hlen. split.
    + destruct (N.lt_ge_cases h 100) as [|Hbig]; [done|].
      rewrite format_02_wide in Hlen, Hh2 by lia.
      pose proof (str_of_N_wide h Hbig). lia.
    + destruct (N.lt_ge_cases m 100) as [|Hbig]; [done|].
      rewrite (format_02_wide m) in Hlen, Hm2 by lia.
      pose proof (str_of_N_wide m Hbig). lia.
  - intros [Hh100 Hm100]. rewrite Hhs, Hms by done. lia.
Qed.
(* ================================================================== *)
(** * Further properties: hashing and the duplicate search              *)
(* ================================================================== *)

(** X4.  [compute_sha1] never raises.  For a file that can be read it
    returns the digest of the whole content, however many chunks that
    takes, and leaves the world as it was; for any other path (missing,
    a directory, a file that cannot be read) it returns [None] and
    leaves one line in the log. *)
Theorem compute_sha1_never_raises (file_path : pystr) (w : world) :
  match fs_files w !! resolve file_path with
  | Some (File data true) =>
      compute_sha1 file_path w = (Ok (Some (sha1_hexdigest data)), w)
  | _ =>
      exists e,
        compute_sha1 file_path w
        = (Ok None,
           set_stdout (stdout w ++ [(LogError, [Lit "Error computing SHA1 for ";
                                                FStr file_path; Lit ": "; FExn e])]) w)
  end.
Proof.
  destruct (fs_files w !! resolve file_path) as [[data [|]]|] eqn:Hfile.
  - by apply compute_sha1_readable.
  - unfold compute_sha1, try_except, bind, read_file. rewrite Hfile.
    cbn [f_readable]. eexists. reflexivity.
  - unfold compute_sha1, try_except, bind, read_file. rewrite Hfile.
    destruct (bool_decide _); eexists; reflexivity.
Qed.

(* ================================================================== *)
(** * Further properties: the reformatter                               *)
(* ================================================================== *)









Lemma read_file_world (p : pystr) (w : world) :
  snd (read_file p w) = w.
Proof.
  unfold read_file.
  repeat match goal with
         | |- context [match ?x with _ => _ end] => destruct x
         end; done.
Qed.

Lemma set_provider_run (provider_name : pystr) (w w' : world) (res : result json) :
  set_provider provider_name w = (res, w') ->
  match res with
  | Ok profile =>
      exists key url,
        w' = set__client (Some (Client key url)) (set__provider profile w)
        /\ getitem profile (py "api_key") = Ok key
        /\ getitem profile (py "base_url") = Ok url
  | Raise _ => exists out, w' = set_stdout (stdout w ++ out) w
  end.
Proof.
  assert (w = set_stdout (stdout w ++ []) w) as Hsame
    by (rewrite app_nil_r; by destruct w).
  unfold set_provider. unfold bind at 1.
  pose proof (read_file_world (py "API_KEY.json") w) as Hw.
  destruct (read_file (py "API_KEY.json") w) as [[data|e] w0]; simpl in Hw; subst w0;
    [|intros [= <- <-]; by exists []].
  rewrite bind_lift. destruct (loads data) as [api_keys|e];
    [|intros [= <- <-]; by exists []].
  rewrite bind_lift. destruct (getitem api_keys (py "ai-providers")) as [ai_providers|e];
    [|intros [= <- <-]; by exists []].
  rewrite bind_lift. destruct (dict_get ai_providers provider_name) as [provider|e];
    [|intros [= <- <-]; by exists []].
  destruct (truthy provider) eqn:Htruthy; simpl negb; cbv iota.
  - unfold bind at 1, ret at 1. rewrite bind_lift.
    destruct (getitem provider (py "api_key")) as [key|e] eqn:Hkey;
      [|intros [= <- <-]; by exists []].
    rewrite bind_lift.
    destruct (getitem provider (py "base_url")) as [url|e] eqn:Hurl;
      [|intros [= <- <-]; by exists []].
    unfold provider_setter, _set_client. unfold_run. wsimpl.
    rewrite Htruthy, Hkey, Hurl. intros [= <- <-].
    exists key, url. split; [|done]. by destruct w.
  - unfold eprint. erewrite bind_ok by apply emit_run. rewrite bind_lift.
    destruct (getitem provider (py "api_key")) as [key|e] eqn:Hkey.
    + apply getitem_truthy in Hkey. congruence.
    + intros [= <- <-]. by eexists [_].
Qed.

(** X8.  [set_provider] changes the provider and the client together or
    not at all.  When it returns, the provider is the profile returned
    and the client is the one built from that profile's api_key and
    base_url; when it raises (no credentials file, no such provider, a
    profile without a key or a URL) both are what they were.  It writes
    no file.  A reformatter whose construction fails has neither. *)
Theorem set_provider_all_or_nothing (provider_name : pystr) (w : world) :
  let res := fst (set_provider provider_name w) in
  let w' := snd (set_provider provider_name w) in
  fs_files w' = fs_files w /\ fs_dirs w' = fs_dirs w /\ stdin w' = stdin w
  /\ match res with
     | Ok profile =>
         _provider w' = profile
         /\ exists key url,
              getitem profile (py "api_key") = Ok key
              /\ getitem profile (py "base_url") = Ok url
              /\ _client w' = Some (Client key url)
     | Raise _ => _provider w' = _provider w /\ _client w' = _client w
     end
  /\ match AiReformatter__init__ provider_name w with
     | (Ok _, made) =>
         exists key url,
           getitem (_provider made) (py "api_key") = Ok key
           /\ getitem (_provider made) (py "base_url") = Ok url
           /\ _client made = Some (Client key url)
     | (Raise _, made) => _provider made = JNull /\ _client made = None
     end.
Proof.
  intros res w'.
  pose proof (set_provider_run provider_name w w' res) as Hrun.
  assert (set_provider provider_name w = (res, w')) as E
    by (subst res w'; by destruct (set_provider provider_name w)).
  specialize (Hrun E). clearbody res w'. split_and!.
  - destruct res; [destruct Hrun as (? & ? & -> & _)|destruct Hrun as (? & ->)]; done.
  - destruct res; [destruct Hrun as (? & ? & -> & _)|destruct Hrun as (? & ->)]; done.
  - destruct res; [destruct Hrun as (? & ? & -> & _)|destruct Hrun as (? & ->)]; done.
  - destruct res as [profile|e].
    + destruct Hrun as (key & url & -> & Hk & Hu). split; [done|]. by exists key, url.
    + by destruct Hrun as (? & ->).
  - unfold AiReformatter__init__. unfold bind at 1. wsimpl.
    destruct (set_provider provider_name (set__client None (set__provider JNull w)))
      as [[profile|e] made] eqn:Hinit.
    + rewrite (bind_ok _ _ _ _ _ Hinit).
      apply set_provider_run in Hinit. destruct Hinit as (key & url & -> & Hk & Hu).
      unfold ret. wsimpl. by exists key, url.
    + rewrite (bind_raise _ _ _ _ _ Hinit).
      apply set_provider_run in Hinit. destruct Hinit as (out & ->). done.
Qed.

(** A loop whose body only prints leaves everything but the console as
    it was, wherever it stops. *)
Lemma for_each_prints {A} (items : list A) (body : A -> M unit) :
  (forall x, exists r lines, forall w, body x w = (r, set_stdout (stdout w ++ lines) w)) ->
  exists r lines, forall w, for_each items body w = (r, set_stdout (stdout w ++ lines) w).
Proof.
  intros Hbody. induction items as [|x items (r & lines & IH)].
  - exists (Ok tt), []. intros w. simpl. unfold ret. rewrite app_nil_r. by destruct w.
  - destruct (Hbody x) as ([[]|e] & first & Hx).
    + exists r, (first ++ lines). intros w. simpl for_each.
      rewrite (bind_ok _ _ _ _ _ (Hx w)), IH. wsimpl. by rewrite <- app_assoc.
    + exists (Raise e), first. intros w. simpl for_each.
      by rewrite (bind_raise _ _ _ _ _ (Hx w)).
Qed.

Lemma menu_line_prints (found : result json) (item : Z * pystr) :
  exists r lines, forall w,
    (let '(i, provider) := item in
     let* ai_providers := lift found in
     let* profile := lift (getitem ai_providers provider) in
     let* name := lift (getitem profile (py "name")) in
     print [FNum i; Lit ". "; FJson name]) w
    = (r, set_stdout (stdout w ++ lines) w).
Proof.
  assert (forall w, w = set_stdout (stdout w ++ []) w) as Hsame
    by (intros w; rewrite app_nil_r; by destruct w).
  destruct item as [i provider].
  destruct found as [ai_providers|e];
    [|exists (Raise e), []; intros w; by rewrite bind_lift, <- Hsame].
  destruct (getitem ai_providers provider) as [profile|e] eqn:E2;
    [|exists (Raise e), []; intros w; by rewrite !bind_lift, E2, <- Hsame].
  destruct (getitem profile (py "name")) as [name|e] eqn:E3;
    [|exists (Raise e), []; intros w; by rewrite !bind_lift, E2, bind_lift, E3, <- Hsame].
  exists (Ok tt), [(Plain, [FNum i; Lit ". "; FJson name])]. intros w.
  by rewrite !bind_lift, E2, bind_lift, E3.
Qed.

Ltac run_cases :=
  repeat (wsimpl; cbv beta;
          match goal with
          | |- context [match ?x with _ => _ end] =>
              lazymatch x with
              | context [match _ with _ => _ end] => fail
              | _ => destruct x eqn:?
              end
          end).

(** One turn of the selection menu: it never raises, it goes round
    again only after it has read a line, and it changes nothing but the
    console, the pending input and, possibly, the credentials file. *)
Lemma select_turn_frame (w w' : world) (r : result bool) :
  select_ai_provider_turn w = (r, w') ->
  exists again,
    r = Ok again
    /\ fs_dirs w' = fs_dirs w /\ _client w' = _client w /\ _provider w' = _provider w
    /\ net_in w' = net_in w /\ net_out w' = net_out w
    /\ (fs_files w' = fs_files w
        \/ exists data,
             fs_files w' = store (resolve (py "API_KEY.json")) data (fs_files w))
    /\ (again = true -> length (stdin w') < length (stdin w))
    /\ length (stdin w') <= length (stdin w).
Proof.
  unfold select_ai_provider_turn, try_except.
  unfold bind at 1.
  pose proof (read_file_world (py "API_KEY.json") w) as Hw.
  destruct (read_file (py "API_KEY.json") w) as [[data|e] w0]; simpl in Hw; subst w0;
    [|unfold_run; intros [= <- <-]; wsimpl; eexists; repeat split; eauto; done].
  rewrite bind_lift. destruct (loads data) as [api_keys|e];
    [|unfold_run; intros [= <- <-]; wsimpl; eexists; repeat split; eauto; done].
  rewrite bind_lift. destruct (getitem api_keys (py "ai-providers")) as [ai_providers|e];
    [|unfold_run; intros [= <- <-]; wsimpl; eexists; repeat split; eauto; done].
  rewrite bind_lift. destruct (dict_keys ai_providers) as [keys|e];
    [|unfold_run; intros [= <- <-]; wsimpl; eexists; repeat split; eauto; done].
  cbv zeta.
  set (providers := List.filter (fun key => negb (pystr_eqb key (py "default"))) keys).
  destruct (for_each_prints (enumerate providers 1)
              (fun '(i, provider) =>
                 let* ai_providers := lift (Ok ai_providers) in
                 let* profile := lift (getitem ai_providers provider) in
                 let* name := lift (getitem profile (py "name")) in
                 print [FNum i; Lit ". "; FJson name])
              (menu_line_prints (Ok ai_providers)))
    as (rmenu & lines & Hmenu).
  unfold iprint at 1. erewrite bind_ok by apply emit_run.
  unfold bind at 1. rewrite Hmenu.
  destruct rmenu as [[]|e];
    [|unfold_run; intros [= <- <-]; wsimpl; eexists; repeat split; eauto; done].
  unfold input. unfold_run. wsimpl.
  destruct (stdin w) as [|choice rest] eqn:Hin;
    [intros [= <- <-]; wsimpl; eexists; repeat split; eauto; rewrite ?Hin; done|].
  run_cases; intros [= <- <-]; wsimpl; eexists; (split; [reflexivity|]);
    rewrite ?Hin; simpl length; repeat split; eauto; try done; try lia.
Qed.

Lemma select_loop_frame (turns : nat) : forall w,
  length (stdin w) < turns ->
  exists w',
    select_ai_provider_loop turns w = (Ok (Some tt), w')
    /\ fs_dirs w' = fs_dirs w /\ _client w' = _client w /\ _provider w' = _provider w
    /\ net_in w' = net_in w /\ net_out w' = net_out w
    /\ (forall p, p <> resolve (py "API_KEY.json") -> fs_files w' !! p = fs_files w !! p)
    /\ dom (fs_files w) ⊆ dom (fs_files w').
Proof.
  induction turns as [|turns IH]; intros w Hlen; [lia|].
  simpl select_ai_provider_loop. unfold bind at 1.
  destruct (select_ai_provider_turn w) as [r w1] eqn:Hturn.
  apply select_turn_frame in Hturn
    as (again & -> & Hd & Hc & Hp & Hni & Hno & Hfiles & Hagain & Hle).
  assert ((forall p, p <> resolve (py "API_KEY.json") -> fs_files w1 !! p = fs_files w !! p)
          /\ dom (fs_files w) ⊆ dom (fs_files w1)) as [Hother Hdom].
  { destruct Hfiles as [->|[data ->]]; [done|]. split.
    - intros p Hp'. by apply store_lookup_ne.
    - rewrite store_dom. apply union_subseteq_r. }
  destruct again.
  - destruct (IH w1) as (w2 & Hloop & Hd2 & Hc2 & Hp2 & Hni2 & Hno2 & Hother2 & Hdom2).
    { specialize (Hagain eq_refl). lia. }
    exists w2. split; [done|]. split_and!; try congruence.
    + intros p Hp'. by rewrite Hother2, Hother.
    + by etrans.
  - exists w1. by split_and!.
Qed.

(** X9.  The selection menu always comes to an end and never raises,
    whatever the credentials file holds and whatever is typed, also when
    the input runs out.  It leaves the provider and the client of the
    reformatter as they were (a new default is only written down), sends
    nothing over the network, makes no directory, and leaves every file
    other than [API_KEY.json] as it was. *)
Theorem select_ai_provider_returns (w : world) :
  exists w',
    select_ai_provider w = (Ok (Some tt), w')
    /\ _provider w' = _provider w /\ _client w' = _client w
    /\ net_in w' = net_in w /\ net_out w' = net_out w
    /\ fs_dirs w' = fs_dirs w
    /\ (forall p, p <> resolve (py "API_KEY.json") -> fs_files w' !! p = fs_files w !! p)
    /\ dom (fs_files w) ⊆ dom (fs_files w').
Proof.
  unfold select_ai_provider.
  destruct (select_loop_frame (S (length (stdin w))) w) as (w' & Hrun & H); [lia|].
  exists w'. split; [exact Hrun|]. by destruct H as (? & ? & ? & ? & ? & ? & ?).
Qed.

(** One turn writes the credentials file only after a line that says
    yes. *)
Lemma select_turn_consent (w w' : world) (r : result bool) :
  select_ai_provider_turn w = (r, w') ->
  (exists typed, stdin w = typed ++ stdin w')
  /\ (fs_files w' = fs_files w
      \/ exists line, In line (stdin w) /\ is_yes (lower line) = true).
Proof.
  unfold select_ai_provider_turn, try_except.
  unfold bind at 1.
  pose proof (read_file_world (py "API_KEY.json") w) as Hw.
  destruct (read_file (py "API_KEY.json") w) as [[data|e] w0]; simpl in Hw; subst w0;
    [|unfold_run; intros [= <- <-]; wsimpl; split; [by exists []|by left]].
  rewrite bind_lift. destruct (loads data) as [api_keys|e];
    [|unfold_run; intros [= <- <-]; wsimpl; split; [by exists []|by left]].
  rewrite bind_lift. destruct (getitem api_keys (py "ai-providers")) as [ai_providers|e];
    [|unfold_run; intros [= <- <-]; wsimpl; split; [by exists []|by left]].
  rewrite bind_lift. destruct (dict_keys ai_providers) as [keys|e];
    [|unfold_run; intros [= <- <-]; wsimpl; split; [by exists []|by left]].
  cbv zeta.
  set (providers := List.filter (fun key => negb (pystr_eqb key (py "default"))) keys).
  destruct (for_each_prints (enumerate providers 1)
              (fun '(i, provider) =>
                 let* ai_providers := lift (Ok ai_providers) in
                 let* profile := lift (getitem ai_providers provider) in
                 let* name := lift (getitem profile (py "name")) in
                 print [FNum i; Lit ". "; FJson name])
              (menu_line_prints (Ok ai_providers)))
    as (rmenu & lines & Hmenu).
  unfold iprint at 1. erewrite bind_ok by apply emit_run.
  unfold bind at 1. rewrite Hmenu.
  destruct rmenu as [[]|e];
    [|unfold_run; intros [= <- <-]; wsimpl; split; [by exists []|by left]].
  unfold input. unfold_run. wsimpl.
  destruct (stdin w) as [|choice rest] eqn:Hin;
    [intros [= <- <-]; wsimpl; rewrite Hin; split; [by exists []|by left]|].
  run_cases; intros [= <- <-]; wsimpl; rewrite ?Hin;
    (split;
     [first [by exists [] | by exists [choice] | by eexists [choice; _]]
     |first [by left | right; eexists; split; [right; left; reflexivity|done]]]).
Qed.

(** X10.  The selection menu writes the credentials file only with the
    operator's consent: when none of the lines typed is a yes (an empty
    line, "y" or "yes" in any case), no file is changed at all. *)
Theorem select_ai_provider_needs_consent (w : world) :
  Forall (fun line => is_yes (lower line) = false) (stdin w) ->
  fs_files (snd (select_ai_provider w)) = fs_files w.
Proof.
  unfold select_ai_provider. generalize (S (length (stdin w))) as turns.
  intros turns. revert w. induction turns as [|turns IH]; intros w Hno; [done|].
  simpl select_ai_provider_loop. unfold bind at 1.
  destruct (select_ai_provider_turn w) as [r w1] eqn:Hturn.
  pose proof (select_turn_frame _ _ _ Hturn) as (again & -> & _).
  apply select_turn_consent in Hturn as [[typed Htyped] Hfiles].
  assert (fs_files w1 = fs_files w) as Hsame.
  { destruct Hfiles as [?|(line & Hline & Hyes)]; [done|].
    rewrite Forall_forall in Hno. apply list_elem_of_In, Hno in Hline. congruence. }
  destruct again; [|done].
  rewrite IH, Hsame; [done|].
  rewrite Htyped in Hno. by apply Forall_app in Hno as [_ ?].
Qed.
(* ================================================================== *)
(** * Further properties: where a transcript is saved                   *)
(* ================================================================== *)

Lemma split_on_sep (a b : pystr) :
  split_on slash (a ++ slash :: b) = split_on slash a ++ split_on slash b.
Proof.
  induction a as [|c a IH].
  - reflexivity.
  - simpl. destruct (c =? slash)%N; [by rewrite IH|].
    rewrite IH. destruct (split_on slash a) as [|x xs] eqn:E; [|done].
    exfalso. destruct a as [|c' a]; [done|]. simpl in E.
    by destruct (c' =? slash)%N, (split_on slash a).
Qed.

Lemma fold_path_step_snoc (comps : list pystr) (init : path) (b : pystr) :
  is_empty b = false -> pystr_eqb b (py ".") = false -> pystr_eqb b (py "..") = false ->
  fold_left path_step (comps ++ [b]) init = fold_left path_step comps init ++ [b].
Proof. intros H1 H2 H3. rewrite fold_left_app. simpl. by apply path_step_name. Qed.

(** [os.path.join] with a plain name: one more component. *)
Lemma resolve_join (a b : pystr) :
  a <> [] -> no_slash b = true -> b <> [] ->
  pystr_eqb b (py ".") = false -> pystr_eqb b (py "..") = false ->
  resolve (os_path_join a b) = resolve a ++ [b].
Proof.
  intros Ha Hns Hb Hd1 Hd2.
  assert (is_empty b = false) as He by (by destruct b).
  pose proof (startswith_slash b [] Hns Hb) as Hst. rewrite app_nil_r in Hst.
  unfold os_path_join. rewrite Hst.
  assert (is_empty a = false) as -> by (by destruct a). rewrite orb_false_l.
  assert (forall x, startswith (a ++ x) [slash] = startswith a [slash]) as Hhead
    by (intros x; by destruct a).
  destruct (endswith a [slash]) eqn:Hend.
  - destruct (exists_last Ha) as (a' & c & ->).
    rewrite endswith_last in Hend. apply N.eqb_eq in Hend as ->.
    unfold resolve. rewrite Hhead. rewrite <- app_assoc. simpl app.
    rewrite !split_on_sep. change (split_on slash []) with [@nil N].
    rewrite (split_on_none b Hns), !fold_left_app. simpl.
    rewrite path_step_empty. by apply path_step_name.
  - unfold resolve. rewrite Hhead. simpl app.
    rewrite split_on_sep, (split_on_none b Hns). by apply fold_path_step_snoc.
Qed.

Lemma txt_name_facts (t : pystr) :
  plain_name t = true ->
  no_slash (t ++ py ".txt") = true /\ t ++ py ".txt" <> []
  /\ pystr_eqb (t ++ py ".txt") (py ".") = false
  /\ pystr_eqb (t ++ py ".txt") (py "..") = false.
Proof.
  intros Ht. repeat split.
  - rewrite no_slash_app, plain_no_slash by done. reflexivity.
  - by destruct t.
  - apply pystr_eqb_neq. intros E. apply (f_equal length) in E.
    rewrite length_app in E. simpl in E. lia.
  - apply pystr_eqb_neq. intros E. apply (f_equal length) in E.
    rewrite length_app in E. simpl in E. lia.
Qed.

(** The path [save_transcript] writes to. *)
Lemma transcript_path (channel title : pystr) :
  let channel_name := sanitize_filename channel TRANSCRIPT_FILENAME_LENGTH in
  let sanitized_title := sanitize_filename title TRANSCRIPT_FILENAME_LENGTH in
  resolve (os_path_join (py "transcripts") channel_name)
  = [py "transcripts"; channel_name]
  /\ resolve (os_path_join (os_path_join (py "transcripts") channel_name)
                (sanitized_title ++ py ".txt"))
     = [py "transcripts"; channel_name; sanitized_title ++ py ".txt"].
Proof.
  intros channel_name sanitized_title.
  destruct (sanitize_filename_general channel TRANSCRIPT_FILENAME_LENGTH) as (Hck & _ & Hcne).
  destruct (sanitize_filename_general title TRANSCRIPT_FILENAME_LENGTH) as (Htk & _ & Htne).
  fold channel_name in Hck, Hcne. fold sanitized_title in Htk, Htne.
  pose proof (kept_plain _ Hck) as Hcp. pose proof (kept_plain _ Htk) as Htp.
  destruct (plain_name_facts _ Hcp Hcne) as (_ & Hc1 & Hc2).
  destruct (txt_name_facts _ Htp) as (Hns & Hne & Hd1 & Hd2).
  assert (resolve (os_path_join (py "transcripts") channel_name)
          = [py "transcripts"; channel_name]) as Hdir.
  { rewrite resolve_join; try done. by apply plain_no_slash. }
  split; [done|].
  rewrite resolve_join, Hdir; try done.
  unfold os_path_join. destruct (startswith channel_name [slash]); [done|].
  by destruct (_ || _).
Qed.

(** X11.  [save_transcript], given a title and a channel name that are
    strings, writes one file, [transcripts/<channel>/<title>.txt], the
    two names being those [sanitize_filename] gives; it makes the two
    directories and touches no other file.  The file starts with the
    URL, the channel name and the title as they were given.  Two videos
    of a channel whose titles give the same file name share the file:
    the second save replaces the first. *)
Theorem save_transcript_writes
    (video_url channel title : pystr) (transcript : list json) (w : world) :
  let channel_name := sanitize_filename channel TRANSCRIPT_FILENAME_LENGTH in
  let file_name := sanitize_filename title TRANSCRIPT_FILENAME_LENGTH ++ py ".txt" in
  let target := [py "transcripts"; channel_name; file_name] in
  let text :=
    video_url ++ nl ++ channel ++ nl ++ title ++ nl ++ nl ++ nl
    ++ flat_map (fun line => py_str line ++ nl) transcript in
  exists w',
    save_transcript video_url transcript (JStr channel) (JStr title) w = (Ok tt, w')
    /\ f_data <$> fs_files w' !! target = Some (utf8_ignore text)
    /\ (forall p, p <> target -> fs_files w' !! p = fs_files w !! p)
    /\ fs_dirs w'
       = fs_dirs w ∪ list_to_set [[py "transcripts"]; [py "transcripts"; channel_name]]
    /\ stdout w' = stdout w
    /\ (forall video_url2 title2 transcript2,
          sanitize_filename title2 TRANSCRIPT_FILENAME_LENGTH
            = sanitize_filename title TRANSCRIPT_FILENAME_LENGTH ->
          exists w'',
            save_transcript video_url2 transcript2 (JStr channel) (JStr title2) w'
              = (Ok tt, w'')
            /\ dom (fs_files w'') = dom (fs_files w')
            /\ f_data <$> fs_files w'' !! target
               = Some (utf8_ignore
                         (video_url2 ++ nl ++ channel ++ nl ++ title2 ++ nl ++ nl ++ nl
                          ++ flat_map (fun line => py_str line ++ nl) transcript2))).
Proof.
  intros channel_name file_name target text.
  destruct (transcript_path channel title) as [Hdir Hfile].
  fold channel_name in Hdir, Hfile. fold file_name in Hfile. fold target in Hfile.
  assert (forall u t tr w0,
            sanitize_filename t TRANSCRIPT_FILENAME_LENGTH ++ py ".txt" = file_name ->
            save_transcript u tr (JStr channel) (JStr t) w0
            = (Ok tt,
               set_fs_files
                 (store target
                    (utf8_ignore (u ++ nl ++ channel ++ nl ++ t ++ nl ++ nl ++ nl
                                  ++ flat_map (fun line => py_str line ++ nl) tr))
                    (fs_files w0))
                 (set_fs_dirs (fs_dirs w0 ∪ list_to_set (prefixes [py "transcripts"; channel_name]))
                    w0))) as Hrun.
  { intros u t tr w0 Hname. unfold save_transcript. simpl as_str. rewrite !bind_lift.
    fold channel_name. rewrite Hname. unfold os_makedirs, write_file. unfold_run. wsimpl.
    by rewrite Hdir, Hfile. }
  eexists. split; [by apply Hrun|]. wsimpl. split_and!.
  - apply store_lookup.
  - intros p Hp. by apply store_lookup_ne.
  - reflexivity.
  - done.
  - intros video_url2 title2 transcript2 Hsame.
    eexists. split; [apply Hrun; subst file_name; by rewrite Hsame|]. wsimpl.
    split; [apply store_store|apply store_lookup].
Qed.
(* ================================================================== *)
(** * Further properties: the configuration                             *)
(* ================================================================== *)

Lemma assoc_get_absent (k : pystr) (d : list (pystr * json)) :
  ~ In k (map fst d) -> assoc_get k d = None.
Proof.
  induction d as [|[k' v] d IH]; simpl; [done|]. intros Hno.
  rewrite pystr_eqb_neq by (intros ->; apply Hno; by left).
  apply IH. intros Hin. apply Hno. by right.
Qed.

Lemma assoc_get_present (k : pystr) (d : list (pystr * json)) :
  In k (map fst d) -> is_Some (assoc_get k d).
Proof.
  induction d as [|[k' v] d IH]; simpl; [done|]. intros [->|Hin].
  - by rewrite pystr_eqb_refl.
  - destruct (pystr_eqb k' k); [done|]. by apply IH.
Qed.

Lemma assoc_set_keys (k : pystr) (v : json) (d : list (pystr * json)) (k' : pystr) :
  In k' (map fst d) -> In k' (map fst (assoc_set k v d)).
Proof.
  induction d as [|[k0 v0] d IH]; simpl; [done|].
  destruct (pystr_eqb k0 k); simpl; [done|]. intros [->|Hin]; [by left|right; by apply IH].
Qed.

Lemma dict_update_keys (items config : list (pystr * json)) (k : pystr) :
  In k (map fst config) -> In k (map fst (dict_update config items)).
Proof.
  unfold dict_update. revert config.
  induction items as [|[k0 v0] items IH]; intros config Hin; simpl; [done|].
  apply IH. by apply assoc_set_keys.
Qed.

(** [update] with a dictionary: its entries win, the others stay. *)
Lemma dict_update_get (items config : list (pystr * json)) (k : pystr) :
  NoDup (map fst items) ->
  assoc_get k (dict_update config items)
  = match assoc_get k items with
    | Some v => Some v
    | None => assoc_get k config
    end.
Proof.
  unfold dict_update. revert config.
  induction items as [|[k0 v0] items IH]; intros config Hnd; simpl; [done|].
  simpl in Hnd. apply NoDup_cons in Hnd as [Hfresh Hnd].
  rewrite IH by done.
  destruct (pystr_eqb k0 k) eqn:E.
  - apply pystr_eqb_eq in E as ->.
    rewrite assoc_get_absent by (by rewrite <- list_elem_of_In).
    apply assoc_get_set_eq.
  - destruct (assoc_get k items); [done|].
    apply assoc_get_set_ne. intros ->. by rewrite pystr_eqb_refl in E.
Qed.

Lemma filter_keys_NoDup (keep : pystr * json -> bool) (items : list (pystr * json)) :
  NoDup (map fst items) -> NoDup (map fst (List.filter keep items)).
Proof.
  induction items as [|[k v] items IH]; simpl; [done|].
  intros [Hfresh Hnd]%NoDup_cons. destruct (keep (k, v)); simpl; [|by apply IH].
  apply NoDup_cons. split; [|by apply IH].
  rewrite list_elem_of_In, in_map_iff. intros ([k' v'] & <- & [Hin _]%filter_In).
  apply Hfresh. rewrite list_elem_of_In, in_map_iff. by exists (k', v').
Qed.

Lemma filter_not_none_get (items : list (pystr * json)) (k : pystr) :
  NoDup (map fst items) ->
  assoc_get k (List.filter (fun item => negb (is_none (snd item))) items)
  = match assoc_get k items with
    | Some v => if is_none v then None else Some v
    | None => None
    end.
Proof.
  induction items as [|[k0 v0] items IH]; simpl; [done|].
  intros [Hfresh Hnd]%NoDup_cons.
  destruct (pystr_eqb k0 k) eqn:E.
  - apply pystr_eqb_eq in E as ->.
    destruct (is_none v0) eqn:Hv; simpl.
    + rewrite IH by done.
      by rewrite (assoc_get_absent k items) by (by rewrite <- list_elem_of_In).
    + by rewrite pystr_eqb_refl.
  - destruct (is_none v0); simpl; [by apply IH|]. rewrite E. by apply IH.
Qed.

Lemma stdout_twice (w : world) (out1 out2 : list (level * message)) :
  set_stdout (stdout (set_stdout (stdout w ++ out1) w) ++ out2)
    (set_stdout (stdout w ++ out1) w)
  = set_stdout (stdout w ++ out1 ++ out2) w.
Proof. unfold set_stdout. wsimpl. by rewrite app_assoc. Qed.

Lemma stdout_same (w : world) : w = set_stdout (stdout w ++ []) w.
Proof. rewrite app_nil_r. by destruct w. Qed.

(** The first half of [load_config]: the defaults and [config.json]. *)
Lemma load_config_user (w : world) (k : list (pystr * json) -> M (list (pystr * json))) :
  exists user out,
    (let* config :=
       if os_path_exists CONFIG_FILE w then
         try_except
           (let* data := read_file CONFIG_FILE in
            let* user_config := lift (loads data) in
            let* items := lift (dict_items user_config) in
            ret (dict_update DEFAULT_CONFIG
                   (List.filter (fun item => negb (is_none (snd item))) items)))
           (fun e =>
              do* print [Lit "Error loading '"; FStr CONFIG_FILE; Lit "': "; FExn e;
                         Lit ". Using default settings."] in
              ret DEFAULT_CONFIG)
       else ret DEFAULT_CONFIG in
     k config) w
    = k user (set_stdout (stdout w ++ out) w)
    /\ match fs_files w !! resolve CONFIG_FILE with
       | Some (File data true) =>
           match json_loads data with
           | Some (JObj items) =>
               out = []
               /\ user = dict_update DEFAULT_CONFIG
                           (List.filter (fun item => negb (is_none (snd item))) items)
           | _ => user = DEFAULT_CONFIG
           end
       | _ => user = DEFAULT_CONFIG
       end.
Proof.
  unfold os_path_exists.
  destruct (fs_files w !! resolve CONFIG_FILE) as [[data [|]]|] eqn:Hfile.
  - rewrite bool_decide_eq_true_2 by done. rewrite orb_true_l.
    unfold bind at 1, try_except, read_file. unfold bind at 1. cbv beta.
    rewrite Hfile. cbn [f_readable f_data]. rewrite bind_lift. unfold loads.
    destruct (json_loads data) as [[]|] eqn:Hload;
      try (unfold dict_items; unfold_run; wsimpl; eexists DEFAULT_CONFIG, [_];
           split; reflexivity).
    simpl dict_items. rewrite bind_lift. unfold ret.
    eexists _, []. split; [by rewrite <- stdout_same|done].
  - rewrite bool_decide_eq_true_2 by done. rewrite orb_true_l.
    unfold bind at 1, try_except, read_file. unfold bind at 1. cbv beta.
    rewrite Hfile. cbn [f_readable]. unfold_run. wsimpl.
    eexists DEFAULT_CONFIG, [_]. split; reflexivity.
  - rewrite bool_decide_eq_false_2 by (by intros [? ?]). rewrite orb_false_l.
    destruct (bool_decide _) eqn:Hdir.
    + unfold bind at 1, try_except, read_file. unfold bind at 1. cbv beta.
      rewrite Hfile, Hdir. unfold_run. wsimpl.
      eexists DEFAULT_CONFIG, [_]. split; reflexivity.
    + exists DEFAULT_CONFIG, []. split; [|done].
      unfold bind, ret. by rewrite <- stdout_same.
Qed.

(** The second half: the key of [API_KEY.json]. *)
Lemma load_config_key (config : list (pystr * json)) (w : world) :
  exists out,
    (if os_path_exists API_KEY_FILE w then
       try_except
         (let* data := read_file API_KEY_FILE in
          let* api_key_data := lift (loads data) in
          let* key := lift (dict_get api_key_data (py "API_KEY")) in
          ret (assoc_set (py "API_KEY") key config))
         (fun e =>
            do* print [Lit "Error loading '"; FStr API_KEY_FILE; Lit "': "; FExn e;
                       Lit ". API key not loaded."] in
            ret config)
     else
       do* print [Lit "API key file '"; FStr API_KEY_FILE;
                  Lit "' not found. Ensure the API key file exists."] in
       ret config) w
    = (Ok (match fs_files w !! resolve API_KEY_FILE with
           | Some (File data true) =>
               match json_loads data with
               | Some (JObj d) =>
                   assoc_set (py "API_KEY") (default JNull (assoc_get (py "API_KEY") d))
                     config
               | _ => config
               end
           | _ => config
           end),
       set_stdout (stdout w ++ out) w)
    /\ (out = [] <-> exists data d,
                       fs_files w !! resolve API_KEY_FILE = Some (File data true)
                       /\ json_loads data = Some (JObj d)).
Proof.
  unfold os_path_exists.
  destruct (fs_files w !! resolve API_KEY_FILE) as [[data [|]]|] eqn:Hfile.
  - rewrite bool_decide_eq_true_2 by done. rewrite orb_true_l.
    unfold try_except, read_file. unfold bind at 1. cbv beta. rewrite Hfile. cbn [f_readable f_data].
    rewrite bind_lift. unfold loads.
    destruct (json_loads data) as [[]|] eqn:Hload;
      try (unfold dict_get; unfold_run; wsimpl; eexists [_]; split; [reflexivity|];
           split; [done|intros (? & ? & [= <-] & ?); congruence]).
    simpl dict_get. rewrite bind_lift. unfold ret.
    exists []. split; [by rewrite <- stdout_same|]. split; [|done].
    intros _. by exists data, items.
  - rewrite bool_decide_eq_true_2 by done. rewrite orb_true_l.
    unfold try_except, read_file. unfold bind at 1. cbv beta. rewrite Hfile. cbn [f_readable].
    unfold_run. wsimpl. eexists [_]. split; [reflexivity|].
    split; [done|by intros (? & ? & [=] & ?)].
  - rewrite bool_decide_eq_false_2 by (by intros [? ?]). rewrite orb_false_l.
    destruct (bool_decide _) eqn:Hdir.
    + unfold try_except, read_file. unfold bind at 1. cbv beta. rewrite Hfile, Hdir.
      unfold_run. wsimpl. eexists [_]. split; [reflexivity|].
      split; [done|by intros (? & ? & [=] & ?)].
    + unfold_run. wsimpl. eexists [_]. split; [reflexivity|].
      split; [done|by intros (? & ? & [=] & ?)].
Qed.

(** X12.  [load_config] never raises and changes nothing but the
    console: whatever the two files hold, or if they are missing, it
    returns a configuration, and every key of DEFAULT_CONFIG has a value
    in it.  When [config.json] is missing, unreadable or not a JSON
    object, those values are the defaults. *)
Theorem load_config_never_raises (w : world) :
  exists config out,
    load_config w = (Ok config, set_stdout (stdout w ++ out) w)
    /\ (forall k, In k (map fst DEFAULT_CONFIG) -> is_Some (assoc_get k config))
    /\ ((forall data items,
           fs_files w !! resolve CONFIG_FILE = Some (File data true) ->
           json_loads data <> Some (JObj items)) ->
        forall k, k <> py "API_KEY" -> assoc_get k config = assoc_get k DEFAULT_CONFIG).
Proof.
  unfold load_config. cbv zeta. unfold bind at 1. cbv beta iota.
  destruct (load_config_user w
              (fun config =>
                 let* found := (fun w => (Ok (os_path_exists API_KEY_FILE w), w)) in
                 if found then
                   try_except
                     (let* data := read_file API_KEY_FILE in
                      let* api_key_data := lift (loads data) in
                      let* key := lift (dict_get api_key_data (py "API_KEY")) in
                      ret (assoc_set (py "API_KEY") key config))
                     (fun e =>
                        do* print [Lit "Error loading '"; FStr API_KEY_FILE; Lit "': ";
                                   FExn e; Lit ". API key not loaded."] in
                        ret config)
                 else
                   do* print [Lit "API key file '"; FStr API_KEY_FILE;
                              Lit "' not found. Ensure the API key file exists."] in
                   ret config))
    as (user & out1 & -> & Huser).
  unfold bind at 1. cbv beta iota.
  destruct (load_config_key user (set_stdout (stdout w ++ out1) w)) as (out2 & -> & _).
  rewrite stdout_twice. eexists _, _. split; [reflexivity|].
  assert (forall k, In k (map fst DEFAULT_CONFIG) -> In k (map fst user)) as Hkeys.
  { intros k Hk.
    destruct (fs_files w !! resolve CONFIG_FILE) as [[data [|]]|]; try by subst.
    destruct (json_loads data) as [[]|]; try by subst.
    destruct Huser as [_ ->]. by apply dict_update_keys. }
  split.
  - intros k Hk. apply assoc_get_present. specialize (Hkeys k Hk).
    repeat match goal with
           | |- context [match ?x with _ => _ end] => destruct x
           end; try done; by apply assoc_set_keys.
  - intros Hbad k Hk.
    assert (user = DEFAULT_CONFIG) as ->.
    { destruct (fs_files w !! resolve CONFIG_FILE) as [[data [|]]|]; try done.
      destruct (json_loads data) as [[]|] eqn:Hload; try done.
      by destruct (Hbad data items eq_refl). }
    repeat match goal with
           | |- context [match ?x with _ => _ end] => destruct x
           end; try done; by apply assoc_get_set_ne.
Qed.

(** X13.  With both files in place and holding JSON objects,
    [load_config] prints nothing.  An entry of [config.json] that is not
    null replaces the default of its key, a null entry and a missing one
    leave the default; the replacement is of the whole value, so a
    [REGEX_PATTERNS] object in the file takes the place of all the
    default patterns.  The API key is the one of [API_KEY.json], [None]
    if that file has none, whatever [config.json] says. *)
Theorem load_config_overrides
    (w : world) (data key_data : pystr) (items keys : list (pystr * json)) :
  fs_files w !! resolve CONFIG_FILE = Some (File data true) ->
  json_loads data = Some (JObj items) ->
  NoDup (map fst items) ->
  fs_files w !! resolve API_KEY_FILE = Some (File key_data true) ->
  json_loads key_data = Some (JObj keys) ->
  exists config,
    load_config w = (Ok config, w)
    /\ assoc_get (py "API_KEY") config = Some (default JNull (assoc_get (py "API_KEY") keys))
    /\ forall k, k <> py "API_KEY" ->
         assoc_get k config
         = match assoc_get k items with
           | Some v => if is_none v then assoc_get k DEFAULT_CONFIG else Some v
           | None => assoc_get k DEFAULT_CONFIG
           end.
Proof.
  intros Hfile Hload Hnd Hkfile Hkload.
  unfold load_config. cbv zeta. unfold bind at 1. cbv beta iota.
  destruct (load_config_user w
              (fun config =>
                 let* found := (fun w => (Ok (os_path_exists API_KEY_FILE w), w)) in
                 if found then
                   try_except
                     (let* data := read_file API_KEY_FILE in
                      let* api_key_data := lift (loads data) in
                      let* key := lift (dict_get api_key_data (py "API_KEY")) in
                      ret (assoc_set (py "API_KEY") key config))
                     (fun e =>
                        do* print [Lit "Error loading '"; FStr API_KEY_FILE; Lit "': ";
                                   FExn e; Lit ". API key not loaded."] in
                        ret config)
                 else
                   do* print [Lit "API key file '"; FStr API_KEY_FILE;
                              Lit "' not found. Ensure the API key file exists."] in
                   ret config))
    as (user & out1 & -> & Huser).
  rewrite Hfile, Hload in Huser. destruct Huser as [-> ->].
  unfold bind at 1. cbv beta iota.
  destruct (load_config_key
              (dict_update DEFAULT_CONFIG
                 (List.filter (fun item => negb (is_none (snd item))) items))
              (set_stdout (stdout w ++ []) w)) as (out2 & -> & Hout).
  wsimpl_in Hout.
  assert (out2 = []) as -> by (apply Hout; by exists key_data, keys).
  rewrite stdout_twice. change ([] ++ []) with (@nil (level * message)).
  rewrite <- stdout_same. wsimpl. rewrite Hkfile, Hkload.
  eexists. split; [reflexivity|]. split; [apply assoc_get_set_eq|].
  intros k Hk. rewrite assoc_get_set_ne by done.
  rewrite dict_update_get by (by apply filter_keys_NoDup).
  rewrite filter_not_none_get by done.
  destruct (assoc_get k items) as [v|]; [|done]. by destruct (is_none v).
Qed.
(* ================================================================== *)
(** * Further properties: video identifiers                             *)
(* ================================================================== *)

Lemma startswith_app (p s : pystr) : startswith (p ++ s) p = true.
Proof.
  unfold startswith. rewrite firstn_app, firstn_all, Nat.sub_diag. simpl.
  rewrite app_nil_r. apply pystr_eqb_refl.
Qed.

Lemma startswith_split (s p : pystr) :
  startswith s p = true -> s = p ++ skipn (length p) s.
Proof.
  unfold startswith. intros H%pystr_eqb_eq.
  rewrite <- H at 1. symmetry. apply firstn_skipn.
Qed.

Lemma video_id_here_sound (s id : pystr) :
  video_id_here s = Some id ->
  length id = 11 /\ forallb is_id_char id = true
  /\ exists marker post,
       (marker = py "v=" \/ marker = py "/") /\ s = marker ++ id ++ post.
Proof.
  unfold video_id_here.
  assert (forall marker r,
            s = marker ++ r -> (marker = py "v=" \/ marker = py "/") ->
            (if (length (firstn 11 r) =? 11) && forallb is_id_char (firstn 11 r)
             then Some (firstn 11 r) else None) = Some id ->
            length id = 11 /\ forallb is_id_char id = true
            /\ exists marker post,
                 (marker = py "v=" \/ marker = py "/") /\ s = marker ++ id ++ post)
    as Hcase.
  { intros marker r Hs Hm.
    destruct (_ && _) eqn:E; [|done]. intros [= <-].
    apply andb_true_iff in E as [Hlen%Nat.eqb_eq Hall]. split; [done|]. split; [done|].
    exists marker, (skipn 11 r). split; [done|]. by rewrite firstn_skipn. }
  destruct (startswith s (py "v=")) eqn:Hv.
  - apply (Hcase (py "v=")); [by apply startswith_split in Hv|by left].
  - destruct (startswith s (py "/")) eqn:Hs; [|done].
    apply (Hcase (py "/")); [by apply startswith_split in Hs|by right].
Qed.

Lemma video_id_here_found (marker id post : pystr) :
  marker = py "v=" \/ marker = py "/" ->
  length id = 11 -> forallb is_id_char id = true ->
  video_id_here (marker ++ id ++ post) = Some id.
Proof.
  intros Hm Hlen Hall. unfold video_id_here.
  assert (firstn 11 (id ++ post) = id) as Hid
    by (rewrite firstn_app, firstn_all2, Hlen by lia; simpl; apply app_nil_r).
  destruct Hm as [-> | ->].
  - rewrite startswith_app. change (skipn 2 (py "v=" ++ id ++ post)) with (id ++ post).
    cbv zeta. by rewrite Hid, Hlen, Hall.
  - replace (startswith (py "/" ++ id ++ post) (py "v=")) with false by done.
    rewrite startswith_app. change (skipn 1 (py "/" ++ id ++ post)) with (id ++ post).
    cbv zeta. by rewrite Hid, Hlen, Hall.
Qed.

Lemma search_video_id_skip (c : N) (s : pystr) :
  video_id_here (c :: s) = None -> search_video_id (c :: s) = search_video_id s.
Proof. intros H. simpl. by rewrite H. Qed.

Lemma video_id_here_other (c : N) (s : pystr) :
  (c =? 118)%N = false -> (c =? 47)%N = false -> video_id_here (c :: s) = None.
Proof.
  intros Hv Hs. unfold video_id_here, startswith.
  change (py "v=") with [118%N; 61%N]. change (py "/") with [47%N].
  destruct s; simpl; rewrite ?Hv, ?Hs; done.
Qed.

Lemma video_id_here_bad (marker r : pystr) :
  marker = py "v=" \/ marker = py "/" ->
  forallb is_id_char (firstn 11 r) = false ->
  video_id_here (marker ++ r) = None.
Proof.
  intros Hm Hbad. unfold video_id_here. destruct Hm as [-> | ->].
  - rewrite startswith_app. change (skipn 2 (py "v=" ++ r)) with r.
    cbv zeta. by rewrite Hbad, andb_false_r.
  - replace (startswith (py "/" ++ r) (py "v=")) with false by done.
    rewrite startswith_app. change (skipn 1 (py "/" ++ r)) with r.
    cbv zeta. by rewrite Hbad, andb_false_r.
Qed.

Lemma video_id_here_slash_bad (r : pystr) :
  forallb is_id_char (firstn 11 r) = false -> video_id_here (47%N :: r) = None.
Proof. intros H. apply (video_id_here_bad (py "/") r); [by right|done]. Qed.

Lemma search_video_id_here (s id : pystr) :
  video_id_here s = Some id -> search_video_id s = Some id.
Proof. intros H. destruct s; [by vm_compute in H|]. simpl. by rewrite H. Qed.

Ltac skip_to_marker :=
  repeat first
    [ rewrite search_video_id_skip by (apply video_id_here_other; reflexivity)
    | rewrite search_video_id_skip by (apply video_id_here_slash_bad; reflexivity) ].

Lemma search_video_id_sound (s : pystr) : forall id,
  search_video_id s = Some id ->
  length id = 11 /\ forallb is_id_char id = true
  /\ exists pre marker post,
       (marker = py "v=" \/ marker = py "/") /\ s = pre ++ marker ++ id ++ post.
Proof.
  induction s as [|c s IH]; intros id.
  - intros H. by vm_compute in H.
  - simpl. destruct (video_id_here (c :: s)) as [found|] eqn:Hhere.
    + intros [= <-].
      destruct (video_id_here_sound _ _ Hhere) as (Hlen & Hall & marker & post & Hm & Hs).
      split; [done|]. split; [done|]. by exists [], marker, post.
    + intros Hrest. destruct (IH id Hrest) as (Hlen & Hall & pre & marker & post & Hm & ->).
      split; [done|]. split; [done|]. by exists (c :: pre), marker, post.
Qed.

Lemma search_video_id_watch (id rest : pystr) :
  length id = 11 -> forallb is_id_char id = true ->
  search_video_id (py "https://www.youtube.com/watch?v=" ++ id ++ rest) = Some id.
Proof.
  intros Hlen Hall.
  let l := eval vm_compute in (py "https://www.youtube.com/watch?v=") in
  change (py "https://www.youtube.com/watch?v=") with l.
  cbn [app]. skip_to_marker.
  apply search_video_id_here.
  exact (video_id_here_found (py "v=") id rest (or_introl eq_refl) Hlen Hall).
Qed.

Lemma search_video_id_short (id rest : pystr) :
  length id = 11 -> forallb is_id_char id = true ->
  search_video_id (py "https://youtu.be/" ++ id ++ rest) = Some id.
Proof.
  intros Hlen Hall.
  let l := eval vm_compute in (py "https://youtu.be/") in
  change (py "https://youtu.be/") with l.
  cbn [app]. skip_to_marker.
  apply search_video_id_here.
  exact (video_id_here_found (py "/") id rest (or_intror eq_refl) Hlen Hall).
Qed.

(** X14.  The video identifier of a URL.  Whatever [search_video_id]
    finds is eleven characters of the identifier alphabet that follow a
    "v=" or a "/" in the URL.  A watch URL and a short URL built from
    such an identifier give the identifier back, whatever follows it. *)
Theorem search_video_id_round_trip :
  (forall s id,
     search_video_id s = Some id ->
     length id = 11 /\ forallb is_id_char id = true
     /\ exists pre marker post,
          (marker = py "v=" \/ marker = py "/") /\ s = pre ++ marker ++ id ++ post)
  /\ (forall id rest,
        length id = 11 -> forallb is_id_char id = true ->
        search_video_id (py "https://www.youtube.com/watch?v=" ++ id ++ rest) = Some id
        /\ search_video_id (py "https://youtu.be/" ++ id ++ rest) = Some id).
Proof.
  split; [apply search_video_id_sound|].
  intros id rest Hlen Hall.
  split; [by apply search_video_id_watch|by apply search_video_id_short].
Qed.
(* ================================================================== *)
(** * Further properties: fetching a video                              *)
(* ================================================================== *)

Lemma fetch_video_metadata_total (video_id : pystr) (w : world) :
  exists metadata out,
    fetch_video_metadata video_id w = (Ok metadata, set_stdout (stdout w ++ out) w)
    /\ ((metadata = metadata_defaults /\ exists line, out = [(LogError, line)])
        \/ (out = [] /\ exists iso, snd metadata = JStr (format_duration iso))).
Proof.
  unfold fetch_video_metadata, log_line. unfold_run.
  destruct youtube_build as [[]|e];
    [|eexists _, [_]; split; [reflexivity|left; split; [done|by eexists]]].
  destruct (videos_list video_id) as [response|e];
    [|eexists _, [_]; split; [reflexivity|left; split; [done|by eexists]]].
  destruct (truthy_items response) as [[|]|e];
    [|eexists _, [_]; split; [reflexivity|left; split; [done|by eexists]]
     |eexists _, [_]; split; [reflexivity|left; split; [done|by eexists]]].
  repeat match goal with
         | |- context [match ?x with Ok _ => _ | Raise _ => _ end] =>
             destruct x;
             [|eexists _, [_]; split; [reflexivity|left; split; [done|by eexists]]]
         end.
  eexists _, []. split; [by rewrite <- stdout_same|]. right. split; [done|by eexists].
Qed.

(** X15.  [fetch_video_metadata] never raises and changes nothing but
    the log: when the client cannot be built, the request fails, or the
    answer lacks anything the function reads, it returns the five
    defaults ("Unknown Title", "Unknown Channel", "", "0", "00:00") and
    logs one line; otherwise it logs nothing and the duration it
    returns is a string made by [format_duration].  For an answer with
    one item that has all the fields, the result is the title, the
    channel title, the first ten characters of the publication time,
    the view count ("0" if there is none) and the formatted duration. *)
Theorem fetch_video_metadata_never_raises (video_id : pystr) (w : world) :
  (exists metadata out,
     fetch_video_metadata video_id w = (Ok metadata, set_stdout (stdout w ++ out) w)
     /\ ((metadata = metadata_defaults /\ exists line, out = [(LogError, line)])
         \/ (out = [] /\ exists iso, snd metadata = JStr (format_duration iso))))
  /\ (forall response item others snippet details statistics title channel published iso,
        youtube_build = Ok tt ->
        videos_list video_id = Ok response ->
        getitem response (py "items") = Ok (JArr (item :: others)) ->
        getitem item (py "snippet") = Ok snippet ->
        getitem item (py "contentDetails") = Ok details ->
        getitem item (py "statistics") = Ok (JObj statistics) ->
        getitem snippet (py "title") = Ok title ->
        getitem snippet (py "channelTitle") = Ok channel ->
        getitem snippet (py "publishedAt") = Ok (JStr published) ->
        getitem details (py "duration") = Ok (JStr iso) ->
        fetch_video_metadata video_id w
        = (Ok (title, channel, JStr (firstn 10 published),
               default (JStr (py "0")) (assoc_get (py "viewCount") statistics),
               JStr (format_duration iso)), w)).
Proof.
  split; [apply fetch_video_metadata_total|].
  - intros response item others snippet details statistics title channel published iso
      Hbuild Hlist Hitems Hsnippet Hdetails Hstats Htitle Hchannel Hpub Hiso.
    assert (truthy_items response = Ok true) as Hpresent.
    { unfold truthy_items. destruct response; try done.
      simpl py_in. simpl in Hitems. destruct (assoc_get (py "items") items) eqn:E; [|done].
      simpl. unfold getitem. rewrite E. by injection Hitems as ->. }
    unfold fetch_video_metadata, try_except.
    rewrite Hbuild, bind_lift, Hlist, bind_lift, Hpresent, bind_lift.
    rewrite Hitems, bind_lift. simpl getitem0. rewrite bind_lift.
    rewrite Hsnippet, bind_lift, Hdetails, bind_lift, Hstats, bind_lift.
    rewrite Htitle, bind_lift, Hchannel, bind_lift, Hpub, bind_lift.
    simpl slice10. rewrite bind_lift. simpl dict_get_default. rewrite bind_lift.
    rewrite Hiso, bind_lift. simpl as_str. rewrite bind_lift. reflexivity.
Qed.

(** What [save_transcript] does to the world, whatever it is given. *)
Lemma save_transcript_run (video_url : pystr) (transcript : list json)
    (channel_name video_title : json) (w : world) :
  (exists channel title,
     channel_name = JStr channel /\ video_title = JStr title
     /\ save_transcript video_url transcript channel_name video_title w
        = (Ok tt,
           set_fs_files
             (store [py "transcripts"; sanitize_filename channel TRANSCRIPT_FILENAME_LENGTH;
                     sanitize_filename title TRANSCRIPT_FILENAME_LENGTH ++ py ".txt"]
                (utf8_ignore
                   (video_url ++ nl ++ channel ++ nl ++ title ++ nl ++ nl ++ nl
                    ++ flat_map (fun line => py_str line ++ nl) transcript))
                (fs_files w))
             (set_fs_dirs
                (fs_dirs w
                 ∪ list_to_set
                     [[py "transcripts"];
                      [py "transcripts";
                       sanitize_filename channel TRANSCRIPT_FILENAME_LENGTH]])
                w)))
  \/ (save_transcript video_url transcript channel_name video_title w = (Raise TypeError, w)
      /\ forall channel title, ~ (channel_name = JStr channel /\ video_title = JStr title)).
Proof.
  unfold save_transcript.
  destruct video_title as [| | | |title| |];
    try (right; split; [reflexivity|by intros ? ? [_ [=]]]).
  destruct channel_name as [| | | |channel| |];
    try (right; split; [reflexivity|by intros ? ? [[=] _]]).
  left. exists channel, title. split; [done|]. split; [done|].
  simpl as_str. rewrite !bind_lift.
  destruct (transcript_path channel title) as [Hdir Hfile].
  unfold os_makedirs, write_file. unfold_run. wsimpl. by rewrite Hdir, Hfile.
Qed.


(** A video whose transcript and metadata are there. *)
Lemma fetch_single_video_run
    (video_url video_id title channel : pystr) (lines : list json)
    (date views duration : json) (out : list (level * message)) (w : world) :
  search_video_id video_url = Some video_id ->
  get_transcript video_id = TranscriptLines lines ->
  fetch_video_metadata video_id w
  = (Ok (JStr title, JStr channel, date, views, duration), set_stdout (stdout w ++ out) w) ->
  let target :=
    [py "transcripts"; sanitize_filename channel TRANSCRIPT_FILENAME_LENGTH;
     sanitize_filename title TRANSCRIPT_FILENAME_LENGTH ++ py ".txt"] in
  let text :=
    utf8_ignore (video_url ++ nl ++ channel ++ nl ++ title ++ nl ++ nl ++ nl
                 ++ flat_map (fun line => py_str line ++ nl) lines) in
  exists w',
    fetch_single_video (Some video_url) w = (Ok tt, w')
    /\ fs_files w' = store target text (fs_files w)
    /\ stdout w'
       = stdout w ++ out
         ++ [(Plain, [Lit "Transcript for "; FJson (JStr title); Lit " saved successfully."])].
Proof.
  intros Hid Hlines Hmeta target text.
  unfold fetch_single_video. unfold bind at 1, ret at 1. rewrite Hid, Hlines.
  unfold try_except. unfold bind at 1. rewrite Hmeta. unfold bind at 1.
  destruct (save_transcript_run video_url lines (JStr channel) (JStr title)
              (set_stdout (stdout w ++ out) w))
    as [(channel' & title' & [= <-] & [= <-] & ->)|[_ Hno]];
    [|by destruct (Hno channel title)].
  unfold_run. wsimpl. eexists. split; [reflexivity|]. wsimpl.
  split; [done|]. by rewrite <- app_assoc.
Qed.


(** X18.  When the metadata cannot be fetched (the client cannot be
    built, or the request for the video fails), a transcript that is
    there is saved all the same, under the default names: to
    [transcripts/Unknown Channel/Unknown Title.txt].  Every such video
    goes to that one file, each save replacing the one before. *)
Theorem fetch_single_video_unknown
    (video_url video_id : pystr) (lines : list json) (w : world) :
  search_video_id video_url = Some video_id ->
  get_transcript video_id = TranscriptLines lines ->
  (exists e, youtube_build = Raise e) \/ (exists e, videos_list video_id = Raise e) ->
  exists w',
    fetch_single_video (Some video_url) w = (Ok tt, w')
    /\ fs_files w'
       = store [py "transcripts"; py "Unknown Channel"; py "Unknown Title.txt"]
           (utf8_ignore
              (video_url ++ nl ++ py "Unknown Channel" ++ nl ++ py "Unknown Title"
               ++ nl ++ nl ++ nl ++ flat_map (fun line => py_str line ++ nl) lines))
           (fs_files w).
Proof.
  intros Hid Hlines Hfail.
  assert (exists out,
            fetch_video_metadata video_id w
            = (Ok metadata_defaults, set_stdout (stdout w ++ out) w)) as [out Hmeta].
  { unfold fetch_video_metadata, log_line. unfold_run.
    destruct Hfail as [[e ->]|[e He]]; [by eexists [_]|].
    destruct youtube_build as [[]|e0]; [|by eexists [_]].
    rewrite He. by eexists [_]. }
  destruct (fetch_single_video_run video_url video_id (py "Unknown Title")
              (py "Unknown Channel") lines _ _ _ out w Hid Hlines Hmeta)
    as (w' & Hfetch & Hfiles & _).
  exists w'. split; [done|]. exact Hfiles.
Qed.
(* ================================================================== *)
(** * Further properties: channels                                      *)
(* ================================================================== *)

Lemma split_str_from_nonempty (sep : pystr) (s : pystr) : forall inside piece,
  split_str_from sep inside piece s <> [].
Proof.
  induction s as [|c s IH]; intros inside piece; simpl; [done|].
  destruct inside; [|apply IH]. destruct (startswith (c :: s) sep); [done|apply IH].
Qed.

(** Passing over the rest of an occurrence of the separator. *)
Lemma split_str_from_inside (sep a t piece : pystr) :
  split_str_from sep (length a) piece (a ++ t) = split_str_from sep 0 piece t.
Proof. induction a as [|c a IH]; simpl; [done|apply IH]. Qed.

Lemma last_cons_nonempty {A} (x : A) (l : list A) (d : A) :
  l <> [] -> List.last (x :: l) d = List.last l d.
Proof. by destruct l. Qed.

Lemma contains_cons (sep : pystr) (c : N) (s : pystr) :
  contains sep (c :: s) = startswith (c :: s) sep || contains sep s.
Proof. reflexivity. Qed.

Lemma contains_nil (sep : pystr) : sep <> [] -> contains sep [] = false.
Proof. by destruct sep. Qed.

(** What the last piece of a split is. *)
Lemma split_str_last (sep : pystr) (n : nat) : forall s piece,
  sep <> [] -> length s <= n ->
  if contains sep s then
    exists pre r,
      List.last (split_str_from sep 0 piece s) [] = r
      /\ s = pre ++ sep ++ r /\ contains sep r = false
  else List.last (split_str_from sep 0 piece s) [] = rev piece ++ s.
Proof.
  induction n as [|n IH]; intros s piece Hsep Hlen.
  - destruct s; [|simpl in Hlen; lia]. rewrite contains_nil by done. simpl.
    by rewrite app_nil_r.
  - destruct s as [|c s].
    { rewrite contains_nil by done. simpl. by rewrite app_nil_r. }
    rewrite contains_cons. simpl split_str_from.
    destruct (startswith (c :: s) sep) eqn:Hstart.
    + rewrite orb_true_l.
      apply startswith_split in Hstart.
      destruct sep as [|c0 sep']; [done|].
      simpl in Hstart. injection Hstart as <- Hs.
      set (t := skipn (length sep') s) in *. clearbody t. subst s.
      simpl length. replace (S (length sep') - 1) with (length sep') by lia.
      rewrite split_str_from_inside.
      rewrite last_cons_nonempty by apply split_str_from_nonempty.
      assert (length t <= n) as Ht.
      { simpl in Hlen. rewrite length_app in Hlen. lia. }
      specialize (IH t [] ltac:(done) Ht).
      destruct (contains (c :: sep') t) eqn:Ht'.
      * destruct IH as (pre & r & Hlast & Htr & Hno).
        exists ((c :: sep') ++ pre), r. split; [done|]. split; [|done].
        rewrite Htr at 1. simpl. by rewrite <- !app_assoc.
      * exists [], t. by split.
    + rewrite orb_false_l.
      assert (length s <= n) as Hs by (simpl in Hlen; lia).
      specialize (IH s (c :: piece) Hsep Hs).
      destruct (contains sep s).
      * destruct IH as (pre & r & Hlast & Hsr & Hno).
        exists (c :: pre), r. split; [done|]. split; [|done]. simpl. by rewrite Hsr at 1.
      * rewrite IH. simpl. by rewrite <- app_assoc.
Qed.

(** X19.  [get_channel_id_from_url] never raises and changes nothing but
    the console and the log.  For a URL with "channel/" in it and no
    "/@", once the client is built, it returns what follows the last
    "channel/" of the URL, whatever that is (a trailing "/videos"
    included), with no request to the network and nothing printed.  For
    a URL with neither it returns [None], after one line in the log and
    one on the console. *)
Theorem get_channel_id_from_url_direct (url : pystr) (w : world) :
  (exists found out,
     get_channel_id_from_url url w = (Ok found, set_stdout (stdout w ++ out) w))
  /\ (youtube_build = Ok tt ->
      contains (py "/@") url = false ->
      if contains (py "channel/") url then
        exists pre channel_id,
          get_channel_id_from_url url w = (Ok (Some (JStr channel_id)), w)
          /\ url = pre ++ py "channel/" ++ channel_id
          /\ contains (py "channel/") channel_id = false
      else
        get_channel_id_from_url url w
        = (Ok None,
           set_stdout
             (stdout w
              ++ [(LogError, [Lit "Error fetching channel ID for URL "; FStr url; Lit ": ";
                              Lit "Invalid YouTube channel URL or handle."]);
                  (Plain, [Lit "An error occurred: ";
                           Lit "Invalid YouTube channel URL or handle."])]) w)).
Proof.
  split.
  - unfold get_channel_id_from_url, log_line. unfold_run. wsimpl.
    repeat match goal with
           | |- context [match ?x with _ => _ end] => destruct x
           end;
      first [ eexists _, []; by rewrite <- stdout_same
            | eexists _, [_; _]; unfold set_stdout; wsimpl; by rewrite <- app_assoc ].
  - intros Hbuild Hno. unfold get_channel_id_from_url. rewrite Hbuild, Hno.
    pose proof (split_str_last (py "channel/") (length url) url [] ltac:(done) ltac:(lia))
      as Hlast.
    destruct (contains (py "channel/") url).
    + destruct Hlast as (pre & r & Hr & Hurl & Hclean).
      exists pre, r. unfold after_last, split_str. by rewrite Hr.
    + unfold log_line. unfold_run. wsimpl. unfold set_stdout. wsimpl.
      by rewrite <- app_assoc.
Qed.
(* ================================================================== *)
(** * Further properties: lists of videos                               *)
(* ================================================================== *)

Lemma fetch_single_video_frame (video_url : pystr) (w : world) :
  exists w',
    fetch_single_video (Some video_url) w = (Ok tt, w')
    /\ stdin w' = stdin w /\ dom (fs_files w) ⊆ dom (fs_files w').
Proof.
  unfold fetch_single_video. unfold bind at 1, ret at 1.
  destruct (search_video_id video_url) as [video_id|];
    [|unfold_run; eexists; split; [reflexivity|by wsimpl]].
  destruct (get_transcript video_id) as [lines| | |e];
    try (unfold_run; eexists; split; [reflexivity|by wsimpl]).
  unfold try_except. unfold bind at 1.
  destruct (fetch_video_metadata_total video_id w) as (metadata & out & -> & _).
  destruct metadata as [[[[video_title channel_name] ?] ?] ?].
  unfold bind at 1.
  destruct (save_transcript_run video_url lines channel_name video_title
              (set_stdout (stdout w ++ out) w))
    as [(channel & title & -> & -> & ->)|[-> _]].
  - unfold_run. wsimpl. eexists. split; [reflexivity|]. wsimpl.
    split; [done|]. rewrite store_dom. apply union_subseteq_r.
  - unfold_run. wsimpl. eexists. split; [reflexivity|]. by wsimpl.
Qed.

(** A batch of fetches runs to its end. *)
Lemma fetch_all_run (urls : list pystr) : forall w,
  exists w',
    for_each urls (fun url => fetch_single_video (Some url)) w = (Ok tt, w')
    /\ stdin w' = stdin w /\ dom (fs_files w) ⊆ dom (fs_files w').
Proof.
  induction urls as [|url urls IH]; intros w.
  - exists w. by split.
  - destruct (fetch_single_video_frame url w) as (w1 & Hrun & Hin & Hdom).
    destruct (IH w1) as (w2 & Hrest & Hin2 & Hdom2).
    exists w2. simpl for_each. rewrite (bind_ok _ _ _ _ _ Hrun).
    split; [done|]. split; [congruence|by etrans].
Qed.

(** The function up to the point where the file has been read. *)
Lemma process_file_with_video_urls_read
    (w : world) (typed file_path data : pystr) (rest : list pystr) :
  stdin w = typed :: rest ->
  strip typed = file_path ->
  startswith file_path [34%N] && endswith file_path [34%N] = false ->
  file_path <> [] ->
  fs_files w !! resolve file_path = Some (File data true) ->
  let asked :=
    set_stdin rest
      (set_stdout (stdout w ++ [(Prompt, [Lit "Enter the path to the file (Text/CSV): "])])
         w) in
  let failed := fun what : fragment =>
    print [Lit "An error occurred while processing the file: "; what] in
  process_file_with_video_urls w
  = try_except
      (match (if endswith file_path (py ".csv") then
                match csv_reader data with
                | [] => None
                | Raise e :: _ => Some (Raise e)
                | Ok header :: rows => Some (csv_urls rows [])
                end
              else Some (Ok (map url_of_line (readlines data)))) with
       | None => failed (FStr [])
       | Some (Raise e) => raise e
       | Some (Ok urls) => for_each urls (fun url => fetch_single_video (Some url))
       end)
      (fun e => failed (FExn e)) asked.
Proof.
  intros Hin Hstrip Hquote Hne Hfile asked failed.
  unfold process_file_with_video_urls.
  erewrite bind_ok by (apply input_run; exact Hin). fold asked.
  cbv zeta. rewrite Hstrip, Hquote. unfold bind at 1. cbv beta iota.
  assert (typed_path_exists file_path asked = true) as ->.
  { unfold typed_path_exists, os_path_exists. subst asked. wsimpl. rewrite Hfile.
    rewrite bool_decide_eq_true_2 by done. by destruct file_path. }
  change (negb true) with false. cbv iota.
  unfold try_except. unfold bind at 1.
  rewrite (read_file_ok file_path asked data) by (subst asked; by wsimpl).
  reflexivity.
Qed.

(** X20.  A text file of videos (any file whose name does not end in
    ".csv").  Every line of the file is fetched, in the order of the
    file and blank lines included, as the URL [url_of_line] makes of
    it; the function returns, having read the one line at its prompt,
    and removes no file. *)
Theorem process_file_with_video_urls_text
    (w : world) (typed file_path data : pystr) (rest : list pystr) :
  stdin w = typed :: rest ->
  strip typed = file_path ->
  startswith file_path [34%N] && endswith file_path [34%N] = false ->
  file_path <> [] ->
  endswith file_path (py ".csv") = false ->
  fs_files w !! resolve file_path = Some (File data true) ->
  let asked :=
    set_stdin rest
      (set_stdout (stdout w ++ [(Prompt, [Lit "Enter the path to the file (Text/CSV): "])])
         w) in
  process_file_with_video_urls w
  = for_each (map url_of_line (readlines data))
      (fun url => fetch_single_video (Some url)) asked
  /\ exists w',
       process_file_with_video_urls w = (Ok tt, w')
       /\ stdin w' = rest /\ dom (fs_files w) ⊆ dom (fs_files w').
Proof.
  intros Hin Hstrip Hquote Hne Hcsv Hfile asked.
  rewrite (process_file_with_video_urls_read w typed file_path data rest) by done.
  fold asked. rewrite Hcsv.
  destruct (fetch_all_run (map url_of_line (readlines data)) asked)
    as (w' & Hrun & Hstdin & Hdom).
  unfold try_except. rewrite Hrun. split; [done|]. by exists w'.
Qed.

Lemma csv_urls_ok (rows : list (list pystr)) : forall urls,
  Forall (fun row => row <> []) rows ->
  csv_urls (map Ok rows) urls
  = Ok (urls ++ map (fun row => py "https://www.youtube.com/watch?v=" ++ strip (hd [] row))
                    rows).
Proof.
  induction rows as [|row rows IH]; intros urls Hall; simpl.
  - by rewrite app_nil_r.
  - apply Forall_cons in Hall as [Hrow Hall]. destruct row as [|first more]; [done|].
    rewrite IH by done. simpl. by rewrite <- app_assoc.
Qed.

Lemma csv_urls_bad (rows : list (result (list pystr))) : forall urls,
  Exists (fun row => row = Ok [] \/ exists e, row = Raise e) rows ->
  exists e, csv_urls rows urls = Raise e.
Proof.
  induction rows as [|row rows IH]; intros urls Hbad.
  - by apply Exists_nil in Hbad.
  - apply Exists_cons in Hbad as [[->|[e ->]]|Hbad]; simpl; [by eexists|by eexists|].
    destruct row as [[|first more]|e]; [by eexists| |by eexists]. by apply IH.
Qed.

(** X21.  A CSV file of videos.  The first row is taken for a header
    and skipped; of every other row the first field, trimmed, is
    fetched as a video identifier, in the order of the file.  The URLs
    are collected before any video is fetched: when one row is empty or
    the reader fails on one, or when the file has no row at all, the
    function reports an error and fetches nothing, the rows before the
    bad one included. *)
Theorem process_file_with_video_urls_csv
    (w : world) (typed file_path data : pystr) (rest : list pystr) :
  stdin w = typed :: rest ->
  strip typed = file_path ->
  startswith file_path [34%N] && endswith file_path [34%N] = false ->
  endswith file_path (py ".csv") = true ->
  fs_files w !! resolve file_path = Some (File data true) ->
  let asked :=
    set_stdin rest
      (set_stdout (stdout w ++ [(Prompt, [Lit "Enter the path to the file (Text/CSV): "])])
         w) in
  (forall header rows,
     csv_reader data = Ok header :: map Ok rows ->
     Forall (fun row => row <> []) rows ->
     process_file_with_video_urls w
     = for_each
         (map (fun row => py "https://www.youtube.com/watch?v=" ++ strip (hd [] row)) rows)
         (fun url => fetch_single_video (Some url)) asked)
  /\ (forall header rows,
        csv_reader data = header :: rows ->
        (exists e, header = Raise e)
        \/ Exists (fun row => row = Ok [] \/ exists e, row = Raise e) rows ->
        exists what,
          process_file_with_video_urls w
          = (Ok tt,
             set_stdout
               (stdout asked
                ++ [(Plain, [Lit "An error occurred while processing the file: "; what])])
               asked))
  /\ (csv_reader data = [] ->
      process_file_with_video_urls w
      = (Ok tt,
         set_stdout
           (stdout asked
            ++ [(Plain, [Lit "An error occurred while processing the file: "; FStr []])])
           asked)).
Proof.
  intros Hin Hstrip Hquote Hcsv Hfile asked.
  assert (file_path <> []) as Hne by (intros ->; done).
  rewrite (process_file_with_video_urls_read w typed file_path data rest) by done.
  fold asked. rewrite Hcsv. split_and!.
  - intros header rows -> Hrows. rewrite csv_urls_ok by done. rewrite app_nil_l.
    destruct (fetch_all_run
                (map (fun row => py "https://www.youtube.com/watch?v=" ++ strip (hd [] row))
                     rows) asked) as (w' & Hrun & _).
    unfold try_except. by rewrite Hrun.
  - intros header rows -> Hbad.
    destruct header as [header|e]; [|by eexists].
    destruct Hbad as [[e [=]]|Hbad].
    destruct (csv_urls_bad rows [] Hbad) as [e ->]. by eexists.
  - intros ->. reflexivity.
Qed.

Lemma ends_in_space_snoc (s : pystr) (c : N) : ends_in_space (s ++ [c]) = is_space c.
Proof. unfold ends_in_space. by rewrite rev_app_distr. Qed.

Lemma strip_id (s : pystr) :
  starts_in_space s = false -> ends_in_space s = false -> strip s = s.
Proof. intros Hs He. unfold strip. by rewrite lstrip_id, rstrip_id. Qed.

Lemma slice_inner_quoted (p : pystr) : slice_inner ([34%N] ++ p ++ [34%N]) = p.
Proof.
  unfold slice_inner.
  change (skipn 1 ([34%N] ++ p ++ [34%N])) with (p ++ [34%N]).
  replace (length ([34%N] ++ p ++ [34%N]) - 2) with (length p)
    by (rewrite !length_app; simpl; lia).
  rewrite firstn_app, firstn_all, Nat.sub_diag. simpl. apply app_nil_r.
Qed.

(** X22.  A path typed between double quotes is the path without them:
    the function does the same for the two lines, down to the last
    character it prints, provided the path itself has no blank or
    quote at both of its ends to be taken off. *)
Theorem process_file_with_video_urls_quoted (w : world) (p : pystr) (rest : list pystr) :
  strip p = p ->
  startswith p [34%N] && endswith p [34%N] = false ->
  process_file_with_video_urls (set_stdin (([34%N] ++ p ++ [34%N]) :: rest) w)
  = process_file_with_video_urls (set_stdin (p :: rest) w).
Proof.
  intros Hstrip Hquote. unfold process_file_with_video_urls.
  rewrite (bind_ok _ _ _ _ _
             (input_run [Lit "Enter the path to the file (Text/CSV): "]
                (set_stdin (([34%N] ++ p ++ [34%N]) :: rest) w) _ rest eq_refl)).
  rewrite (bind_ok _ _ _ _ _
             (input_run [Lit "Enter the path to the file (Text/CSV): "]
                (set_stdin (p :: rest) w) _ rest eq_refl)).
  cbv beta zeta. rewrite Hstrip, Hquote.
  assert (strip ([34%N] ++ p ++ [34%N]) = [34%N] ++ p ++ [34%N]) as ->.
  { apply strip_id; [by vm_compute|].
    rewrite app_assoc, ends_in_space_snoc. by vm_compute. }
  assert (startswith ([34%N] ++ p ++ [34%N]) [34%N]
          && endswith ([34%N] ++ p ++ [34%N]) [34%N] = true) as ->.
  { rewrite app_assoc, endswith_last. reflexivity. }
  rewrite slice_inner_quoted. reflexivity.
Qed.

Lemma id_char_not_space (c : N) : is_id_char c = true -> is_space c = false.
Proof.
  unfold is_id_char, is_space, ascii_space, in_range.
  intros H. destruct (N.ltb_spec c 128).
  - repeat match goal with
           | |- context [(?a <=? ?b)%N] => destruct (N.leb_spec a b)
           | H : context [(?a <=? ?b)%N] |- _ => destruct (N.leb_spec a b)
           | H : context [(?a =? ?b)%N] |- _ => destruct (N.eqb_spec a b)
           end; simpl in *; try done; lia.
  - exfalso.
    repeat match goal with
           | H : context [(?a <=? ?b)%N] |- _ => destruct (N.leb_spec a b)
           | H : context [(?a =? ?b)%N] |- _ => destruct (N.eqb_spec a b)
           end; simpl in *; try done; lia.
Qed.

Lemma drop_while_spaces (blanks s : pystr) :
  forallb is_space blanks = true -> starts_in_space s = false ->
  drop_while is_space (blanks ++ s) = s.
Proof.
  intros Hb Hs. induction blanks as [|c blanks IH]; simpl.
  - destruct s as [|c s]; [done|]. simpl in *. by rewrite Hs.
  - simpl in Hb. apply andb_true_iff in Hb as [-> Hb]. by apply IH.
Qed.

Lemma strip_blanks (before word after : pystr) :
  forallb is_space before = true -> forallb is_space after = true ->
  starts_in_space word = false -> ends_in_space word = false ->
  strip (before ++ word ++ after) = word.
Proof.
  intros Hb Ha Hs He. unfold strip, lstrip, rstrip.
  destruct word as [|c word].
  - replace (before ++ [] ++ after) with ((before ++ after) ++ [])
      by (by rewrite app_nil_r).
    rewrite (drop_while_spaces (before ++ after) []); [done| |done].
    rewrite forallb_app. by rewrite Hb, Ha.
  - rewrite drop_while_spaces; [|done|by destruct after].
    rewrite rev_app_distr, drop_while_spaces; [apply rev_involutive| |done].
    by apply forallb_rev_true.
Qed.

(** X23.  A line of a text file that holds a video identifier, with or
    without blanks around it, is fetched as that video: the identifier
    found in the URL made of the line is the one on the line.  A line
    that starts with "https://" is used as it is, once trimmed.  A blank
    line is not skipped: it gives a URL without identifier. *)
Theorem url_of_line_round_trip (before id after : pystr) :
  forallb is_space before = true -> forallb is_space after = true ->
  length id = 11 -> forallb is_id_char id = true ->
  url_of_line (before ++ id ++ after) = py "https://www.youtube.com/watch?v=" ++ id
  /\ search_video_id (url_of_line (before ++ id ++ after)) = Some id
  /\ url_of_line (before ++ py "https://youtu.be/" ++ id ++ after)
     = py "https://youtu.be/" ++ id
  /\ search_video_id (url_of_line (before ++ after)) = None.
Proof.
  intros Hb Ha Hlen Hall.
  assert (starts_in_space id = false /\ ends_in_space id = false) as [Hs He].
  { split.
    - destruct id as [|c id]; [done|]. simpl in Hall.
      apply andb_true_iff in Hall as [Hc _]. by apply id_char_not_space.
    - destruct id as [|c id] using rev_ind; [done|].
      rewrite ends_in_space_snoc. rewrite forallb_app in Hall.
      apply andb_true_iff in Hall as [_ Hc]. simpl in Hc.
      apply id_char_not_space. by destruct (is_id_char c). }
  assert (url_of_line (before ++ id ++ after) = py "https://www.youtube.com/watch?v=" ++ id)
    as Hurl.
  { unfold url_of_line. cbv zeta. rewrite strip_blanks by done.
    replace (startswith id (py "https://")) with false; [done|].
    symmetry. unfold startswith. apply pystr_eqb_neq. intros E.
    assert (forallb is_id_char (firstn (length (py "https://")) id) = true) as Hpre
      by (by apply forallb_firstn).
    rewrite E in Hpre. by vm_compute in Hpre. }
  split; [done|]. split.
  { rewrite Hurl. rewrite <- (app_nil_r id) at 1. by apply search_video_id_watch. }
  split.
  - unfold url_of_line. cbv zeta.
    rewrite (app_assoc (py "https://youtu.be/") id after).
    assert (starts_in_space (py "https://youtu.be/" ++ id) = false) as Hs' by reflexivity.
    assert (ends_in_space (py "https://youtu.be/" ++ id) = false) as He'.
    { destruct id as [|c id] using rev_ind; [done|].
      rewrite app_assoc, ends_in_space_snoc. rewrite forallb_app in Hall.
      apply andb_true_iff in Hall as [_ Hc]. simpl in Hc.
      apply id_char_not_space. by destruct (is_id_char c). }
    rewrite (strip_blanks before (py "https://youtu.be/" ++ id) after Hb Ha Hs' He').
    replace (startswith (py "https://youtu.be/" ++ id) (py "https://")) with true; [done|].
    symmetry. apply (startswith_app (py "https://") (py "youtu.be/" ++ id)).
  - unfold url_of_line. cbv zeta.
    rewrite <- (app_nil_l after), (strip_blanks before [] after) by done.
    by vm_compute.
Qed.

End Programs.

(* ================================================================== *)
(** * The programs at work                                              *)
(* ================================================================== *)

(** C3, at a title that fits the maximum length. *)
Lemma C3_sanitizers_idempotent_witness :
  let once :=
    sanitize_filename ascii_only (py "  Hello, World! (2024)  ")
      TRANSCRIPT_FILENAME_LENGTH in
  (8 <= TRANSCRIPT_FILENAME_LENGTH)%Z
  /\ once = py "Hello World 2024"
  /\ ends_in_space ascii_only once = false
  /\ sanitize_filename ascii_only once TRANSCRIPT_FILENAME_LENGTH = once.
Proof.
  intros once.
  destruct (C3_sanitizers_idempotent ascii_only (py "  Hello, World! (2024)  ")
              TRANSCRIPT_FILENAME_LENGTH) as (_ & Hsame & _); [by vm_compute|].
  split; [by vm_compute|]. split; [reflexivity|]. split; [reflexivity|].
  apply Hsame. reflexivity.
Defined.

(** C3 as it was stated fails for the downloader's sanitizer: the name
    it gives a 49-character title ends in a blank, which a second pass
    removes. *)
Lemma C3_counterexample :
  sanitize_filename ascii_only long_title 36 = py "Learn Python in one hour a complete "
  /\ sanitize_filename ascii_only (sanitize_filename ascii_only long_title 36) 36
     = py "Learn Python in one hour a complete"
  /\ sanitize_filename ascii_only (sanitize_filename ascii_only long_title 36) 36
     <> sanitize_filename ascii_only long_title 36.
Proof. split; [reflexivity|]. split; [reflexivity|]. by vm_compute. Qed.

(** C5, at a duration with a day part and at one with all three
    components. *)
Lemma C5_format_duration_witness :
  startswith (py "P1DT2H") (py "PT") = false
  /\ format_duration ascii_only (py "P1DT2H") = py "00:00"
  /\ format_duration ascii_only (py "PT7H8M59S") = py "07:08".
Proof.
  pose proof (C5_format_duration ascii_only) as (_ & _ & Hnone & _ & Hshape).
  split; [reflexivity|]. split; [by apply Hnone|].
  apply (Hshape (Some (py "7")) (Some (py "8")) (Some (py "59"))); by split.
Defined.

(** C5 as it was stated fails: "PT5Mxyz" is not of the shape of a
    duration, and the result is not "00:00". *)
Lemma C5_counterexample :
  ~ iso_duration_shape ascii_only (py "PT5Mxyz")
  /\ format_duration ascii_only (py "PT5Mxyz") = py "00:05"
  /\ ~ (forall s, ~ iso_duration_shape ascii_only s ->
                  format_duration ascii_only s = py "00:00").
Proof.
  assert (~ iso_duration_shape ascii_only (py "PT5Mxyz")) as Hshape.
  { intros H%iso_duration_shape_last. vm_compute in H.
    destruct H as [H|[H|[H|H]]]; discriminate H. }
  split; [exact Hshape|]. split; [reflexivity|].
  intros H. specialize (H _ Hshape). vm_compute in H. discriminate H.
Qed.

(** The pattern is matched at the start of the string only: what comes
    after the last component it reads is not looked at. *)
Lemma format_duration_reads_prefix :
  format_duration ascii_only (py "PT5Mxyz") = py "00:05"
  /\ format_duration ascii_only (py "PT1H30") = py "01:00"
  /\ format_duration ascii_only (py "PTxyz") = py "00:00".
Proof. repeat split; reflexivity. Qed.

Lemma C9_minutes_not_carried_witness :
  py_int ascii_only (py "135") = Some 135%N /\ (60 <= 135)%N
  /\ format_duration ascii_only (py "PT2H135M9S") = py "02:135".
Proof.
  split; [reflexivity|]. split; [lia|].
  pose proof (C9_minutes_not_carried ascii_only) as (_ & _ & H).
  apply (H (Some (py "2")) (py "135") (Some (py "9")) 135%N); try by split. lia.
Defined.

(** C1, at a response whose summary is empty. *)
Lemma C1_invalid_response_rejected_witness :
  let w := demo_world ∅ ∅ [] [reply empty_summary_response] in
  let run := reformat_transcript ascii_only ref_loads ref_dumps demo_document w in
  invalid_response ref_loads (Some (ref_dumps false None empty_summary_response)) = true
  /\ fst run = Ok JNull
  /\ fs_files (snd run) = ∅ /\ fs_dirs (snd run) = ∅.
Proof.
  intros w run. split; [reflexivity|].
  destruct (C1_invalid_response_rejected ascii_only ref_loads ref_dumps
              demo_document demo_metadata JNull (py "hello world") w demo_client
              (Some (ref_dumps false None empty_summary_response)) [])
    as (w' & report & Hrun & _ & Hfiles & Hdirs).
  - eexists. repeat split; reflexivity.
  - split; [reflexivity|]. split; [reflexivity|]. eexists _, _. repeat split; reflexivity.
  - reflexivity.
  - unfold run. rewrite Hrun. simpl. by rewrite Hfiles, Hdirs.
Defined.



(** C8, at the credentials of the sample store. *)
Lemma C8_set_provider_witness :
  let w := demo_world credentials_store ∅ [] [] in
  credentials ref_loads w demo_api_keys demo_providers
  /\ fst (set_provider ref_loads (py "other") w) = Ok other_profile
  /\ _client (snd (set_provider ref_loads (py "other") w))
     = Some (Client (JStr (py "sk-other")) (JStr (py "https://other.example/v1")))
  /\ fst (set_provider ref_loads (py "nobody") w) = Raise TypeError
  /\ _client (snd (set_provider ref_loads (py "nobody") w)) = Some demo_client.
Proof.
  intros w.
  assert (credentials ref_loads w demo_api_keys demo_providers) as Hcred.
  { exists (ref_dumps true (Some 2) demo_api_keys). repeat split; by vm_compute. }
  split; [exact Hcred|].
  destruct (C8_set_provider ref_loads (py "other") w demo_api_keys demo_providers Hcred)
    as (Hfound & _).
  destruct (Hfound other_profile (JStr (py "sk-other"))
              (JStr (py "https://other.example/v1")) eq_refl eq_refl eq_refl)
    as (w' & Hrun & Hclient & _).
  destruct (C8_set_provider ref_loads (py "nobody") w demo_api_keys demo_providers Hcred)
    as (_ & Hmissing).
  destruct (Hmissing eq_refl) as (w'' & Hrun' & _ & Hclient' & _).
  rewrite Hrun, Hrun'. simpl. rewrite Hclient, Hclient'. by repeat split.
Defined.

(** C4, when the operator types "2" and "y". *)
Lemma C4_set_default_witness :
  let w := demo_world credentials_store ∅ [py "2"; py "y"] [] in
  let run := select_ai_provider ascii_only ref_loads ref_dumps w in
  credentials ref_loads w demo_api_keys demo_providers
  /\ fst run = Ok (Some tt)
  /\ fst (set_provider ref_loads (py "default") (snd run)) = Ok other_profile
  /\ _client (snd (set_provider ref_loads (py "default") (snd run)))
     = Some (Client (JStr (py "sk-other")) (JStr (py "https://other.example/v1"))).
Proof.
  intros w run.
  assert (credentials ref_loads w demo_api_keys demo_providers) as Hcred.
  { exists (ref_dumps true (Some 2) demo_api_keys). repeat split; by vm_compute. }
  split; [exact Hcred|].
  destruct (C4_set_default ascii_only ref_loads ref_dumps w demo_api_keys demo_providers
              1 (py "other") other_profile (py "2") (py "y") [])
    as (api_keys' & w' & Hset & Hrun & _ & _ & _ & _ & Hback); try reflexivity.
  - exact Hcred.
  - change (listed_providers demo_providers) with [py "demo"; py "other"].
    repeat constructor; eexists _, _; split; reflexivity.
  - vm_compute in Hset. injection Hset as <-.
    destruct Hback as (_ & Hactivate); [by vm_compute|].
    destruct (Hactivate (JStr (py "sk-other")) (JStr (py "https://other.example/v1"))
                eq_refl eq_refl) as (w'' & Hrun'' & Hclient & _).
    unfold run. rewrite Hrun. simpl. rewrite Hrun''. simpl. by rewrite Hclient.
Defined.



(** C6 (the code departs from it).  Two files of different content that
    cannot be read both hash to [None]: the second one visited is
    reported as a duplicate of the first. *)
Theorem C6_unreadable_files_reported_as_duplicates :
  let w := demo_world unreadable_store {[ [py "transcripts"] ]} [py "transcripts"] [] in
  let run := find_duplicate_transcripts ref_walk ref_sha1 w in
  map snd (ref_walk (fs_files w) (fs_dirs w) (py "transcripts")) = [[py "b.txt"; py "a.txt"]]
  /\ f_data <$> fs_files w !! [py "transcripts"; py "a.txt"] = Some (py "first talk")
  /\ f_data <$> fs_files w !! [py "transcripts"; py "b.txt"] = Some (py "second talk")
  /\ fst run = Ok tt
  /\ f_data <$> fs_files (snd run) !! [py "duplicates.txt"]
     = Some (py "Duplicate: transcripts/a.txt
Original: transcripts/b.txt

").
Proof. repeat split; by vm_compute. Qed.

(* ================================================================== *)
(** * Further properties at work                                        *)
(* ================================================================== *)

(** X2, at the long title: the second pass drops the blank the cut
    left, the third changes nothing. *)
Lemma sanitize_filename_settles_witness :
  let once := sanitize_filename ascii_only long_title 36 in
  let twice := sanitize_filename ascii_only once 36 in
  (8 <= 36)%Z
  /\ once = py "Learn Python in one hour a complete "
  /\ twice = py "Learn Python in one hour a complete"
  /\ sanitize_filename ascii_only twice 36 = twice.
Proof.
  intros once twice.
  destruct (sanitize_filename_settles ascii_only long_title 36) as (_ & Hstable & _); [lia|].
  split; [lia|]. split; [reflexivity|]. split; [reflexivity|]. exact Hstable.
Defined.



(** X10, at an operator who picks the second provider and declines. *)
Lemma select_ai_provider_needs_consent_witness :
  let w := demo_world credentials_store ∅ [py "2"; py "N"] [] in
  let run := select_ai_provider ascii_only ref_loads ref_dumps w in
  Forall (fun line => is_yes (lower ascii_only line) = false) (stdin w)
  /\ fst run = Ok (Some tt)
  /\ stdin (snd run) = []
  /\ fs_files (snd run) = fs_files w.
Proof.
  intros w run.
  assert (Forall (fun line => is_yes (lower ascii_only line) = false) (stdin w)) as Hno
    by (by repeat constructor).
  split; [exact Hno|]. split; [vm_compute; reflexivity|]. split; [vm_compute; reflexivity|].
  exact (select_ai_provider_needs_consent ascii_only ref_loads ref_dumps w Hno).
Defined.

(** X13, at a [config.json] with a length, a null and patterns of its
    own: the length is taken, the null leaves the default, the patterns
    replace all the default ones, and the key is that of
    [API_KEY.json]. *)
Lemma load_config_overrides_witness :
  let w := demo_world config_store ∅ [] [] in
  exists config,
    load_config ref_loads w = (Ok config, w)
    /\ assoc_get (py "API_KEY") config = Some (JStr (py "yt-key"))
    /\ assoc_get (py "TRANSCRIPT_FILENAME_LENGTH") config = Some (JInt 20)
    /\ assoc_get (py "LOGFILE_NAME") config = Some (JStr (py "script.log"))
    /\ assoc_get (py "ENABLE_LOGGING") config = Some (JBool true)
    /\ assoc_get (py "REGEX_PATTERNS") config
       = Some (JObj [(py "iso_duration", JStr (py "PT(\d+)M"))]).
Proof.
  intros w.
  destruct (load_config_overrides ref_loads w
              (ref_dumps true None (JObj demo_config))
              (ref_dumps true (Some 2) demo_api_keys)
              demo_config
              [(py "API_KEY", JStr (py "yt-key")); (py "ai-providers", JObj demo_providers)])
    as (config & Hrun & Hkey & Hothers).
  - vm_compute; reflexivity.
  - vm_compute; reflexivity.
  - apply (bool_decide_unpack _). vm_compute; reflexivity.
  - vm_compute; reflexivity.
  - vm_compute; reflexivity.
  - exists config. split; [exact Hrun|]. split; [exact Hkey|].
    split; [by rewrite Hothers|]. split; [by rewrite Hothers|].
    split; by rewrite Hothers.
Defined.


(** X18, at a service whose client cannot be built. *)
Lemma fetch_single_video_unknown_witness :
  let w := demo_world ∅ ∅ [] [] in
  let url := py "https://youtu.be/dQw4w9WgXcQ" in
  search_video_id url = Some demo_video_id
  /\ demo_get_transcript demo_video_id = TranscriptLines demo_lines
  /\ exists w',
       fetch_single_video ascii_only demo_str (Raise (APIError (py "no key")))
         demo_videos_list demo_get_transcript (Some url) w = (Ok tt, w')
       /\ is_Some (fs_files w'
                     !! [py "transcripts"; py "Unknown Channel"; py "Unknown Title.txt"]).
Proof.
  intros w url.
  assert (search_video_id url = Some demo_video_id) as Hid by (vm_compute; reflexivity).
  assert (demo_get_transcript demo_video_id = TranscriptLines demo_lines) as Hlines
    by (vm_compute; reflexivity).
  destruct (fetch_single_video_unknown ascii_only demo_str (Raise (APIError (py "no key")))
              demo_videos_list demo_get_transcript url demo_video_id demo_lines w Hid
              Hlines (or_introl (ex_intro _ _ eq_refl)))
    as (w' & Hrun & Hfiles).
  split; [exact Hid|]. split; [exact Hlines|].
  exists w'. split; [exact Hrun|]. rewrite Hfiles.
  unfold store. rewrite lookup_insert_eq. by eexists.
Defined.

(** X20, at a text file of two lines for the same video. *)
Lemma process_file_with_video_urls_text_witness :
  let w := demo_world lists_store ∅ [py " videos.txt "] [] in
  let data := py "  dQw4w9WgXcQ
https://youtu.be/dQw4w9WgXcQ
" in
  let run :=
    process_file_with_video_urls ascii_only demo_str (Ok tt) demo_videos_list
      demo_get_transcript demo_csv_reader w in
  strip ascii_only (py " videos.txt ") = py "videos.txt"
  /\ fs_files w !! resolve (py "videos.txt") = Some (File data true)
  /\ map (url_of_line ascii_only) (readlines data)
     = [py "https://www.youtube.com/watch?v=dQw4w9WgXcQ"; py "https://youtu.be/dQw4w9WgXcQ"]
  /\ exists w', run = (Ok tt, w') /\ stdin w' = [].
Proof.
  intros w data run.
  assert (strip ascii_only (py " videos.txt ") = py "videos.txt") as Hstrip
    by (vm_compute; reflexivity).
  assert (fs_files w !! resolve (py "videos.txt") = Some (File data true)) as Hfile
    by (vm_compute; reflexivity).
  destruct (process_file_with_video_urls_text ascii_only demo_str (Ok tt) demo_videos_list
              demo_get_transcript demo_csv_reader w (py " videos.txt ") (py "videos.txt")
              data [] eq_refl Hstrip eq_refl ltac:(done) eq_refl Hfile)
    as (_ & w' & Hrun & Hstdin & _).
  split; [exact Hstrip|]. split; [exact Hfile|]. split; [vm_compute; reflexivity|].
  by exists w'.
Defined.

(** X21, at a CSV file that ends in a blank line: the row before it is
    not fetched either. *)
Lemma process_file_with_video_urls_csv_witness :
  let w := demo_world lists_store ∅ [py "videos.csv"] [] in
  let data := py "Video ID,Title
dQw4w9WgXcQ,Intro

" in
  let run :=
    process_file_with_video_urls ascii_only demo_str (Ok tt) demo_videos_list
      demo_get_transcript demo_csv_reader w in
  fs_files w !! resolve (py "videos.csv") = Some (File data true)
  /\ demo_csv_reader data
     = [Ok [py "Video ID"; py "Title"]; Ok [py "dQw4w9WgXcQ"; py "Intro"]; Ok []]
  /\ fst run = Ok tt
  /\ fs_files (snd run) = fs_files w
  /\ exists what,
       last (stdout (snd run))
       = Some (Plain, [Lit "An error occurred while processing the file: "; what]).
Proof.
  intros w data run.
  assert (fs_files w !! resolve (py "videos.csv") = Some (File data true)) as Hfile
    by (vm_compute; reflexivity).
  assert (demo_csv_reader data
          = [Ok [py "Video ID"; py "Title"]; Ok [py "dQw4w9WgXcQ"; py "Intro"]; Ok []])
    as Hrows by (vm_compute; reflexivity).
  destruct (process_file_with_video_urls_csv ascii_only demo_str (Ok tt) demo_videos_list
              demo_get_transcript demo_csv_reader w (py "videos.csv") (py "videos.csv")
              data [] eq_refl eq_refl eq_refl eq_refl Hfile)
    as (_ & Hbad & _).
  destruct (Hbad (Ok [py "Video ID"; py "Title"])
                 [Ok [py "dQw4w9WgXcQ"; py "Intro"]; Ok []] Hrows) as (what & Hrun).
  { right. apply Exists_cons_tl, Exists_cons_hd. by left. }
  split; [exact Hfile|]. split; [exact Hrows|]. subst run. rewrite Hrun. cbn [fst snd].
  split; [reflexivity|]. split; [reflexivity|]. exists what.
  cbn [stdout set_stdout]. by rewrite last_snoc.
Defined.

(** X22, at the text file named between quotes. *)
Lemma process_file_with_video_urls_quoted_witness :
  let w := demo_world lists_store ∅ [] [] in
  let run := fun typed =>
    process_file_with_video_urls ascii_only demo_str (Ok tt) demo_videos_list
      demo_get_transcript demo_csv_reader (set_stdin [typed] w) in
  strip ascii_only (py "videos.txt") = py "videos.txt"
  /\ run ([34%N] ++ py "videos.txt" ++ [34%N]) = run (py "videos.txt").
Proof.
  intros w run. split; [vm_compute; reflexivity|].
  apply (process_file_with_video_urls_quoted ascii_only demo_str (Ok tt) demo_videos_list
           demo_get_transcript demo_csv_reader w (py "videos.txt") []);
    vm_compute; reflexivity.
Defined.

(** X23, at the identifier of the demo video between blanks. *)
Lemma url_of_line_round_trip_witness :
  forallb (is_space ascii_only) (py "  ") = true
  /\ forallb (is_space ascii_only) nl = true
  /\ length demo_video_id = 11 /\ forallb is_id_char demo_video_id = true
  /\ search_video_id (url_of_line ascii_only (py "  " ++ demo_video_id ++ nl))
     = Some demo_video_id.
Proof.
  destruct (url_of_line_round_trip ascii_only (py "  ") demo_video_id nl
              eq_refl eq_refl eq_refl eq_refl) as (_ & Hid & _).
  do 4 (split; [reflexivity|]). exact Hid.
Defined.

(** X1, at a name with a separator, a colon and a dot, and at the long
    title. *)
Lemma sanitize_filename_is_a_file_name_witness :
  sanitize_filename ascii_only (py " a/b: c.txt ") 36 = py "ab ctxt"
  /\ resolve (sanitize_filename ascii_only (py " a/b: c.txt ") 36)
     = [sanitize_filename ascii_only (py " a/b: c.txt ") 36]
  /\ sanitize_filename ascii_only (py "?!") 36 = py "untitled"
  /\ (Z.of_nat (length (sanitize_filename ascii_only long_title 36)) <= 36)%Z.
Proof.
  destruct (sanitize_filename_is_a_file_name ascii_only (py " a/b: c.txt ") 36)
    as (_ & _ & _ & Hres & _).
  destruct (sanitize_filename_is_a_file_name ascii_only long_title 36)
    as (_ & _ & _ & _ & Hlen).
  split; [vm_compute; reflexivity|]. split; [exact Hres|].
  split; [vm_compute; reflexivity|]. apply Hlen. lia.
Defined.

(** X3, at one hour, 135 minutes and nine seconds. *)
Lemma format_duration_of_numbers_witness :
  format_duration ascii_only (py "PT1H135M9S") = py "01:135"
  /\ py_int ascii_only (py "135") = Some 135%N.
Proof.
  destruct (format_duration_of_numbers ascii_only 1 135 9) as (Hout & _ & Hback & _).
  split; [|exact Hback].
  etrans; [exact Hout|]. vm_compute. reflexivity.
Defined.

(** X4, at a file that cannot be read. *)
Lemma compute_sha1_never_raises_witness :
  let w := demo_world unreadable_store {[ [py "transcripts"] ]} [] [] in
  exists e,
    compute_sha1 ref_sha1 (py "transcripts/a.txt") w
    = (Ok None,
       set_stdout
         (stdout w ++ [(LogError, [Lit "Error computing SHA1 for ";
                                   FStr (py "transcripts/a.txt"); Lit ": "; FExn e])]) w).
Proof.
  intros w.
  pose proof (compute_sha1_never_raises ref_sha1 (py "transcripts/a.txt") w) as Hrun.
  assert (fs_files w !! resolve (py "transcripts/a.txt")
          = Some (File (py "first talk") false)) as Hfile by (vm_compute; reflexivity).
  rewrite Hfile in Hrun. exact Hrun.
Defined.


(** X8, at a reformatter made where there is no credentials file. *)
Lemma set_provider_all_or_nothing_witness :
  let w := demo_world ∅ ∅ [] [] in
  exists e made,
    AiReformatter__init__ ref_loads (py "default") w = (Raise e, made)
    /\ _provider made = JNull /\ _client made = None.
Proof.
  intros w.
  destruct (set_provider_all_or_nothing ref_loads (py "default") w)
    as (_ & _ & _ & _ & Hinit).
  revert Hinit.
  destruct (AiReformatter__init__ ref_loads (py "default") w) as [[u|e] made] eqn:Hrun.
  - vm_compute in Hrun. discriminate Hrun.
  - intros Hinit. by exists e, made.
Defined.

(** X9, at a menu shown where nothing is typed and there is no
    credentials file. *)
Lemma select_ai_provider_returns_witness :
  let w := demo_world ∅ ∅ [] [] in
  exists w',
    select_ai_provider ascii_only ref_loads ref_dumps w = (Ok (Some tt), w')
    /\ _client w' = Some demo_client /\ fs_dirs w' = ∅.
Proof.
  intros w.
  destruct (select_ai_provider_returns ascii_only ref_loads ref_dumps w)
    as (w' & Hrun & _ & Hclient & _ & _ & Hdirs & _).
  exists w'. split; [exact Hrun|]. split; [exact Hclient|exact Hdirs].
Defined.

(** X11, at the demo channel and title. *)
Lemma save_transcript_writes_witness :
  let w := demo_world ∅ ∅ [] [] in
  sanitize_filename ascii_only (py "My Channel!") TRANSCRIPT_FILENAME_LENGTH = py "My Channel"
  /\ sanitize_filename ascii_only (py "Intro: part 1") TRANSCRIPT_FILENAME_LENGTH
     = py "Intro part 1"
  /\ exists w',
       save_transcript ascii_only demo_str (py "https://youtu.be/dQw4w9WgXcQ") demo_lines
         (JStr (py "My Channel!")) (JStr (py "Intro: part 1")) w = (Ok tt, w')
       /\ is_Some (fs_files w' !! [py "transcripts"; py "My Channel"; py "Intro part 1.txt"])
       /\ stdout w' = [].
Proof.
  intros w.
  assert (sanitize_filename ascii_only (py "My Channel!") TRANSCRIPT_FILENAME_LENGTH
          = py "My Channel") as Hchannel by (vm_compute; reflexivity).
  assert (sanitize_filename ascii_only (py "Intro: part 1") TRANSCRIPT_FILENAME_LENGTH
          = py "Intro part 1") as Htitle by (vm_compute; reflexivity).
  destruct (save_transcript_writes ascii_only demo_str (py "https://youtu.be/dQw4w9WgXcQ")
              (py "My Channel!") (py "Intro: part 1") demo_lines w)
    as (w' & Hrun & Hdata & _ & _ & Hout & _).
  rewrite Hchannel, Htitle in Hdata.
  split; [exact Hchannel|]. split; [exact Htitle|].
  exists w'. split; [exact Hrun|]. split; [|exact Hout].
  change (py "Intro part 1.txt") with (py "Intro part 1" ++ py ".txt").
  by destruct (fs_files w' !! [py "transcripts"; py "My Channel";
                               py "Intro part 1" ++ py ".txt"]).
Defined.

(** X12, where neither file exists. *)
Lemma load_config_never_raises_witness :
  let w := demo_world ∅ ∅ [] [] in
  exists config out,
    load_config ref_loads w = (Ok config, set_stdout (stdout w ++ out) w)
    /\ assoc_get (py "TRANSCRIPT_FILENAME_LENGTH") config = Some (JInt 36)
    /\ is_Some (assoc_get (py "REGEX_PATTERNS") config).
Proof.
  intros w.
  destruct (load_config_never_raises ref_loads w) as (config & out & Hrun & Hkeys & Hdefault).
  exists config, out. split; [exact Hrun|]. split.
  - rewrite Hdefault; [reflexivity| |done].
    intros data items Hfile. vm_compute in Hfile. discriminate Hfile.
  - apply Hkeys. vm_compute. tauto.
Defined.

(** X14, at a watch URL with a time after the identifier. *)
Lemma search_video_id_round_trip_witness :
  length demo_video_id = 11 /\ forallb is_id_char demo_video_id = true
  /\ search_video_id (py "https://www.youtube.com/watch?v=" ++ demo_video_id ++ py "&t=10s")
     = Some demo_video_id.
Proof.
  destruct search_video_id_round_trip as [_ Hbuilt].
  destruct (Hbuilt demo_video_id (py "&t=10s") eq_refl eq_refl) as [Hwatch _].
  split; [reflexivity|]. split; [reflexivity|exact Hwatch].
Defined.

(** X15, at the demo video. *)
Lemma fetch_video_metadata_never_raises_witness :
  let w := demo_world ∅ ∅ [] [] in
  fetch_video_metadata ascii_only (Ok tt) demo_videos_list demo_video_id w
  = (Ok (JStr (py "Intro: part 1"), JStr (py "My Channel!"), JStr (py "2024-05-06"),
         JStr (py "10"), JStr (py "01:02")), w).
Proof.
  intros w.
  destruct (fetch_video_metadata_never_raises ascii_only (Ok tt) demo_videos_list
              demo_video_id w) as [_ Hfields].
  etrans; [eapply Hfields; vm_compute; reflexivity|]. vm_compute. reflexivity.
Defined.


(** X19, at the URL of the videos of a channel. *)
Lemma get_channel_id_from_url_direct_witness :
  let w := demo_world ∅ ∅ [] [] in
  let url := py "https://www.youtube.com/channel/UC123/videos" in
  contains (py "/@") url = false
  /\ exists pre channel_id,
       get_channel_id_from_url (Ok tt) (fun _ => Raise (APIError [])) url w
       = (Ok (Some (JStr channel_id)), w)
       /\ url = pre ++ py "channel/" ++ channel_id
       /\ contains (py "channel/") channel_id = false.
Proof.
  intros w url.
  destruct (get_channel_id_from_url_direct (Ok tt) (fun _ => Raise (APIError [])) url w)
    as [_ Hdirect].
  specialize (Hdirect eq_refl eq_refl).
  assert (contains (py "channel/") url = true) as Hchannel by (vm_compute; reflexivity).
  rewrite Hchannel in Hdirect. split; [reflexivity|exact Hdirect].
Defined.
